(** * cache_to_disk: a shallow embedding of [src/cache_to_disk/__init__.py]

    The development follows the source file top to bottom: the lock
    coordinator ([open_locked]), the key deriver ([get_hash_filename], with
    the SHA-1 digest and the Python renderings [str(tuple)], [str(dict)] and
    [repr(str)] it relies on), the artifact backend ([pickle_big_data],
    [unpickle_big_data]), the metadata registry, the eviction sweep
    ([delete_old_disk_caches]), the lookup ([cache_exists]) and the
    per-function wrapper built by [cache_to_disk]. *)

From Stdlib Require Import ZArith QArith.
From Stdlib Require Import Strings.Ascii Strings.String Strings.Byte.
From stdpp Require Import gmap strings list.

Local Open Scope Z_scope.

(** ** Bytes and strings *)

Abbreviation bytes := (list byte).

Definition byte_val (b : byte) : Z := Z.of_N (Byte.to_N b).

(** A [string] stands for a Python [str] whose characters are code points
    below 256, one [ascii] per code point. *)
Definition code_point (c : ascii) : Z := Z.of_N (N_of_ascii c).

Definition byte_of_Z (n : Z) : byte :=
  match Byte.of_N (Z.to_N n) with Some b => b | None => x00 end.

(** The UTF-8 encoding of one code point below 256: itself below 128, two
    bytes from there on. *)
Definition utf8_char (c : ascii) : bytes :=
  let n := code_point c in
  if n <? 128 then [byte_of_Z n]
  else [byte_of_Z (192 + n / 64); byte_of_Z (128 + n mod 64)].

(** [str.encode()] *)
Fixpoint encode (s : string) : bytes :=
  match s with
  | EmptyString => []
  | String c s' => utf8_char c ++ encode s'
  end.

Definition squote : ascii := "'"%char.
Definition dquote : ascii := "034"%char.
Definition backslash : ascii := "\"%char.

Fixpoint has_char (c : ascii) (s : string) : bool :=
  match s with
  | EmptyString => false
  | String d s' => if Ascii.eqb c d then true else has_char c s'
  end.

Fixpoint ends_with (suffix s : string) : bool :=
  if String.eqb suffix s then true
  else match s with
       | EmptyString => false
       | String _ s' => ends_with suffix s'
       end.

Definition starts_with (p s : string) : bool := String.prefix p s.

Fixpoint join (sep : string) (l : list string) : string :=
  match l with
  | [] => EmptyString
  | [x] => x
  | x :: l' => x +:+ sep +:+ join sep l'
  end.

Definition hex_digit (n : Z) : ascii :=
  if n <? 10 then ascii_of_N (Z.to_N (48 + n)) else ascii_of_N (Z.to_N (87 + n)).



(** ** SHA-1 ([hashlib.sha1]), on 32-bit words kept in [Z] *)

Module Sha1.

Definition mask32 : Z := 0xFFFFFFFF.
Definition add32 (x y : Z) : Z := Z.land (x + y) mask32.
Definition rotl32 (n x : Z) : Z :=
  Z.land (Z.lor (Z.shiftl x n) (Z.shiftr x (32 - n))) mask32.
Definition not32 (x : Z) : Z := Z.lxor x mask32.

Definition be_bytes (width : nat) (x : Z) : list Z :=
  map (fun i => Z.land (Z.shiftr x (8 * Z.of_nat i)) 255) (rev (seq 0 width)).

Definition pad (msg : list Z) : list Z :=
  let len := Z.of_nat (length msg) in
  msg ++ [128] ++ repeat 0 (Z.to_nat ((55 - len) mod 64)) ++ be_bytes 8 (8 * len).

Fixpoint be_word (bs : list Z) (acc : Z) : Z :=
  match bs with
  | [] => acc
  | b :: bs' => be_word bs' (Z.lor (Z.shiftl acc 8) b)
  end.

Fixpoint words (n : nat) (bs : list Z) : list Z :=
  match n with
  | O => []
  | S n' => be_word (take 4 bs) 0 :: words n' (drop 4 bs)
  end.

Definition wnth (ws : list Z) (i : nat) : Z := nth i ws 0.

Fixpoint schedule (n : nat) (ws : list Z) : list Z :=
  match n with
  | O => ws
  | S n' =>
      let i := length ws in
      let w := rotl32 1 (Z.lxor (Z.lxor (wnth ws (i - 3)) (wnth ws (i - 8)))
                                (Z.lxor (wnth ws (i - 14)) (wnth ws (i - 16)))) in
      schedule n' (ws ++ [w])
  end.

Record regs := Regs { ra : Z; rb : Z; rc : Z; rd : Z; re : Z }.

Definition round (r : regs) (iw : nat * Z) : regs :=
  let '(i, w) := iw in
  let '(Regs a b c d e) := r in
  let '(f, k) :=
    if (i <? 20)%nat then (Z.lor (Z.land b c) (Z.land (not32 b) d), 0x5A827999)
    else if (i <? 40)%nat then (Z.lxor (Z.lxor b c) d, 0x6ED9EBA1)
    else if (i <? 60)%nat then
      (Z.lor (Z.lor (Z.land b c) (Z.land b d)) (Z.land c d), 0x8F1BBCDC)
    else (Z.lxor (Z.lxor b c) d, 0xCA62C1D6) in
  let temp := add32 (add32 (add32 (add32 (rotl32 5 a) f) e) k) w in
  Regs temp a (rotl32 30 b) c d.

Definition compress (h : regs) (block : list Z) : regs :=
  let ws := schedule 64 (words 16 block) in
  let r := fold_left round (combine (seq 0 80) ws) h in
  Regs (add32 (ra h) (ra r)) (add32 (rb h) (rb r)) (add32 (rc h) (rc r))
       (add32 (rd h) (rd r)) (add32 (re h) (re r)).

Fixpoint blocks (n : nat) (h : regs) (bs : list Z) : regs :=
  match n with
  | O => h
  | S n' => blocks n' (compress h (take 64 bs)) (drop 64 bs)
  end.

Definition init : regs :=
  Regs 0x67452301 0xEFCDAB89 0x98BADCFE 0x10325476 0xC3D2E1F0.

Definition digest (msg : bytes) : list Z :=
  let p := pad (map byte_val msg) in
  let r := blocks (length p / 64)%nat init p in
  concat (map (be_bytes 4) [ra r; rb r; rc r; rd r; re r]).

Fixpoint hex (bs : list Z) : string :=
  match bs with
  | [] => EmptyString
  | b :: bs' => String (hex_digit (Z.shiftr b 4)) (String (hex_digit (Z.land b 15)) (hex bs'))
  end.

(** [hashlib.sha1(data).hexdigest()] *)
Definition hexdigest (msg : bytes) : string := hex (digest msg).

End Sha1.

(** ** Python dictionaries

    A [dict] keeps its keys in insertion order; assignment to a present key
    keeps the key's position, assignment to a new key appends it. *)

Definition dict (V : Type) : Type := list (string * V).

Fixpoint dict_get {V} (d : dict V) (k : string) : option V :=
  match d with
  | [] => None
  | (k', v) :: d' => if String.eqb k' k then Some v else dict_get d' k
  end.

Definition dict_mem {V} (d : dict V) (k : string) : bool :=
  match dict_get d k with Some _ => true | None => false end.

Fixpoint dict_set {V} (d : dict V) (k : string) (v : V) : dict V :=
  match d with
  | [] => [(k, v)]
  | (k', v') :: d' =>
      if String.eqb k' k then (k, v) :: d' else (k', v') :: dict_set d' k v
  end.

Fixpoint dict_pop {V} (d : dict V) (k : string) : dict V :=
  match d with
  | [] => []
  | (k', v') :: d' => if String.eqb k' k then d' else (k', v') :: dict_pop d' k
  end.

(** ** Python renderings used to build the cache key *)

Definition hex2 (n : Z) : string :=
  String (hex_digit (n / 16)) (String (hex_digit (n mod 16)) EmptyString).

(** [str.isprintable] on one code point below 256: the controls (0 to 31
    and 127 to 159), the no-break space (160) and the soft hyphen (173) are
    not printable. *)
Definition isprintable (n : Z) : bool :=
  negb ((n <? 32) || ((127 <=? n) && (n <=? 160)) || (n =? 173)).

(** One character of [repr(str)] inside quotes [q]: backslash and the quote
    are escaped, tab, newline and carriage return have their letters, every
    other character that is not printable is written [\xhh]. *)
Definition repr_char (q c : ascii) : string :=
  let n := code_point c in
  if Ascii.eqb c backslash then String backslash (String backslash EmptyString)
  else if Ascii.eqb c q then String backslash (String q EmptyString)
  else if n =? 9 then "\t"
  else if n =? 10 then "\n"
  else if n =? 13 then "\r"
  else if negb (isprintable n) then "\x" +:+ hex2 n
  else String c EmptyString.

Fixpoint repr_body (q : ascii) (s : string) : string :=
  match s with
  | EmptyString => EmptyString
  | String c s' => repr_char q c +:+ repr_body q s'
  end.

(** [repr(s)] for a [str]: double quotes only when [s] holds a single quote
    and no double quote. *)
Definition repr_str (s : string) : string :=
  let q := if has_char squote s && negb (has_char dquote s) then dquote else squote in
  String q (repr_body q s +:+ String q EmptyString).



(** [str(t)] for a tuple whose elements have the given [repr]s. *)
Definition str_tuple (items : list string) : string :=
  match items with
  | [x] => "(" +:+ x +:+ ",)"
  | _ => "(" +:+ join ", " items +:+ ")"
  end.

(** [str(d)] for a dict with [str] keys whose values have the given [repr]s. *)
Definition str_dict (items : dict string) : string :=
  "{" +:+ join ", " (map (fun kv => repr_str kv.1 +:+ ": " +:+ kv.2) items) +:+ "}".

(** ** Key deriver *)

(** [get_hash_filename(function_name, *args, **kwargs)].  [args] and
    [kwargs] carry the [repr] of each star-argument. *)
Definition get_hash_filename (function_name : string) (args : list string)
    (kwargs : dict string) : string :=
  let filename := function_name +:+ "_" +:+ str_tuple args +:+ "_" +:+ str_dict kwargs in
  let hash_str := Sha1.hexdigest (encode filename) in
  function_name +:+ "_" +:+ hash_str.

(** The call made by [cache_exists] and [cache_function_value]:
    [get_hash_filename(function_name, str(args), str(kwargs))], two
    positional [str] arguments and no keyword argument. *)
Definition signature_key (function_name : string) (args : list string)
    (kwargs : dict string) : string :=
  get_hash_filename function_name
    [repr_str (str_tuple args); repr_str (str_dict kwargs)] [].


(** ** Errors *)

Inductive exn : Type :=
  | AssertionError
  | TypeError
  | KeyError
  | AttributeError
  | FileNotFoundError
  | LockTimeout
  | CodecError            (* whatever pickle, numpy or json raise on bad input *)
  | Exception (msg : string)
  | UserError (tag : string).

Inductive result (A : Type) : Type :=
  | Ok (a : A)
  | Raise (e : exn).
Arguments Ok {A} a.
Arguments Raise {A} e.

Definition raises {A} (r : result A) : bool :=
  match r with Ok _ => false | Raise _ => true end.

(** ** Lock coordinator *)

Module Lock.

(** [DISK_CACHE_LOCK_MAX_WAIT] and [DISK_CACHE_LOCK_INTERVAL], seconds. *)
Record config : Type := Config {
  DISK_CACHE_LOCK_MAX_WAIT : Q;
  DISK_CACHE_LOCK_INTERVAL : Q
}.

(** The values used when the environment sets neither variable. *)
Definition default_config : config := Config (10 # 1) (1 # 10).

Inductive flags : Type := LOCK_EX_NB | LOCK_SH_NB.

(** What [fcntl.flock(lockfd, flags)] does at a given attempt. *)
Inductive flock_result : Type := Granted | BlockingIOError.

(** The environment of one acquisition: the answer of [flock] at each
    attempt, and whether [open(path, mode)] succeeds once the lock is held. *)
Record env : Type := Env {
  flock : flags -> nat -> flock_result;
  open_ok : bool
}.

(** The loop variables, with the number of attempts made and the time
    spent in [sleep] so far. *)
Record loop_state : Type := LoopState {
  elapsed : Q;
  attempts : nat;
  slept : Q
}.

Inductive outcome : Type :=
  | Yielded (s : loop_state)     (* lock held, [fd] handed to the body *)
  | RaisedIOError (s : loop_state)
  | RaisedLockTimeout (s : loop_state).

Definition Qlt_bool (x y : Q) : bool := negb (Qle_bool y x).

(** One evaluation of the [while] test and, when it holds, of the body. *)
Definition loop_step (c : config) (e : env) (fl : flags) (s : loop_state)
    : loop_state + outcome :=
  if Qlt_bool (elapsed s) (DISK_CACHE_LOCK_MAX_WAIT c) then
    match flock e fl (attempts s) with
    | Granted => if open_ok e then inr (Yielded s) else inr (RaisedIOError s)
    | BlockingIOError =>
        (* logger.warning(...); sleep(DISK_CACHE_LOCK_INTERVAL) *)
        inl (LoopState (elapsed s) (S (attempts s))
                       (Qred (slept s + DISK_CACHE_LOCK_INTERVAL c)))
    end
  else inr (RaisedLockTimeout s).

(** [fuel] bounds the number of loop iterations observed; [None] means the
    loop is still running after that many. *)
Fixpoint run (c : config) (e : env) (fl : flags) (fuel : nat) (s : loop_state)
    : option outcome :=
  match fuel with
  | O => None
  | S fuel' =>
      match loop_step c e fl s with
      | inr o => Some o
      | inl s' => run c e fl fuel' s'
      end
  end.

Definition open_locked (c : config) (e : env) (fl : flags) (fuel : nat)
    : option outcome :=
  run c e fl fuel (LoopState 0 0 0).

Definition open_exclusive (c : config) (e : env) (fuel : nat) : option outcome :=
  open_locked c e LOCK_EX_NB fuel.

Definition open_shared (c : config) (e : env) (fuel : nat) : option outcome :=
  open_locked c e LOCK_SH_NB fuel.

(** Another process holds the lock for good. *)
Definition wedged : env := Env (fun _ _ => BlockingIOError) true.

(** No other process holds the lock. *)
Definition uncontended : env := Env (fun _ _ => Granted) true.

End Lock.

(** ** Values, codecs and the file system

    From here on one process runs alone: every [flock] is granted at the
    first attempt, so [open_exclusive] and [open_shared] behave as [open].
    The [.lock] siblings they create are not artifacts and are not tracked. *)

Record ndarray : Type := NdArray {
  dtype : string;
  shape : list Z;
  elems : bytes
}.

(** The results of a wrapped function, by the cases the source tells apart:
    [None], a [numpy.ndarray], a [numpy.memmap] (with its [filename]), and
    any other object, named by an opaque token. *)
Inductive value : Type :=
  | VNone
  | VObj (o : string)
  | VArray (a : ndarray)
  | VMemmap (filename : string) (a : ndarray).

Definition is_ndarray (v : value) : bool :=
  match v with VArray _ | VMemmap _ _ => true | _ => false end.

Definition is_none (v : value) : bool :=
  match v with VNone => true | _ => false end.

(** The library calls of the artifact backend.  Each decoder may raise. *)
Class Codec : Type := {
  pickle_dumps : value -> result bytes;        (* pickle.dumps(data, protocol=4) *)
  pickle_load : bytes -> result value;         (* pickle.load(f) on a file with this content *)
  pickle_loads : bytes -> result value;        (* pickle.loads(bytes_in) *)
  np_save : ndarray -> bytes;                  (* np.save(f, data) *)
  np_load : bytes -> result ndarray;           (* np.load(path, mmap_mode=...) *)
  np_memmap : bytes -> string -> list Z -> result ndarray;
                                               (* np.memmap(path, dtype, 'r', shape) *)
  json_dump_meta : string -> list Z -> bytes;  (* json.dump({'dtype': .., 'shape': ..}, f) *)
  json_load_meta : bytes -> result (string * list Z)
}.

Definition MAX_PICKLE_BYTES : N := 2 ^ 31 - 1.
Definition UNLIMITED_CACHE_AGE : Z := 0.
Definition _TOTAL_NUMCACHE_KEY : string := "total_number_of_cache_to_disks".

(** A registry row: [{"args", "kwargs", "file_name", "max_age_days"}].
    [max_age_days] is a JSON integer or [null]. *)
Record CacheEntry : Type := Entry {
  c_args : string;
  c_kwargs : string;
  c_file_name : string;
  c_max_age_days : option Z
}.

(** The registry document: the counter under [_TOTAL_NUMCACHE_KEY] and a
    list of rows under every function name. *)
Inductive reg_value : Type :=
  | Count (n : Z)
  | Rows (l : list CacheEntry).

Abbreviation Registry := (dict reg_value).

Record file : Type := File {
  f_data : bytes;
  f_mtime : Z            (* microseconds *)
}.

(** The disk and the clock.  [registry_file] is the content of
    [DISK_CACHE_FILE], [None] while that file does not exist; [files] holds
    every other path; [today] is [datetime.today()] in microseconds. *)
Record World : Type := Mk_World {
  registry_file : option Registry;
  files : gmap string file;
  today : Z
}.

Definition set_registry (w : World) (d : Registry) : World :=
  Mk_World (Some d) (files w) (today w).

Definition set_files (w : World) (fs : gmap string file) : World :=
  Mk_World (registry_file w) fs (today w).

Definition at_time (t : Z) (w : World) : World :=
  Mk_World (registry_file w) (files w) t.

Definition file_exists (w : World) (path : string) : bool :=
  match files w !! path with Some _ => true | None => false end.

(** [open(path, "w"/"wb")] followed by writing [b]. *)
Definition write_file (w : World) (path : string) (b : bytes) : World :=
  set_files w (<[path := File b (today w)]> (files w)).

(** [os.remove(path)] of an existing file. *)
Definition os_remove (w : World) (path : string) : World :=
  set_files w (delete path (files w)).

(** [os.path.join(a, b)] *)
Definition join_path (a b : string) : string :=
  if starts_with "/" b then b
  else if String.eqb a EmptyString || ends_with "/" a then a +:+ b
  else a +:+ "/" +:+ b.

Definition microseconds_per_day : Z := 86400000000.

(** [get_age_of_file(filename)]: the [days] field of
    [datetime.today() - datetime.fromtimestamp(getmtime(filename))]. *)
Definition get_age_of_file (w : World) (filename : string) : result Z :=
  match files w !! filename with
  | Some f => Ok ((today w - f_mtime f) / microseconds_per_day)
  | None => Raise FileNotFoundError
  end.

(** [age > max_age_days != UNLIMITED_CACHE_AGE], a chained comparison. *)
Definition is_stale (age max_age_days : Z) : bool :=
  (max_age_days <? age) && negb (max_age_days =? UNLIMITED_CACHE_AGE).

(** [int(function_cache["max_age_days"])] *)
Definition int_of_max_age (e : CacheEntry) : result Z :=
  match c_max_age_days e with
  | Some n => Ok n
  | None => Raise TypeError
  end.

(** ** Metadata registry *)

(** [write_cache_file(cache_metadata_dict)] *)
Definition write_cache_file (w : World) (d : Registry) : World := set_registry w d.

Definition empty_registry : Registry := [(_TOTAL_NUMCACHE_KEY, Count 0)].

(** [load_cache_metadata_json()] *)
Definition load_cache_metadata_json (w : World) : Registry * World :=
  match registry_file w with
  | Some d => (d, w)
  | None => (empty_registry, write_cache_file w empty_registry)
  end.

(** ** Slices and chunked file access *)

Definition lenN (l : bytes) : N := N.of_nat (length l).

Fixpoint takeN (n : N) (l : bytes) : bytes :=
  match l with
  | [] => []
  | x :: l' => if (n =? 0)%N then [] else x :: takeN (N.pred n) l'
  end.

Fixpoint dropN (n : N) (l : bytes) : bytes :=
  match l with
  | [] => []
  | x :: l' => if (n =? 0)%N then l else dropN (N.pred n) l'
  end.

(** [l[lo:hi]] *)
Definition slice (lo hi : N) (l : bytes) : bytes := takeN (hi - lo) (dropN lo l).

(** [range(0, stop, step)] for a positive [step]. *)
Definition py_range (stop step : N) : list N :=
  map (fun i => N.of_nat i * step)%N (seq 0 (N.to_nat ((stop + step - 1) / step))).

(** The loop of [pickle_big_data]: one [f_out.write] per chunk. *)
Definition write_chunks (bytes_out : bytes) : bytes :=
  fold_left
    (fun written idx => written ++ slice idx (idx + MAX_PICKLE_BYTES) bytes_out)
    (py_range (lenN bytes_out) MAX_PICKLE_BYTES) [].

(** An open file: its content and the read position. *)
Record handle : Type := Handle { h_content : bytes; h_pos : N }.

(** [f.read(n)] *)
Definition read (n : N) (h : handle) : bytes * handle :=
  let chunk := slice (h_pos h) (h_pos h + n) (h_content h) in
  (chunk, Handle (h_content h) (h_pos h + lenN chunk)).

(** The loop of [unpickle_big_data]: one [f_in.read] per chunk. *)
Definition read_chunks (input_size : N) (content : bytes) : bytes :=
  fst (fold_left
         (fun st _ => let '(bytes_in, h) := st in
                      let '(chunk, h') := read MAX_PICKLE_BYTES h in
                      (bytes_in ++ chunk, h'))
         (py_range input_size MAX_PICKLE_BYTES) ([], Handle content 0)).

(** ** Artifact backend *)

Section Backend.

Context {codec : Codec}.

(** [save_numpy(data, file_path)] for an array. *)
Definition save_numpy (w : World) (a : ndarray) (file_path : string) : World :=
  write_file w file_path (np_save a).

(** [load_numpy(file_path, mmap_mode)]: [None] on any failure. *)
Definition load_numpy (w : World) (file_path : string) : value :=
  match files w !! file_path with
  | None => VNone
  | Some f =>
      match np_load (f_data f) with
      | Ok a => VMemmap file_path a
      | Raise _ => VNone
      end
  end.

(** [load_np_memmap(file_path)]: [None] on any failure. *)
Definition load_np_memmap (w : World) (file_path : string) : value :=
  let meta_config := file_path +:+ ".json" in
  match files w !! meta_config with
  | None => VNone
  | Some m =>
      match json_load_meta (f_data m) with
      | Raise _ => VNone
      | Ok (dt, sh) =>
          match files w !! file_path with
          | None => VNone
          | Some f =>
              match np_memmap (f_data f) dt sh with
              | Ok a => VMemmap file_path a
              | Raise _ => VNone
              end
          end
      end
  end.

(** [rename_np_memmap(from_filepath, file_path, dtype, shape)] *)
Definition rename_np_memmap (w : World) (from_filepath file_path : string)
    (dt : string) (sh : list Z) : result value * World :=
  let meta_config := file_path +:+ ".json" in
  let w1 := write_file w meta_config (json_dump_meta dt sh) in
  let moved : result World :=
    if String.eqb from_filepath file_path then Ok w1
    else match files w1 !! from_filepath with
         | None => Raise FileNotFoundError
         | Some f => Ok (set_files w1 (<[file_path := f]> (delete from_filepath (files w1))))
         end in
  match moved with
  | Raise e => (Raise e, w1)
  | Ok w2 =>
      match files w2 !! file_path with
      | Some f =>
          match np_memmap (f_data f) dt sh with
          | Ok a => (Ok (VMemmap file_path a), w2)
          | Raise e => (Raise e, w2)
          end
      | None => (Ok VNone, w2)
      end
  end.

(** [pickle_big_data(data, file_path, rename_np_memmap_file)] *)
Definition pickle_big_data (w : World) (data : value) (file_path : string)
    (rename_np_memmap_file : bool) : result unit * World :=
  match data with
  | VMemmap _ a =>
      if rename_np_memmap_file then (Ok tt, w)
      else (Ok tt, save_numpy w a file_path)
  | VArray a => (Ok tt, save_numpy w a file_path)
  | _ =>
      match pickle_dumps data with
      | Raise e => (Raise e, w)
      | Ok bytes_out => (Ok tt, write_file w file_path (write_chunks bytes_out))
      end
  end.

(** [unpickle_big_data(file_path)] *)
Definition unpickle_big_data (w : World) (file_path : string) : result value :=
  let first_try : result value :=
    if ends_with ".npy" file_path then
      let meta_config := file_path +:+ ".json" in
      if file_exists w meta_config then Ok (load_np_memmap w file_path)
      else Ok (load_numpy w file_path)
    else
      match files w !! file_path with
      | None => Raise FileNotFoundError
      | Some f => pickle_load (f_data f)
      end in
  match first_try with
  | Ok v => Ok v
  | Raise _ =>
      (* logger.warning("Failed to unpickle %s", file_path) *)
      if ends_with ".npy" file_path then Ok VNone
      else
        match files w !! file_path with
        | None => Raise FileNotFoundError          (* os.path.getsize *)
        | Some f =>
            let input_size := lenN (f_data f) in
            pickle_loads (read_chunks input_size (f_data f))
        end
  end.

End Backend.

(** ** Eviction policy, lookup, store and the wrapper *)

(** What a call of the wrapped function does.  A function that returns may
    have mutated the objects it was given: [args_after] and [kwargs_after]
    are the renderings of the same positional and keyword arguments once the
    call is over (the tuple keeps its length and the dict its keys; they are
    the arguments of the call again when nothing was mutated). *)
Inductive outcome : Type :=
  | Returns (v : value) (args_after : list string) (kwargs_after : dict string)
  | RaisesNoCacheCondition (function_value : value)
  | RaisesError (tag : string).

(** [hits], [misses] and [nocache] are the wrapper's counters; [runs] counts
    the calls of [original_func] and is not in the source. *)
Record counters : Type := Counters {
  hits : nat;
  misses : nat;
  nocache : nat;
  runs : nat
}.

(** The arguments of [_cache_to_disk_wrapper].  A call passes the [repr] of
    each positional argument and, for each keyword, its name and the [repr]
    of its value. *)
Record Wrapped : Type := Mk_Wrapped {
  func_name : string;                                  (* original_func.__name__ *)
  original_func : list string -> dict string -> outcome;
  n_days_to_cache : option Z;
  except_arg_names : list string;
  rename_np_memmap_file : bool
}.

(** The [n_days_to_cache] argument of [cache_to_disk]: an [int] (a [bool]
    is the [int] it equals), [None], or anything else.  For anything else
    [equals_zero] is what the test [if n_days_to_cache == UNLIMITED_CACHE_AGE]
    makes of it: a truth value ([0.0] compares equal to zero) or the error
    the comparison or its truth value raises (an array has no truth value). *)
Inductive ttl_arg : Type :=
  | TtlInt (n : Z)
  | TtlNone
  | TtlOther (equals_zero : result bool).

Record decorator : Type := Decorator {
  dec_n_days_to_cache : option Z;
  dec_except_arg_names : list string;
  dec_rename_np_memmap_file : bool
}.

(** [cache_to_disk(n_days_to_cache, except_arg_names, rename_np_memmap_file)],
    with whether [warnings.warn] was called. *)
Definition cache_to_disk (n : ttl_arg) (except : list string) (rename : bool)
    : result decorator * bool :=
  let equals_unlimited : result bool :=
    match n with
    | TtlInt k => Ok (k =? UNLIMITED_CACHE_AGE)
    | TtlNone => Ok false
    | TtlOther z => z
    end in
  match equals_unlimited with
  | Raise e => (Raise e, false)
  | Ok warned =>
      match n with
      | TtlInt k => (Ok (Decorator (Some (if k <? 0 then 0 else k)) except rename), warned)
      | TtlNone => (Ok (Decorator None except rename), warned)
      | TtlOther _ => (Raise TypeError, warned)
      end
  end.


(** A call [g(p1, ..., pk, *args, **kwargs)] binds the parameters [p1] to
    [pk] of [g] by position; a keyword of [kwargs] named like one of them
    gives that parameter a second value, and the call raises [TypeError]
    before the body of [g] runs. *)
Definition binds_twice (params : list string) (kwargs : dict string) : bool :=
  existsb (dict_mem kwargs) params.

(** The parameters [wrapper] binds by position when it calls [cache_exists]
    and [cache_function_value]. *)
Definition cache_exists_params : list string :=
  ["cache_metadata"; "function_name"; "except_arg_names"].

Definition cache_function_value_params : list string :=
  ["function_value"; "n_days_to_cache"; "cache_metadata"; "rename_np_memmap_file";
   "function_name"].

(** [for arg_name in except_arg_names: if arg_name in kwargs: kwargs.pop(arg_name)] *)
Definition pop_excluded (except : list string) (kwargs : dict string) : dict string :=
  fold_left (fun kw arg_name => if dict_mem kw arg_name then dict_pop kw arg_name else kw)
            except kwargs.

(** The scan of [cache_exists] for the first row with the call's signature. *)
Definition row_matches (function_cache : CacheEntry) (sargs skwargs : string) : bool :=
  String.eqb (c_args function_cache) sargs && String.eqb (c_kwargs function_cache) skwargs.

Fixpoint find_max_age (rows : list CacheEntry) (sargs skwargs : string) : result Z :=
  match rows with
  | [] => Ok UNLIMITED_CACHE_AGE
  | function_cache :: rows' =>
      if row_matches function_cache sargs skwargs
      then int_of_max_age function_cache
      else find_max_age rows' sargs skwargs
  end.

Section Cache.

Context {codec : Codec}.
Variable DISK_CACHE_DIR : string.

(** The inner loop of [delete_old_disk_caches]. *)
Fixpoint sweep_rows (w : World) (function_caches to_keep : list CacheEntry)
    (cache_changed : bool) : result (list CacheEntry * bool) * World :=
  match function_caches with
  | [] => (Ok (to_keep, cache_changed), w)
  | function_cache :: rest =>
      match int_of_max_age function_cache with
      | Raise e => (Raise e, w)
      | Ok max_age_days =>
          let file_name := join_path DISK_CACHE_DIR (c_file_name function_cache) in
          if negb (file_exists w file_name) then sweep_rows w rest to_keep true
          else
            match get_age_of_file w file_name with
            | Raise e => (Raise e, w)
            | Ok age =>
                if negb (is_stale age max_age_days)
                then sweep_rows w rest (to_keep ++ [function_cache]) cache_changed
                else sweep_rows (os_remove w file_name) rest to_keep true
            end
      end
  end.

(** The outer loop of [delete_old_disk_caches]. *)
Fixpoint sweep_items (w : World) (items new_cache_metadata : Registry)
    (cache_changed : bool) : result (Registry * bool) * World :=
  match items with
  | [] => (Ok (new_cache_metadata, cache_changed), w)
  | (function_name, function_caches) :: rest =>
      if String.eqb function_name _TOTAL_NUMCACHE_KEY
      then sweep_items w rest new_cache_metadata cache_changed
      else
        match function_caches with
        | Count _ => (Raise TypeError, w)
        | Rows rows =>
            match sweep_rows w rows [] cache_changed with
            | (Raise e, w') => (Raise e, w')
            | (Ok (to_keep, cache_changed'), w') =>
                let new_cache_metadata' :=
                  match to_keep with
                  | [] => new_cache_metadata
                  | _ => dict_set new_cache_metadata function_name (Rows to_keep)
                  end in
                sweep_items w' rest new_cache_metadata' cache_changed'
            end
        end
  end.

(** [delete_old_disk_caches()] *)
Definition delete_old_disk_caches (w : World) : result unit * World :=
  let '(cache_metadata, w0) := load_cache_metadata_json w in
  let new_cache_metadata := cache_metadata in     (* deepcopy *)
  match sweep_items w0 cache_metadata new_cache_metadata false with
  | (Raise e, w') => (Raise e, w')
  | (Ok (new_cache_metadata', cache_changed), w') =>
      (Ok tt, if cache_changed then write_cache_file w' new_cache_metadata' else w')
  end.

(** The artifact [cache_exists] settles on: the [.npy] path when that file
    exists, else the [.pkl] path when that one does. *)
Definition resolve_artifact (w : World) (new_file_name : string) : option string :=
  let file_path_npy := join_path DISK_CACHE_DIR (new_file_name +:+ ".npy") in
  let file_path_pkl := join_path DISK_CACHE_DIR (new_file_name +:+ ".pkl") in
  if file_exists w file_path_npy then Some file_path_npy
  else if file_exists w file_path_pkl then Some file_path_pkl
  else None.

(** [cache_exists(cache_metadata, function_name, except_arg_names, *args, **kwargs)] *)
Definition cache_exists (w : World) (cache_metadata : Registry)
    (function_name : string) (except : list string)
    (args : list string) (kwargs : dict string)
    : result (bool * value) * World :=
  if (0 <? length except)%nat && negb (length args =? 0)%nat
  then (Raise AssertionError, w)
  else
    let kwargs := pop_excluded except kwargs in
    match dict_get cache_metadata function_name with
    | None => (Ok (false, VNone), w)
    | Some function_caches =>
        let new_file_name := signature_key function_name args kwargs in
        match resolve_artifact w new_file_name with
        | None => (Ok (false, VNone), w)
        | Some file_name =>
            let scanned :=
              match function_caches with
              | Count _ => Raise TypeError
              | Rows rows => find_max_age rows (str_tuple args) (str_dict kwargs)
              end in
            match scanned with
            | Raise e => (Raise e, w)
            | Ok max_age_days =>
                match get_age_of_file w file_name with
                | Raise e => (Raise e, w)
                | Ok age =>
                    if is_stale age max_age_days
                    then (Ok (false, VNone), os_remove w file_name)
                    else
                      match unpickle_big_data w file_name with
                      | Raise e => (Raise e, w)
                      | Ok function_value =>
                          if is_none function_value then (Ok (false, VNone), w)
                          else (Ok (true, function_value), w)
                      end
                end
            end
        end
    end.

(** [cache_function_value(function_value, n_days_to_cache, cache_metadata,
    rename_np_memmap_file, function_name, *args, **kwargs)] *)
Definition cache_function_value (w : World) (function_value : value)
    (n_days : option Z) (cache_metadata : Registry) (rename : bool)
    (function_name : string) (args : list string) (kwargs : dict string)
    : result string * World :=
  if String.eqb function_name _TOTAL_NUMCACHE_KEY
  then (Raise (Exception "Cant cache function named total_number_of_cache_to_disks"), w)
  else
    let post_fix := if is_ndarray function_value then ".npy" else ".pkl" in
    let new_file_name := signature_key function_name args kwargs +:+ post_fix in
    let new_cache := Entry (str_tuple args) (str_dict kwargs) new_file_name n_days in
    let new_filepath := join_path DISK_CACHE_DIR new_file_name in
    match pickle_big_data w function_value new_filepath rename with
    | (Raise e, w1) => (Raise e, w1)
    | (Ok _, w1) =>
        let got : result (list CacheEntry) :=
          match dict_get cache_metadata function_name with
          | None => Ok []
          | Some (Rows l) => Ok l
          | Some (Count _) => Raise AttributeError
          end in
        match got with
        | Raise e => (Raise e, w1)
        | Ok function_caches =>
            let cache_metadata1 :=
              dict_set cache_metadata function_name (Rows (function_caches ++ [new_cache])) in
            match dict_get cache_metadata1 _TOTAL_NUMCACHE_KEY with
            | None => (Raise KeyError, w1)
            | Some (Rows _) => (Raise TypeError, w1)
            | Some (Count n) =>
                let cache_metadata2 :=
                  dict_set cache_metadata1 _TOTAL_NUMCACHE_KEY (Count (n + 1)) in
                (Ok new_filepath, write_cache_file w1 cache_metadata2)
            end
        end
    end.

(** The [else] branch of [wrapper]: the computation returned
    [function_value], which is now stored; [args] and [kwargs] are rendered
    as they are after the computation. *)
Definition wrapper_store (f : Wrapped) (w : World) (function_value : value)
    (args : list string) (kwargs : dict string) : result value * World :=
  if (0 <? length (except_arg_names f))%nat && negb (length args =? 0)%nat
  then (Raise AssertionError, w)
  else
    let kwargs := pop_excluded (except_arg_names f) kwargs in
    let '(cache_metadata, w1) := load_cache_metadata_json w in
    if binds_twice cache_function_value_params kwargs then (Raise TypeError, w1)
    else
    match cache_function_value w1 function_value (n_days_to_cache f) cache_metadata
            (rename_np_memmap_file f) (func_name f) args kwargs with
    | (Raise e, w2) => (Raise e, w2)
    | (Ok new_filepath, w2) =>
        match function_value with
        | VMemmap old_file_path a =>
            if rename_np_memmap_file f
            then rename_np_memmap w2 old_file_path new_filepath (dtype a) (shape a)
            else (Ok function_value, w2)
        | _ => (Ok function_value, w2)
        end
    end.

(** The first statements of [wrapper]: the registry is loaded and
    [cache_exists(cache_metadata, original_func.__name__, except_arg_names,
    *args, **kwargs)] is called with the keywords of the call. *)
Definition wrapper_lookup (f : Wrapped) (w : World)
    (args : list string) (kwargs : dict string) : result (bool * value) * World :=
  let '(cache_metadata, w1) := load_cache_metadata_json w in
  if binds_twice cache_exists_params kwargs then (Raise TypeError, w1)
  else cache_exists w1 cache_metadata (func_name f) (except_arg_names f) args kwargs.

Definition count_hit (c : counters) : counters :=
  Counters (S (hits c)) (misses c) (nocache c) (runs c).
Definition count_miss (c : counters) : counters :=
  Counters (hits c) (S (misses c)) (nocache c) (runs c).
Definition count_nocache (c : counters) : counters :=
  Counters (hits c) (misses c) (S (nocache c)) (runs c).
Definition count_run (c : counters) : counters :=
  Counters (hits c) (misses c) (nocache c) (S (runs c)).

(** [wrapper], called with the positional and keyword arguments. *)
Definition wrapper (f : Wrapped) (w : World) (c : counters)
    (args : list string) (kwargs : dict string) : result value * World * counters :=
  match wrapper_lookup f w args kwargs with
  | (Raise e, w2) => (Raise e, w2, c)
  | (Ok (true, function_value), w2) => (Ok function_value, w2, count_hit c)
  | (Ok (false, _), w2) =>
      let c1 := count_miss c in
      let c2 := count_run c1 in
      match original_func f args kwargs with
      | RaisesError tag => (Raise (UserError tag), w2, c2)
      | RaisesNoCacheCondition function_value =>
          (Ok function_value, w2, count_nocache c2)
      | Returns function_value args_after kwargs_after =>
          let '(r, w3) := wrapper_store f w2 function_value args_after kwargs_after in
          (r, w3, c2)
      end
  end.

(** [cache_info()] *)
Definition cache_info (c : counters) : nat * nat * nat := (hits c, misses c, nocache c).

End Cache.

(** ** A small codec to run the model on

    None and opaque objects are written with a one-byte tag, arrays of
    unsigned bytes as a magic byte followed by the elements.  Every decoder
    rejects any other input, the empty one in particular. *)

Definition demo_pickle_loads (b : bytes) : result value :=
  match b with
  | x4e :: [] => Ok VNone
  | x4f :: rest => Ok (VObj (string_of_list_byte rest))
  | _ => Raise CodecError
  end.

Definition demo_dim_byte (d : Z) : byte :=
  match Byte.of_N (Z.to_N (d mod 256)) with Some b => b | None => x00 end.

Fixpoint demo_split_nul (b : bytes) : option (bytes * bytes) :=
  match b with
  | [] => None
  | x :: b' =>
      if Byte.eqb x x00 then Some ([], b')
      else match demo_split_nul b' with
           | Some (l, r) => Some (x :: l, r)
           | None => None
           end
  end.

#[export] Instance demo_codec : Codec := {|
  pickle_dumps v :=
    match v with
    | VNone => Ok [x4e]
    | VObj o => Ok (x4f :: list_byte_of_string o)
    | _ => Raise CodecError
    end;
  pickle_load := demo_pickle_loads;
  pickle_loads := demo_pickle_loads;
  np_save a := x93 :: elems a;
  np_load b :=
    match b with
    | x93 :: rest => Ok (NdArray "uint8" [Z.of_nat (length rest)] rest)
    | _ => Raise CodecError
    end;
  np_memmap b dt sh := Ok (NdArray dt sh b);
  json_dump_meta dt sh := list_byte_of_string dt ++ x00 :: map demo_dim_byte sh;
  json_load_meta b :=
    match demo_split_nul b with
    | Some (dt, sh) => Ok (string_of_list_byte dt, map byte_val sh)
    | None => Raise CodecError
    end
|}.

(** ** Example data *)

Definition day : Z := microseconds_per_day.

Definition no_counters : counters := Counters 0 0 0 0.

(** An empty cache directory, no registry file yet, on day 100. *)
Definition blank_world : World := Mk_World None ∅ (100 * day).

(** A function excluding the keyword [conn] from the key. *)
Definition query_fn : Wrapped :=
  Mk_Wrapped "query" (fun args kwargs => Returns (VObj "rows") args kwargs)
             (Some 15) ["conn"] true.


(** The function [f], called with no argument, and its artifact paths. *)
Definition f_key : string := signature_key "f" [] [].
Definition f_pkl : string := join_path "/cache" (f_key +:+ ".pkl").
Definition f_npy : string := join_path "/cache" (f_key +:+ ".npy").

Definition f_row (ext : string) (max_age_days : option Z) : CacheEntry :=
  Entry "()" "{}" (f_key +:+ ext) max_age_days.

Definition f_registry (rows : list CacheEntry) : Registry :=
  [(_TOTAL_NUMCACHE_KEY, Count 1); ("f", Rows rows)].

Definition answer_fn : Wrapped :=
  Mk_Wrapped "f" (fun args kwargs => Returns (VObj "42") args kwargs) (Some 15) [] true.

(** The pickle artifact of [f] was truncated to nothing a day ago. *)
Definition corrupt_pkl_world : World :=
  Mk_World (Some (f_registry [f_row ".pkl" (Some 15)]))
           {[ f_pkl := File [] (99 * day) ]} (100 * day).

(** The array artifact of [f] holds bytes that are no array file. *)
Definition corrupt_npy_world : World :=
  Mk_World (Some (f_registry [f_row ".npy" (Some 15)]))
           {[ f_npy := File [x00; x01] (99 * day) ]} (100 * day).


Definition pickled_42 : bytes := [x4f; x34; x32].

(** The registry lists one row for [f], the artifact is gone. *)
Definition orphan_row_world : World :=
  Mk_World (Some (f_registry [f_row ".pkl" (Some 15)])) ∅ (100 * day).

(** The only row of [f] allows 15 days, its artifact is 20 days old. *)
Definition stale_pkl_world : World :=
  Mk_World (Some (f_registry [f_row ".pkl" (Some 15)]))
           {[ f_pkl := File pickled_42 (80 * day) ]} (100 * day).

(** The row of [f] allows 2 days, its artifact was written 3 days ago. *)
Definition aged_world : World :=
  Mk_World (Some (f_registry [f_row ".pkl" (Some 2)]))
           {[ f_pkl := File pickled_42 (97 * day) ]} (100 * day + 5).

(** The row of [f] never expires, its artifact is 100 days old. *)
Definition forever_world : World :=
  Mk_World (Some (f_registry [f_row ".pkl" (Some 0)]))
           {[ f_pkl := File pickled_42 0 ]} (100 * day).


(** [f] gives up with a partial answer that must not be cached. *)
Definition flaky_fn : Wrapped :=
  Mk_Wrapped "f" (fun _ _ => RaisesNoCacheCondition (VObj "partial")) (Some 2) [] true.



(** ** Conditions under which a stored result is found again *)


(** [content] is what the backend writes for [v], and reading it gives [v]
    back: [v] is an object that [pickle] dumps and loads, or an array that
    [numpy] saves and loads.  [None] and memory maps are left out. *)
Definition stored_content {codec : Codec} (v : value) (content : bytes) : Prop :=
  match v with
  | VObj _ => pickle_dumps v = Ok content /\ pickle_load content = Ok v
  | VArray a => content = np_save a /\ np_load content = Ok a
  | _ => False
  end.

Definition round_trips {codec : Codec} (v : value) : Prop :=
  exists content, stored_content v content.


(** Where [cache_function_value] puts the artifact of [v]. *)
Definition artifact_path (DISK_CACHE_DIR key : string) (v : value) : string :=
  join_path DISK_CACHE_DIR (key +:+ (if is_ndarray v then ".npy" else ".pkl")).




(** ** Registry accessors, clearing, the older lookup and the renaming pass *)

(** [old_filename.split('.')] *)
Fixpoint py_split (sep : ascii) (s : string) : list string :=
  match s with
  | EmptyString => [EmptyString]
  | String c s' =>
      if Ascii.eqb c sep then EmptyString :: py_split sep s'
      else match py_split sep s' with
           | x :: l => String c x :: l
           | [] => [String c EmptyString]
           end
  end.

(** [old_filename.split('.')[-1]] *)
Definition file_postfix_of (old_filename : string) : string :=
  List.last (py_split "."%char old_filename) EmptyString.

(** [get_disk_cache_for_function(function_name)] *)
Definition get_disk_cache_for_function (w : World) (function_name : string)
    : option reg_value * World :=
  let '(cache_metadata, w1) := load_cache_metadata_json w in
  (dict_get cache_metadata function_name, w1).

(** [get_disk_cache_size_for_function(function_name)]; [len] of the counter
    is a [TypeError]. *)
Definition get_disk_cache_size_for_function (w : World) (function_name : string)
    : result (option nat) * World :=
  match get_disk_cache_for_function w function_name with
  | (None, w1) => (Ok None, w1)
  | (Some (Rows l), w1) => (Ok (Some (length l)), w1)
  | (Some (Count _), w1) => (Raise TypeError, w1)
  end.

Section Management.

Context {codec : Codec}.
Variable DISK_CACHE_DIR : string.

Definition remove_if_exists (w : World) (path : string) : World :=
  if file_exists w path then os_remove w path else w.

(** The loop of [delete_disk_caches_for_function]: the artifact, its
    [.json] sidecar and its [_timestamp] file go, where they exist. *)
Fixpoint remove_artifacts (w : World) (functions_to_delete_cache_for : list CacheEntry)
    : World :=
  match functions_to_delete_cache_for with
  | [] => w
  | function_cache :: rest =>
      let file_name := join_path DISK_CACHE_DIR (c_file_name function_cache) in
      let w1 := remove_if_exists w file_name in
      let w2 := remove_if_exists w1 (file_name +:+ ".json") in
      let w3 := remove_if_exists w2 (file_name +:+ "_timestamp") in
      remove_artifacts w3 rest
  end.

(** [delete_disk_caches_for_function(function_name)] *)
Definition delete_disk_caches_for_function (w : World) (function_name : string)
    : result unit * World :=
  let '(cache_metadata, w1) := load_cache_metadata_json w in
  match dict_get cache_metadata function_name with
  | None => (Ok tt, w1)
  | Some (Count _) => (Raise TypeError, w1)
  | Some (Rows functions_to_delete_cache_for) =>
      let w2 := remove_artifacts w1 functions_to_delete_cache_for in
      (Ok tt, write_cache_file w2 (dict_pop cache_metadata function_name))
  end.

(** [cache_clear()], [cache_size()] and [cache_get_raw()] of a wrapper. *)
Definition cache_clear (f : Wrapped) (w : World) : result unit * World :=
  delete_disk_caches_for_function w (func_name f).

Definition cache_size (f : Wrapped) (w : World) : result (option nat) * World :=
  get_disk_cache_size_for_function w (func_name f).

Definition cache_get_raw (f : Wrapped) (w : World) : option reg_value * World :=
  get_disk_cache_for_function w (func_name f).

(** [cache_exists_for_function(function_name, except_arg_names, *args, **kwargs)] *)
Definition cache_exists_for_function (w : World) (function_name : string)
    (except args : list string) (kwargs : dict string) : result (bool * value) * World :=
  let '(cache_metadata, w1) := load_cache_metadata_json w in
  if binds_twice cache_exists_params kwargs then (Raise TypeError, w1)
  else cache_exists DISK_CACHE_DIR w1 cache_metadata function_name except args kwargs.

(** The loop of [cache_exists2]: it either returns from inside the loop
    (left) or runs to the end with the rows to keep and [cache_changed]. *)
Fixpoint exists2_rows (w : World) (rows : list CacheEntry) (sargs skwargs : string)
    (new_caches_for_function : list CacheEntry) (cache_changed : bool)
    : (result (bool * value) * World) + (list CacheEntry * bool * World) :=
  match rows with
  | [] => inr (new_caches_for_function, cache_changed, w)
  | function_cache :: rest =>
      if row_matches function_cache sargs skwargs then
        match int_of_max_age function_cache with
        | Raise e => inl (Raise e, w)
        | Ok max_age_days =>
            let file_name := join_path DISK_CACHE_DIR (c_file_name function_cache) in
            if file_exists w file_name then
              match get_age_of_file w file_name with
              | Raise e => inl (Raise e, w)
              | Ok age =>
                  if is_stale age max_age_days
                  then exists2_rows (os_remove w file_name) rest sargs skwargs
                         new_caches_for_function true
                  else
                    match unpickle_big_data w file_name with
                    | Raise e => inl (Raise e, w)
                    | Ok function_value =>
                        if is_none function_value then inl (Ok (false, VNone), w)
                        else inl (Ok (true, function_value), w)
                    end
              end
            else exists2_rows w rest sargs skwargs new_caches_for_function true
        end
      else exists2_rows w rest sargs skwargs
             (new_caches_for_function ++ [function_cache]) cache_changed
  end.

(** [cache_exists2(cache_metadata, function_name, *args, **kwargs)], with
    the caller's [cache_metadata] as the call leaves it. *)
Definition cache_exists2 (w : World) (cache_metadata : Registry) (function_name : string)
    (args : list string) (kwargs : dict string)
    : result (bool * value) * Registry * World :=
  match dict_get cache_metadata function_name with
  | None => (Ok (false, VNone), cache_metadata, w)
  | Some (Count _) => (Raise TypeError, cache_metadata, w)
  | Some (Rows rows) =>
      match exists2_rows w rows (str_tuple args) (str_dict kwargs) [] false with
      | inl (r, w') => (r, cache_metadata, w')
      | inr (new_caches_for_function, cache_changed, w') =>
          if cache_changed then
            let cache_metadata' :=
              match new_caches_for_function with
              | [] => dict_pop cache_metadata function_name
              | _ => dict_set cache_metadata function_name (Rows new_caches_for_function)
              end in
            (Ok (false, VNone), cache_metadata', write_cache_file w' cache_metadata')
          else (Ok (false, VNone), cache_metadata, w')
      end
  end.

End Management.




(** A small array and a memory map over the data file [/data/m.dat]. *)
Definition demo_array : ndarray := NdArray "uint8" [3] [x01; x02; x03].

Definition data_world : World :=
  Mk_World (Some empty_registry) {[ "/data/m.dat" := File [x01; x02; x03] (40 * day) ]}
           (100 * day).


(** Whether a keyword survives the exclusions. *)
Definition kept_keyword (except : list string) (kv : string * string) : bool :=
  negb (existsb (String.eqb kv.1) except).


(** [f] is registered for another call only; the artifact of the call
    without arguments lies on disk, 100 days old, with no row of its own. *)
Definition unlisted_world : World :=
  Mk_World (Some (f_registry [Entry "(1,)" "{}" "f_other.pkl" (Some 2)]))
           {[ f_pkl := File pickled_42 0 ]} (100 * day).

(** [f] fails with an ordinary error. *)
Definition failing_fn : Wrapped :=
  Mk_Wrapped "f" (fun _ _ => RaisesError "ValueError") (Some 2) [] true.


(** The registry document has its counter, holds a list of rows under
    [fname] if it holds anything there, and no row with the call's
    signature. *)
Definition registry_lacks (d : Registry) (fname sargs skwargs : string) : Prop :=
  (exists k, dict_get d _TOTAL_NUMCACHE_KEY = Some (Count k))
  /\ (dict_get d fname = None
      \/ exists rows,
           dict_get d fname = Some (Rows rows)
           /\ Forall (fun r => row_matches r sargs skwargs = false) rows).

(** [f] decorated with [n_days_to_cache=None]. *)
Definition untimed_fn : Wrapped :=
  Mk_Wrapped "f" (fun args kwargs => Returns (VObj "42") args kwargs) None [] true.


(** A row whose TTL is an integer and whose artifact exists and is within
    that TTL (or the TTL is the unlimited one). *)
Definition row_fresh (DISK_CACHE_DIR : string) (w : World) (r : CacheEntry) : Prop :=
  exists m f,
    c_max_age_days r = Some m
    /\ files w !! join_path DISK_CACHE_DIR (c_file_name r) = Some f
    /\ is_stale ((today w - f_mtime f) / microseconds_per_day) m = false.

(** [f] has one row allowing 15 days, its artifact is a day old. *)
Definition fresh_world : World :=
  Mk_World (Some (f_registry [f_row ".pkl" (Some 15)]))
           {[ f_pkl := File pickled_42 (99 * day) ]} (100 * day).

(** [f] has a row stored under [n_days_to_cache=None]. *)
Definition untimed_world : World :=
  Mk_World (Some (f_registry [f_row ".pkl" None]))
           {[ f_pkl := File pickled_42 (99 * day) ]} (100 * day).


(** [w'] differs from [w] at most by files that are gone; the clock is the
    same. *)
Definition only_removes (w w' : World) : Prop :=
  today w' = today w /\ forall p, files w' !! p = None \/ files w' !! p = files w !! p.


(** [f] has one array row whose artifact, sidecar and timestamp file are on
    disk, next to the artifact of another function [g]. *)
Definition g_row : CacheEntry := Entry "()" "{}" "g_artifact.pkl" (Some 15).

Definition crowded_world : World :=
  Mk_World (Some [(_TOTAL_NUMCACHE_KEY, Count 2); ("f", Rows [f_row ".npy" (Some 15)]);
                  ("g", Rows [g_row])])
           (<[ f_npy := File [x93; x01] (99 * day) ]>
              (<[ f_npy +:+ ".json" := File [x00] (99 * day) ]>
                 (<[ f_npy +:+ "_timestamp" := File [] (99 * day) ]>
                    {[ "/cache/g_artifact.pkl" := File pickled_42 (99 * day) ]})))
           (100 * day).


(** A row that the older lookup drops: its TTL is an integer and its
    artifact is missing or past that TTL. *)
Definition row_dead (DISK_CACHE_DIR : string) (w : World) (r : CacheEntry) : Prop :=
  exists m,
    c_max_age_days r = Some m
    /\ (files w !! join_path DISK_CACHE_DIR (c_file_name r) = None
        \/ exists f,
             files w !! join_path DISK_CACHE_DIR (c_file_name r) = Some f
             /\ is_stale ((today w - f_mtime f) / microseconds_per_day) m = true).

Definition other_signature (sargs skwargs : string) (r : CacheEntry) : bool :=
  negb (row_matches r sargs skwargs).


(** [f] returns a memory map over the data file [/data/m.dat]. *)
Definition memmap_fn : Wrapped :=
  Mk_Wrapped "f" (fun args kwargs => Returns (VMemmap "/data/m.dat" demo_array) args kwargs)
             (Some 15) [] true.


(** ** The renaming pass *)

(** The name [cache_exists_rename_to_hash] gives the artifact of a row:
    the key of the row's signature, a dot, and what follows the last dot of
    the old name. *)
Definition hashed_name (function_name : string) (function_cache : CacheEntry) : string :=
  get_hash_filename function_name
    [repr_str (c_args function_cache); repr_str (c_kwargs function_cache)] []
  +:+ "." +:+ file_postfix_of (c_file_name function_cache).

(** [os.rename(src, dst)] *)
Definition os_rename (w : World) (src dst : string) : result World :=
  match files w !! src with
  | None => Raise FileNotFoundError
  | Some f => Ok (set_files w (<[dst := f]> (delete src (files w))))
  end.

Section Renaming.

Variable DISK_CACHE_DIR : string.

(** The inner loop of [cache_exists_rename_to_hash]. *)
Fixpoint rename_rows (w : World) (function_name : string)
    (function_caches to_keep : list CacheEntry) : result (list CacheEntry) * World :=
  match function_caches with
  | [] => (Ok to_keep, w)
  | function_cache :: rest =>
      match int_of_max_age function_cache with
      | Raise e => (Raise e, w)
      | Ok _ =>
          let old_filename := c_file_name function_cache in
          let hash_filename := hashed_name function_name function_cache in
          if negb (String.eqb old_filename hash_filename) then
            match os_rename w (join_path DISK_CACHE_DIR old_filename)
                    (join_path DISK_CACHE_DIR hash_filename) with
            | Raise e => (Raise e, w)
            | Ok w' =>
                rename_rows w' function_name rest
                  (to_keep ++ [Entry (c_args function_cache) (c_kwargs function_cache)
                                 hash_filename (c_max_age_days function_cache)])
            end
          else rename_rows w function_name rest (to_keep ++ [function_cache])
      end
  end.

(** The outer loop of [cache_exists_rename_to_hash]. *)
Fixpoint rename_items (w : World) (items cache_metadata : Registry)
    : result Registry * World :=
  match items with
  | [] => (Ok cache_metadata, w)
  | (function_name, function_caches) :: rest =>
      if String.eqb function_name _TOTAL_NUMCACHE_KEY
      then rename_items w rest cache_metadata
      else
        match function_caches with
        | Count _ => (Raise TypeError, w)
        | Rows rows =>
            match rename_rows w function_name rows [] with
            | (Raise e, w') => (Raise e, w')
            | (Ok to_keep, w') =>
                rename_items w' rest (dict_set cache_metadata function_name (Rows to_keep))
            end
        end
  end.

(** [cache_exists_rename_to_hash()] *)
Definition cache_exists_rename_to_hash (w : World) : result unit * World :=
  let '(cache_metadata, w0) := load_cache_metadata_json w in
  match rename_items w0 cache_metadata cache_metadata with
  | (Raise e, w') => (Raise e, w')
  | (Ok cache_metadata', w') => (Ok tt, write_cache_file w' cache_metadata')
  end.

End Renaming.

(** A row with the name the renaming pass gives it, and a registry with
    every row so renamed. *)
Definition renamed_row (function_name : string) (r : CacheEntry) : CacheEntry :=
  Entry (c_args r) (c_kwargs r) (hashed_name function_name r) (c_max_age_days r).

Definition renamed_item (item : string * reg_value) : string * reg_value :=
  match item with
  | (function_name, Rows rows) =>
      if String.eqb function_name _TOTAL_NUMCACHE_KEY then item
      else (function_name, Rows (map (renamed_row function_name) rows))
  | _ => item
  end.

(** The artifact of [f] still carries a number as its name. *)
Definition legacy_world : World :=
  Mk_World (Some (f_registry [Entry "()" "{}" "7.pkl" (Some 15)]))
           {[ "/cache/7.pkl" := File pickled_42 (99 * day) ]} (100 * day).

(** A row the renaming pass can process: its TTL is an integer. *)
Definition row_has_ttl (r : CacheEntry) : Prop := exists m, c_max_age_days r = Some m.

(** A registry item the renaming pass can process: the counter, or a list
    of rows with integer TTLs. *)
Definition item_ok (item : string * reg_value) : Prop :=
  item.1 = _TOTAL_NUMCACHE_KEY \/ exists rows, item.2 = Rows rows /\ Forall row_has_ttl rows.

(** The keywords of a call bind: none is named like a parameter that
    [wrapper] passes by position to [cache_exists] or, once the excluded
    names are popped, to [cache_function_value]. *)
Definition keywords_bind (f : Wrapped) (kwargs : dict string) : Prop :=
  binds_twice cache_exists_params kwargs = false
  /\ binds_twice cache_function_value_params
       (pop_excluded (except_arg_names f) kwargs) = false.

(** Two rows for the one signature of [f], with the given TTLs; the
    artifact was written 3 days ago. *)
Definition two_rows_world (first second : option Z) : World :=
  Mk_World (Some (f_registry [f_row ".pkl" first; f_row ".pkl" second]))
           {[ f_pkl := File pickled_42 (97 * day) ]} (100 * day).




(** * Properties *)

(** ** Lock coordinator *)

(** [elapsed] is never assigned inside the loop: a step that goes round
    again leaves it as it was. *)
Lemma loop_step_keeps_elapsed c e fl s s' :
  Lock.loop_step c e fl s = inl s' -> Lock.elapsed s' = Lock.elapsed s.
Proof.
  unfold Lock.loop_step.
  destruct (Lock.Qlt_bool _ _); [|discriminate].
  destruct (Lock.flock e fl _); [destruct (Lock.open_ok e); discriminate|].
  intros [= <-]. reflexivity.
Qed.

(** While the lock stays contended and the loop test holds once, the loop
    is still running after any number of iterations. *)
Lemma run_contended_spins c e fl :
  (forall n, Lock.flock e fl n = Lock.BlockingIOError) ->
  forall fuel s,
    Lock.Qlt_bool (Lock.elapsed s) (Lock.DISK_CACHE_LOCK_MAX_WAIT c) = true ->
    Lock.run c e fl fuel s = None.
Proof.
  intros Hbusy fuel. induction fuel as [|fuel IH]; intros s Hlt; [reflexivity|].
  cbn [Lock.run].
  destruct (Lock.loop_step c e fl s) as [s'|o] eqn:Hstep.
  - apply IH. rewrite (loop_step_keeps_elapsed _ _ _ _ _ Hstep). exact Hlt.
  - unfold Lock.loop_step in Hstep. rewrite Hlt, Hbusy in Hstep. discriminate.
Qed.

(** [LockTimeout] needs the loop test to fail, and the test only ever sees
    [elapsed = 0]: it is raised only when the maximum wait is not positive. *)
Lemma lock_timeout_only_without_wait c e fl fuel s :
  Lock.open_locked c e fl fuel = Some (Lock.RaisedLockTimeout s) ->
  Lock.Qlt_bool 0 (Lock.DISK_CACHE_LOCK_MAX_WAIT c) = false.
Proof.
  unfold Lock.open_locked.
  assert (H : forall s0, Lock.elapsed s0 = 0%Q ->
            Lock.run c e fl fuel s0 = Some (Lock.RaisedLockTimeout s) ->
            Lock.Qlt_bool 0 (Lock.DISK_CACHE_LOCK_MAX_WAIT c) = false).
  { induction fuel as [|fuel IH]; intros s0 H0; cbn [Lock.run]; [discriminate|].
    destruct (Lock.loop_step c e fl s0) as [s'|o] eqn:Hstep.
    - apply IH. rewrite (loop_step_keeps_elapsed _ _ _ _ _ Hstep). exact H0.
    - intros [= ->]. unfold Lock.loop_step in Hstep. rewrite H0 in Hstep.
      destruct (Lock.Qlt_bool 0 _); [|reflexivity].
      destruct (Lock.flock e fl _); [destruct (Lock.open_ok e)|]; discriminate. }
  apply H. reflexivity.
Qed.

(** An uncontended lock is acquired at the first attempt. *)
Lemma open_locked_uncontended fl fuel :
  Lock.open_locked Lock.default_config Lock.uncontended fl (S fuel)
  = Some (Lock.Yielded (Lock.LoopState 0 0 0)).
Proof. reflexivity. Qed.

(** C1 (evaluation of the code where the claim fails).  With the default
    configuration (maximum wait 10 s, interval 0.1 s) and a lock that stays
    contended on every attempt, [open_locked], [open_exclusive] and
    [open_shared] have not finished after any number of loop iterations: no
    [LockTimeout] is raised, however long the acquisition has been asleep. *)
Theorem open_locked_wedged_never_times_out :
  forall fuel fl,
    Lock.open_locked Lock.default_config Lock.wedged fl fuel = None
    /\ Lock.open_exclusive Lock.default_config Lock.wedged fuel = None
    /\ Lock.open_shared Lock.default_config Lock.wedged fuel = None.
Proof.
  intros fuel fl.
  assert (H : forall fl', Lock.open_locked Lock.default_config Lock.wedged fl' fuel = None).
  { intros fl'. apply run_contended_spins; [intros n; reflexivity | reflexivity]. }
  unfold Lock.open_exclusive, Lock.open_shared. auto.
Qed.

(** ** Chunked writes and reads give back the whole byte string *)

Lemma takeN_take (n : N) (l : bytes) : takeN n l = take (N.to_nat n) l.
Proof.
  revert n. induction l as [|x l IH]; intros n; cbn [takeN].
  - by rewrite take_nil.
  - destruct (N.eqb_spec n 0) as [->|Hn]; [reflexivity|].
    replace (N.to_nat n) with (S (N.to_nat (N.pred n))) by lia.
    cbn [take]. by rewrite IH.
Qed.

Lemma dropN_drop (n : N) (l : bytes) : dropN n l = drop (N.to_nat n) l.
Proof.
  revert n. induction l as [|x l IH]; intros n; cbn [dropN].
  - by rewrite drop_nil.
  - destruct (N.eqb_spec n 0) as [->|Hn]; [reflexivity|].
    replace (N.to_nat n) with (S (N.to_nat (N.pred n))) by lia.
    cbn [drop]. by rewrite IH.
Qed.

Lemma slice_take_drop (lo n : N) (l : bytes) :
  slice lo (lo + n) l = take (N.to_nat n) (drop (N.to_nat lo) l).
Proof.
  unfold slice. rewrite takeN_take, dropN_drop. f_equal. lia.
Qed.

Lemma take_then_rest (a b : nat) (l : bytes) :
  take a l ++ take b (drop (length (take a l)) l) = take (a + b) l.
Proof.
  destruct (decide (a ≤ length l)%nat) as [Hle|Hgt].
  - rewrite length_take_le by done. apply take_take_drop.
  - rewrite (take_ge l a) by lia. rewrite drop_all, take_nil, app_nil_r.
    rewrite take_ge by lia. done.
Qed.

Lemma chunk_count_covers (len M : N) :
  (0 < M)%N -> (len <= (len + M - 1) / M * M)%N.
Proof.
  intros HM. pose proof (N.div_mod (len + M - 1) M ltac:(lia)) as Hdm.
  pose proof (N.mod_lt (len + M - 1) M ltac:(lia)) as Hlt. nia.
Qed.

Lemma write_loop_from (M : N) (b : bytes) (k s : nat) (acc : bytes) :
  fold_left (fun written idx => written ++ slice idx (idx + M) b)
            (map (fun i => N.of_nat i * M)%N (seq s k)) acc
  = acc ++ take (k * N.to_nat M) (drop (s * N.to_nat M) b).
Proof.
  revert s acc. induction k as [|k IH]; intros s acc; cbn [seq map fold_left].
  - by rewrite take_0, app_nil_r.
  - rewrite IH, slice_take_drop, <- app_assoc. f_equal.
    replace (N.to_nat (N.of_nat s * M)) with (s * N.to_nat M)%nat by lia.
    replace (S s * N.to_nat M)%nat with (s * N.to_nat M + N.to_nat M)%nat by lia.
    rewrite <- drop_drop. apply take_take_drop.
Qed.

Lemma read_loop_from (M : N) (c : bytes) (idxs : list N) (acc : bytes) (pos : N) :
  fst (fold_left
         (fun st _ => let '(bytes_in, h) := st in
                      let '(chunk, h') := read M h in
                      (bytes_in ++ chunk, h'))
         idxs (acc, Handle c pos))
  = acc ++ take (length idxs * N.to_nat M) (drop (N.to_nat pos) c).
Proof.
  revert acc pos. induction idxs as [|i idxs IH]; intros acc pos; cbn [fold_left length].
  - by rewrite take_0, app_nil_r.
  - unfold read at 2. cbn [h_pos h_content]. rewrite IH, <- app_assoc. f_equal.
    rewrite slice_take_drop. unfold lenN. rewrite N2Nat.inj_add, Nat2N.id.
    rewrite <- drop_drop. apply take_then_rest.
Qed.

Lemma MAX_PICKLE_BYTES_pos : (0 < MAX_PICKLE_BYTES)%N.
Proof. reflexivity. Qed.

(** The chunks written by [pickle_big_data] add up to the pickled bytes. *)
Lemma write_chunks_whole (bytes_out : bytes) : write_chunks bytes_out = bytes_out.
Proof.
  unfold write_chunks, py_range. pose proof MAX_PICKLE_BYTES_pos as HM.
  revert HM. generalize MAX_PICKLE_BYTES. intros M HM.
  rewrite write_loop_from. cbn [app drop Nat.mul]. apply take_ge.
  pose proof (chunk_count_covers (lenN bytes_out) M HM). unfold lenN in *. lia.
Qed.

(** The chunks read back by [unpickle_big_data] add up to the file. *)
Lemma read_chunks_whole (content : bytes) :
  read_chunks (lenN content) content = content.
Proof.
  unfold read_chunks, py_range. pose proof MAX_PICKLE_BYTES_pos as HM.
  revert HM. generalize MAX_PICKLE_BYTES. intros M HM.
  rewrite read_loop_from. cbn [app N.to_nat drop]. apply take_ge.
  rewrite length_map, length_seq.
  pose proof (chunk_count_covers (lenN content) M HM). unfold lenN in *. lia.
Qed.

(** ** Lookup *)

Arguments signature_key : simpl never.
Arguments get_hash_filename : simpl never.

Section LookupFacts.

Context {codec : Codec}.
Variable DISK_CACHE_DIR : string.

(** What a lookup can do to the world: nothing, or remove one file.  The
    registry file and the clock are never touched. *)
Lemma cache_exists_effect w reg fname except args kwargs :
  let w' := snd (cache_exists DISK_CACHE_DIR w reg fname except args kwargs) in
  w' = w \/ exists p, is_Some (files w !! p) /\ w' = os_remove w p.
Proof.
  unfold cache_exists, get_age_of_file.
  repeat case_match; cbn [snd]; try (by left).
  all: right; eexists; split; [by eapply mk_is_Some|reflexivity].
Qed.

(** The lookup fails its precondition before anything else. *)
Lemma cache_exists_asserts w reg fname except args kwargs :
  except <> [] -> args <> [] ->
  cache_exists DISK_CACHE_DIR w reg fname except args kwargs = (Raise AssertionError, w).
Proof.
  intros He Ha. unfold cache_exists.
  destruct except; [done|]. destruct args; [done|]. reflexivity.
Qed.

Lemma find_max_age_first pre e post sargs skwargs :
  Forall (fun r => row_matches r sargs skwargs = false) pre ->
  row_matches e sargs skwargs = true ->
  find_max_age (pre ++ e :: post) sargs skwargs = int_of_max_age e.
Proof.
  intros Hpre He. induction Hpre as [|r pre Hr _ IH]; cbn [app find_max_age].
  - by rewrite He.
  - by rewrite Hr.
Qed.

Lemma is_stale_unlimited age : is_stale age 0 = false.
Proof. unfold is_stale. cbn. apply andb_false_r. Qed.

(** A lookup of the wrapper that returns has bound its keywords, and its
    answer is that of [cache_exists] on the registry just loaded. *)
Lemma wrapper_lookup_ok (f : Wrapped) w args kwargs r w2 :
  wrapper_lookup DISK_CACHE_DIR f w args kwargs = (Ok r, w2) ->
  binds_twice cache_exists_params kwargs = false
  /\ cache_exists DISK_CACHE_DIR (snd (load_cache_metadata_json w))
       (fst (load_cache_metadata_json w)) (func_name f) (except_arg_names f) args kwargs
     = (Ok r, w2).
Proof.
  unfold wrapper_lookup. destruct (load_cache_metadata_json w) as [cm w1].
  by destruct (binds_twice cache_exists_params kwargs).
Qed.

End LookupFacts.

(** C9.  A lookup through [cache_exists] leaves the registry file as it
    found it on every path (miss, stale artifact removed, load failure,
    error raised): the world after the lookup has the same registry file and
    differs from the world before at most by one removed file. *)
Theorem cache_exists_never_writes_registry :
  forall (codec : Codec) (DISK_CACHE_DIR : string) (w : World) (reg : Registry)
         (fname : string) (except args : list string) (kwargs : dict string),
    registry_file (snd (cache_exists DISK_CACHE_DIR w reg fname except args kwargs))
    = registry_file w
    /\ (files (snd (cache_exists DISK_CACHE_DIR w reg fname except args kwargs)) = files w
        \/ exists p, files (snd (cache_exists DISK_CACHE_DIR w reg fname except args kwargs))
                     = delete p (files w)).
Proof.
  intros. destruct (cache_exists_effect DISK_CACHE_DIR w reg fname except args kwargs)
    as [->|(p & _ & ->)]; cbn; eauto.
Qed.

(** ** Exclusions and positional arguments *)

(** C7.  With a non-empty list of excluded argument names, a call that
    passes a positional argument fails the assertion of the lookup, the same
    assertion guards the store path after the computation, and the wrapper
    call as a whole raises without running the computation or counting
    anything: [AssertionError], unless a keyword of the call is named like a
    parameter of [cache_exists], in which case binding the arguments of the
    lookup has failed with [TypeError] before its assertion is reached. *)
Theorem exclusions_reject_positional :
  forall (codec : Codec) (DISK_CACHE_DIR : string) (f : Wrapped) (w : World)
         (c : counters) (reg : Registry) (v : value)
         (args : list string) (kwargs : dict string),
    except_arg_names f <> [] ->
    args <> [] ->
    cache_exists DISK_CACHE_DIR w reg (func_name f) (except_arg_names f) args kwargs
    = (Raise AssertionError, w)
    /\ wrapper_store DISK_CACHE_DIR f w v args kwargs = (Raise AssertionError, w)
    /\ wrapper DISK_CACHE_DIR f w c args kwargs
       = (Raise (if binds_twice cache_exists_params kwargs
                 then TypeError else AssertionError),
          snd (load_cache_metadata_json w), c).
Proof.
  intros codec DIR f w c reg v args kwargs He Ha. split; [|split].
  - by apply cache_exists_asserts.
  - unfold wrapper_store. destruct (except_arg_names f); [done|].
    destruct args; [done|]. reflexivity.
  - unfold wrapper, wrapper_lookup.
    destruct (load_cache_metadata_json w) as [cm w1]. cbn [snd].
    destruct (binds_twice cache_exists_params kwargs); [reflexivity|].
    by rewrite cache_exists_asserts.
Qed.

Lemma exclusions_reject_positional_witness :
  cache_exists "/cache" blank_world empty_registry "query" ["conn"] ["1"] [("conn", "<db>")]
  = (Raise AssertionError, blank_world)
  /\ wrapper_store "/cache" query_fn blank_world (VObj "rows") ["1"] [("conn", "<db>")]
     = (Raise AssertionError, blank_world)
  /\ wrapper "/cache" query_fn blank_world no_counters ["1"] [("conn", "<db>")]
     = (Raise AssertionError, snd (load_cache_metadata_json blank_world), no_counters).
Proof.
  apply (exclusions_reject_positional demo_codec "/cache" query_fn blank_world
           no_counters empty_registry (VObj "rows") ["1"] [("conn", "<db>")]);
    discriminate.
Defined.

(** ** Key deriver *)

Lemma digest_length (msg : bytes) : length (Sha1.digest msg) = 20%nat.
Proof. unfold Sha1.digest. generalize (Sha1.blocks (length (Sha1.pad (map byte_val msg)) / 64) Sha1.init (Sha1.pad (map byte_val msg))). intros r. reflexivity. Qed.

Lemma hex_length (bs : list Z) : String.length (Sha1.hex bs) = (2 * length bs)%nat.
Proof. induction bs as [|b bs IH]; cbn [Sha1.hex String.length length]; lia. Qed.





(** ** Artifact backend: loading *)

Section LoadFacts.

Context {codec : Codec}.

Lemma unpickle_npy w file_path :
  ends_with ".npy" file_path = true ->
  unpickle_big_data w file_path
  = Ok (if file_exists w (file_path +:+ ".json")
        then load_np_memmap w file_path else load_numpy w file_path).
Proof.
  intros Hext. unfold unpickle_big_data. rewrite Hext.
  by destruct (file_exists w _).
Qed.

Lemma unpickle_pkl w file_path f :
  ends_with ".npy" file_path = false ->
  files w !! file_path = Some f ->
  unpickle_big_data w file_path
  = match pickle_load (f_data f) with
    | Ok v => Ok v
    | Raise _ => pickle_loads (f_data f)
    end.
Proof.
  intros Hext Hf. unfold unpickle_big_data. rewrite Hext, Hf.
  destruct (pickle_load (f_data f)); [reflexivity|].
  by rewrite read_chunks_whole.
Qed.

Lemma load_numpy_failure w file_path f e :
  files w !! file_path = Some f ->
  np_load (f_data f) = Raise e ->
  load_numpy w file_path = VNone.
Proof. intros Hf He. unfold load_numpy. by rewrite Hf, He. Qed.

End LoadFacts.

(** C2 (counterexample).  A pickle artifact truncated to zero bytes: the
    first load fails, the chunked re-read decodes the same empty bytes and
    fails too, and that error leaves [unpickle_big_data] and the wrapper call
    that looked the entry up; the call is not turned into a miss. *)
Lemma corrupt_pickle_raises_to_caller :
  unpickle_big_data corrupt_pkl_world f_pkl = Raise CodecError
  /\ wrapper "/cache" answer_fn corrupt_pkl_world no_counters [] []
     = (Raise CodecError, corrupt_pkl_world, no_counters).
Proof. split; vm_compute; reflexivity. Qed.

(** C2 (amended).  For a path ending in [.npy] the load never raises: it
    returns what [load_np_memmap] (sidecar present) or [load_numpy] returns,
    and that is [None] when the array file cannot be read.  For any other
    existing path the first [pickle.load] decides when it succeeds; when it
    raises, the file is read again in chunks, the chunks are the whole file,
    and the outcome of [pickle.loads] on them, value or error, is the outcome
    of the call. *)
Theorem unpickle_big_data_outcome :
  forall (codec : Codec) (w : World) (file_path : string) (f : file),
    files w !! file_path = Some f ->
    (ends_with ".npy" file_path = true ->
       raises (unpickle_big_data w file_path) = false
       /\ unpickle_big_data w file_path
          = Ok (if file_exists w (file_path +:+ ".json")
                then load_np_memmap w file_path else load_numpy w file_path)
       /\ (file_exists w (file_path +:+ ".json") = false ->
           raises (np_load (f_data f)) = true ->
           unpickle_big_data w file_path = Ok VNone))
    /\ (ends_with ".npy" file_path = false ->
          unpickle_big_data w file_path
          = match pickle_load (f_data f) with
            | Ok v => Ok v
            | Raise _ => pickle_loads (read_chunks (lenN (f_data f)) (f_data f))
            end
          /\ read_chunks (lenN (f_data f)) (f_data f) = f_data f).
Proof.
  intros codec w file_path f Hf. split; intros Hext.
  - rewrite (unpickle_npy _ _ Hext). split; [reflexivity|]. split; [reflexivity|].
    intros -> Hload. destruct (np_load (f_data f)) as [a|e] eqn:He; [discriminate|].
    by rewrite (load_numpy_failure _ _ _ _ Hf He).
  - rewrite read_chunks_whole. split; [|reflexivity]. by apply unpickle_pkl.
Qed.

Lemma unpickle_big_data_outcome_witness :
  unpickle_big_data corrupt_npy_world f_npy = Ok VNone
  /\ unpickle_big_data corrupt_pkl_world f_pkl
     = pickle_loads (read_chunks (lenN []) []).
Proof.
  split.
  - apply (unpickle_big_data_outcome demo_codec corrupt_npy_world f_npy
             (File [x00; x01] (99 * day))); vm_compute; reflexivity.
  - apply (unpickle_big_data_outcome demo_codec corrupt_pkl_world f_pkl
             (File [] (99 * day))); vm_compute; reflexivity.
Defined.

(** ** Eviction sweep *)

(** C4 (evaluation of the code where the claim fails).  When every row of a
    function is to be dropped, [to_keep] is empty and the function's list in
    the copy is left as it was.  A registry whose only row for [f] names a
    missing artifact is written back with that row still in it; a registry
    whose only row for [f] is past its age loses the artifact and keeps the
    row. *)
Theorem sweep_keeps_rows_of_emptied_function :
  delete_old_disk_caches "/cache" orphan_row_world = (Ok tt, orphan_row_world)
  /\ file_exists orphan_row_world (join_path "/cache" (c_file_name (f_row ".pkl" (Some 15))))
     = false
  /\ delete_old_disk_caches "/cache" stale_pkl_world
     = (Ok tt, os_remove stale_pkl_world f_pkl)
  /\ registry_file (os_remove stale_pkl_world f_pkl)
     = Some (f_registry [f_row ".pkl" (Some 15)])
  /\ file_exists (os_remove stale_pkl_world f_pkl) f_pkl = false.
Proof. repeat split; vm_compute; reflexivity. Qed.

(** ** Lookup and the TTL *)

Section TtlFacts.

Context {codec : Codec}.
Variable DISK_CACHE_DIR : string.

(** The lookup once the registry has the function, the artifact is
    resolved and the scan found [max_age_days]. *)
Lemma cache_exists_resolved w reg fname except args kwargs rows path f m :
  except = [] \/ args = [] ->
  dict_get reg fname = Some (Rows rows) ->
  resolve_artifact DISK_CACHE_DIR w
    (signature_key fname args (pop_excluded except kwargs)) = Some path ->
  files w !! path = Some f ->
  find_max_age rows (str_tuple args) (str_dict (pop_excluded except kwargs)) = Ok m ->
  cache_exists DISK_CACHE_DIR w reg fname except args kwargs
  = if is_stale ((today w - f_mtime f) / microseconds_per_day) m
    then (Ok (false, VNone), os_remove w path)
    else match unpickle_big_data w path with
         | Raise e => (Raise e, w)
         | Ok v => if is_none v then (Ok (false, VNone), w) else (Ok (true, v), w)
         end.
Proof.
  intros Hpre Hreg Hres Hf Hm. unfold cache_exists.
  replace ((0 <? length except)%nat && negb (length args =? 0)%nat) with false
    by (destruct Hpre as [-> | ->]; [reflexivity | by rewrite andb_false_r]).
  rewrite Hreg, Hres, Hm. unfold get_age_of_file. rewrite Hf. reflexivity.
Qed.

End TtlFacts.

(** C5 (counterexample).  The registry lists two rows for the one
    signature of [f], the artifact was written 3 days ago.  With the row
    allowing 2 days listed second, after a row allowing 0 days, the lookup is
    a hit and removes nothing: the entry with [max_age_days = 2] is not
    treated as stale.  With the two rows in the other order the lookup
    reports a miss and removes the artifact: the entry with
    [max_age_days = 0] has expired. *)
Lemma later_row_ttl_is_ignored :
  (In (f_row ".pkl" (Some 2)) [f_row ".pkl" (Some 0); f_row ".pkl" (Some 2)]
   /\ cache_exists "/cache" (two_rows_world (Some 0) (Some 2))
        (f_registry [f_row ".pkl" (Some 0); f_row ".pkl" (Some 2)]) "f" [] [] []
      = (Ok (true, VObj "42"), two_rows_world (Some 0) (Some 2)))
  /\ (In (f_row ".pkl" (Some 0)) [f_row ".pkl" (Some 2); f_row ".pkl" (Some 0)]
      /\ cache_exists "/cache" (two_rows_world (Some 2) (Some 0))
           (f_registry [f_row ".pkl" (Some 2); f_row ".pkl" (Some 0)]) "f" [] [] []
         = (Ok (false, VNone), os_remove (two_rows_world (Some 2) (Some 0)) f_pkl)).
Proof.
  split; (split; [cbn; auto | vm_compute; reflexivity]).
Qed.

(** C5 (amended).  The lookup applies the TTL of the first row [e] of the
    function with the call's signature, to the file it resolves from the
    key, which is [e]'s artifact.  If [e] allows 2 days and the artifact was
    modified 3 days ago, [cache_exists] reports a miss and the artifact is
    removed.  If [e] allows 0 days, the unlimited sentinel, the lookup
    removes nothing whatever the artifact's age, and its answer is that of
    loading the artifact.  Rows of the same signature listed after [e] play
    no part. *)
Theorem cache_exists_ttl :
  forall (codec : Codec) (DISK_CACHE_DIR : string) (w : World) (reg : Registry)
         (fname : string) (except args : list string) (kwargs : dict string)
         (pre post : list CacheEntry) (e : CacheEntry) (f : file),
    except = [] \/ args = [] ->
    dict_get reg fname = Some (Rows (pre ++ e :: post)) ->
    Forall (fun r => row_matches r (str_tuple args)
                       (str_dict (pop_excluded except kwargs)) = false) pre ->
    row_matches e (str_tuple args) (str_dict (pop_excluded except kwargs)) = true ->
    resolve_artifact DISK_CACHE_DIR w
      (signature_key fname args (pop_excluded except kwargs))
    = Some (join_path DISK_CACHE_DIR (c_file_name e)) ->
    files w !! join_path DISK_CACHE_DIR (c_file_name e) = Some f ->
    (c_max_age_days e = Some 2 ->
     3 * microseconds_per_day <= today w - f_mtime f < 4 * microseconds_per_day ->
     cache_exists DISK_CACHE_DIR w reg fname except args kwargs
     = (Ok (false, VNone), os_remove w (join_path DISK_CACHE_DIR (c_file_name e)))
     /\ file_exists (os_remove w (join_path DISK_CACHE_DIR (c_file_name e)))
          (join_path DISK_CACHE_DIR (c_file_name e)) = false)
    /\ (c_max_age_days e = Some UNLIMITED_CACHE_AGE ->
        cache_exists DISK_CACHE_DIR w reg fname except args kwargs
        = match unpickle_big_data w (join_path DISK_CACHE_DIR (c_file_name e)) with
          | Raise err => (Raise err, w)
          | Ok v => if is_none v then (Ok (false, VNone), w) else (Ok (true, v), w)
          end
        /\ files (snd (cache_exists DISK_CACHE_DIR w reg fname except args kwargs))
           = files w).
Proof.
  intros codec DIR w reg fname except args kwargs pre post e f
         Hpre Hreg Hfirst He Hres Hf.
  pose proof (find_max_age_first pre e post _ _ Hfirst He) as Hscan.
  unfold int_of_max_age in Hscan. split; intros Hmax; rewrite Hmax in Hscan.
  - intros Hage.
    rewrite (cache_exists_resolved DIR w reg fname except args kwargs _ _ f 2
               Hpre Hreg Hres Hf Hscan).
    assert ((today w - f_mtime f) / microseconds_per_day = 3) as ->.
    { symmetry. apply (Z.div_unique _ _ 3 (today w - f_mtime f - 3 * microseconds_per_day));
        unfold microseconds_per_day in *; lia. }
    split; [reflexivity|].
    unfold file_exists, os_remove. cbn [files set_files]. by rewrite lookup_delete_eq.
  - rewrite (cache_exists_resolved DIR w reg fname except args kwargs _ _ f 0
               Hpre Hreg Hres Hf Hscan).
    rewrite is_stale_unlimited. split; [reflexivity|].
    destruct (unpickle_big_data w _) as [v|err]; [destruct (is_none v)|]; reflexivity.
Qed.

Lemma cache_exists_ttl_witness :
  (cache_exists "/cache" aged_world (f_registry [f_row ".pkl" (Some 2)]) "f" [] [] []
   = (Ok (false, VNone), os_remove aged_world (join_path "/cache" (c_file_name (f_row ".pkl" (Some 2)))))
   /\ file_exists (os_remove aged_world (join_path "/cache" (c_file_name (f_row ".pkl" (Some 2)))))
        (join_path "/cache" (c_file_name (f_row ".pkl" (Some 2)))) = false)
  /\ files (snd (cache_exists "/cache" forever_world
                   (f_registry [f_row ".pkl" (Some 0)]) "f" [] [] []))
     = files forever_world.
Proof.
  split.
  - apply (cache_exists_ttl demo_codec "/cache" aged_world
             (f_registry [f_row ".pkl" (Some 2)]) "f" [] [] [] [] []
             (f_row ".pkl" (Some 2)) (File pickled_42 (97 * day)));
      first [ by left | by constructor | vm_compute; done ].
  - apply (cache_exists_ttl demo_codec "/cache" forever_world
             (f_registry [f_row ".pkl" (Some 0)]) "f" [] [] [] [] []
             (f_row ".pkl" (Some 0)) (File pickled_42 0));
      first [ by left | by constructor | vm_compute; done ].
Defined.

(** ** The wrapper: suppressed caching *)

(** C6 (counterexample).  A call whose computation raises
    [NoCacheCondition] has already been counted as a miss when the signal
    arrives: the miss counter goes up together with the nocache counter.
    And the lookup made before the computation has removed the stale
    artifact, so the files are not those from before the call. *)
Lemma nocache_call_counts_a_miss :
  wrapper "/cache" flaky_fn aged_world no_counters [] []
  = (Ok (VObj "partial"), os_remove aged_world f_pkl, Counters 0 1 1 1)
  /\ misses (snd (wrapper "/cache" flaky_fn aged_world no_counters [] []))
     <> misses no_counters
  /\ files (snd (fst (wrapper "/cache" flaky_fn aged_world no_counters [] [])))
     <> files aged_world.
Proof.
  assert (H : wrapper "/cache" flaky_fn aged_world no_counters [] []
              = (Ok (VObj "partial"), os_remove aged_world f_pkl, Counters 0 1 1 1))
    by (vm_compute; reflexivity).
  rewrite H. split; [reflexivity|]. split; [discriminate|].
  cbn [fst snd]. intros Heq.
  assert (Hl : files (os_remove aged_world f_pkl) !! f_pkl = files aged_world !! f_pkl)
    by (by rewrite Heq).
  vm_compute in Hl. discriminate.
Qed.

(** C6 (amended).  When the lookup misses and the computation raises
    [NoCacheCondition] carrying [v], the wrapper returns [v], counts one miss
    and one nocache event and no hit, and stores nothing: the world is the one
    the lookup left, whose registry file is the document loaded at the start
    of the call (the existing one when there was one) and whose files are all
    files from before the call. *)
Theorem wrapper_nocache :
  forall (codec : Codec) (DISK_CACHE_DIR : string) (f : Wrapped) (w w2 : World)
         (c : counters) (args : list string) (kwargs : dict string) (v x : value),
    wrapper_lookup DISK_CACHE_DIR f w args kwargs = (Ok (false, x), w2) ->
    original_func f args kwargs = RaisesNoCacheCondition v ->
    wrapper DISK_CACHE_DIR f w c args kwargs
    = (Ok v, w2, Counters (hits c) (S (misses c)) (S (nocache c)) (S (runs c)))
    /\ registry_file w2 = Some (fst (load_cache_metadata_json w))
    /\ (forall d, registry_file w = Some d -> registry_file w2 = Some d)
    /\ (forall p, files w2 !! p = None \/ files w2 !! p = files w !! p).
Proof.
  intros codec DIR f w w2 c args kwargs v x Hcall Hf.
  destruct (wrapper_lookup_ok DIR f w args kwargs _ _ Hcall) as [_ Hlook].
  pose proof (cache_exists_effect DIR (snd (load_cache_metadata_json w))
                (fst (load_cache_metadata_json w)) (func_name f)
                (except_arg_names f) args kwargs) as Heff.
  cbv zeta in Heff. rewrite Hlook in Heff. cbn [snd] in Heff.
  split.
  - unfold wrapper. rewrite Hcall, Hf. reflexivity.
  - assert (Hreg : registry_file (snd (load_cache_metadata_json w))
                   = Some (fst (load_cache_metadata_json w))).
    { unfold load_cache_metadata_json. destruct (registry_file w) eqn:E; cbn; done. }
    assert (Hfiles : files (snd (load_cache_metadata_json w)) = files w).
    { unfold load_cache_metadata_json. destruct (registry_file w); reflexivity. }
    assert (Hw2 : registry_file w2 = Some (fst (load_cache_metadata_json w))
                  /\ forall p, files w2 !! p = None \/ files w2 !! p = files w !! p).
    { destruct Heff as [->|(p & _ & ->)].
      - rewrite Hreg, Hfiles. auto.
      - cbn [os_remove set_files registry_file files]. rewrite Hreg, Hfiles.
        split; [reflexivity|]. intros q.
        destruct (decide (p = q)) as [->|Hne];
          [left; apply lookup_delete_eq | right; by apply lookup_delete_ne]. }
    destruct Hw2 as [Hr Hfs]. split; [exact Hr|]. split; [|exact Hfs].
    intros d Hd. rewrite Hr. unfold load_cache_metadata_json. by rewrite Hd.
Qed.

Lemma wrapper_nocache_witness :
  wrapper "/cache" flaky_fn aged_world no_counters [] []
  = (Ok (VObj "partial"), os_remove aged_world f_pkl, Counters 0 1 1 1).
Proof.
  apply (wrapper_nocache demo_codec "/cache" flaky_fn aged_world
           (os_remove aged_world f_pkl) no_counters [] [] (VObj "partial") VNone);
    vm_compute; reflexivity.
Defined.

(** ** Strings, paths and dictionaries *)

Lemma str_app_cons (x : ascii) (a b : string) : String x a +:+ b = String x (a +:+ b).
Proof. reflexivity. Qed.

Lemma str_app_assoc (a b c : string) : (a +:+ b) +:+ c = a +:+ (b +:+ c).
Proof.
  induction a as [|x a IH]; [reflexivity|]. rewrite !str_app_cons. by f_equal.
Qed.

Lemma str_length_app (a b : string) :
  String.length (a +:+ b) = (String.length a + String.length b)%nat.
Proof.
  induction a as [|x a IH]; [reflexivity|].
  rewrite str_app_cons. cbn [String.length]. by rewrite IH.
Qed.

Lemma ends_with_unfold (suffix s : string) :
  ends_with suffix s
  = if String.eqb suffix s then true
    else match s with
         | EmptyString => false
         | String _ s' => ends_with suffix s'
         end.
Proof. destruct s; reflexivity. Qed.

Lemma ends_with_short (suffix s : string) :
  (String.length s < String.length suffix)%nat -> ends_with suffix s = false.
Proof.
  induction s as [|x s IH]; intros Hlen; rewrite ends_with_unfold.
  - destruct (String.eqb_spec suffix EmptyString) as [->|]; [cbn in Hlen; lia | done].
  - destruct (String.eqb_spec suffix (String x s)) as [->|]; [lia|].
    apply IH. cbn in Hlen. lia.
Qed.

Lemma ends_with_app_same (ext x : string) : ends_with ext (x +:+ ext) = true.
Proof.
  induction x as [|c x IH].
  - change (EmptyString +:+ ext) with ext. rewrite ends_with_unfold.
    by rewrite String.eqb_refl.
  - rewrite str_app_cons, ends_with_unfold. by destruct (String.eqb ext _).
Qed.

Lemma ends_with_app_other (e1 e2 x : string) :
  String.length e1 = String.length e2 -> e1 <> e2 ->
  ends_with e1 (x +:+ e2) = false.
Proof.
  intros Hlen Hne. induction x as [|c x IH].
  - change (EmptyString +:+ e2) with e2. rewrite ends_with_unfold.
    destruct (String.eqb_spec e1 e2); [done|].
    destruct e2 as [|c e2]; [done|]. apply ends_with_short. cbn in Hlen. lia.
  - rewrite str_app_cons, ends_with_unfold.
    destruct (String.eqb_spec e1 (String c (x +:+ e2))) as [Heq|]; [|exact IH].
    apply (f_equal String.length) in Heq. cbn in Heq. rewrite str_length_app in Heq. lia.
Qed.

Lemma join_path_ext (d k e : string) : exists X, join_path d (k +:+ e) = X +:+ e.
Proof.
  unfold join_path. destruct (starts_with _ _); [by exists k|].
  destruct (_ || _).
  - exists (d +:+ k). by rewrite str_app_assoc.
  - exists (d +:+ "/" +:+ k). by rewrite !str_app_assoc.
Qed.

Lemma npy_path_is_npy (d k : string) : ends_with ".npy" (join_path d (k +:+ ".npy")) = true.
Proof. destruct (join_path_ext d k ".npy") as [X ->]. apply ends_with_app_same. Qed.

Lemma pkl_path_is_not_npy (d k : string) :
  ends_with ".npy" (join_path d (k +:+ ".pkl")) = false.
Proof. destruct (join_path_ext d k ".pkl") as [X ->]. by apply ends_with_app_other. Qed.

Lemma npy_pkl_paths_differ (d k : string) :
  join_path d (k +:+ ".npy") <> join_path d (k +:+ ".pkl").
Proof.
  intros Heq. pose proof (npy_path_is_npy d k) as H1.
  rewrite Heq, pkl_path_is_not_npy in H1. discriminate.
Qed.

Lemma sidecar_path_differs (p : string) : p +:+ ".json" <> p.
Proof.
  intros Heq. apply (f_equal String.length) in Heq.
  rewrite str_length_app in Heq. cbn in Heq. lia.
Qed.

Lemma dict_get_set_eq {V} (d : dict V) (k : string) (v : V) :
  dict_get (dict_set d k v) k = Some v.
Proof.
  induction d as [|[k' v'] d IH]; cbn [dict_set dict_get].
  - by rewrite String.eqb_refl.
  - destruct (String.eqb_spec k' k) as [->|Hne]; cbn [dict_get].
    + by rewrite String.eqb_refl.
    + destruct (String.eqb_spec k' k); [done|exact IH].
Qed.

Lemma dict_get_set_ne {V} (d : dict V) (k k' : string) (v : V) :
  k <> k' -> dict_get (dict_set d k v) k' = dict_get d k'.
Proof.
  intros Hne. induction d as [|[k0 v0] d IH]; cbn [dict_set dict_get].
  - by destruct (String.eqb_spec k k').
  - destruct (String.eqb_spec k0 k) as [->|Hk0]; cbn [dict_get].
    + destruct (String.eqb_spec k k'); [done|]. reflexivity.
    + destruct (String.eqb_spec k0 k'); [reflexivity|exact IH].
Qed.


(** ** Key deriver: the text behind the digest *)

Lemma str_app_inj_prefix (a b x y : string) :
  String.length a = String.length b -> a +:+ x = b +:+ y -> a = b /\ x = y.
Proof.
  revert b. induction a as [|c a IH]; intros [|d b] Hlen Heq; try discriminate.
  - done.
  - rewrite !str_app_cons in Heq. injection Heq as -> Heq. cbn in Hlen.
    destruct (IH b ltac:(lia) Heq) as [-> ->]. done.
Qed.











(** ** The wrapper: a stored result is found again *)

Section HitFacts.

Context {codec : Codec}.
Variable DISK_CACHE_DIR : string.

Lemma load_existing w d :
  registry_file w = Some d -> load_cache_metadata_json w = (d, w).
Proof. intros H. unfold load_cache_metadata_json. by rewrite H. Qed.

(** The first load of a call: afterwards the registry file exists and
    holds the loaded document; files and clock are untouched. *)
Lemma load_cache_metadata_json_spec w :
  exists cm,
    load_cache_metadata_json w = (cm, Mk_World (Some cm) (files w) (today w))
    /\ (registry_file w = Some cm \/ (registry_file w = None /\ cm = empty_registry)).
Proof.
  unfold load_cache_metadata_json. destruct w as [[d|] fs t]; cbn.
  - exists d. auto.
  - exists empty_registry. auto.
Qed.


Lemma resolve_artifact_none w key :
  resolve_artifact DISK_CACHE_DIR w key = None ->
  files w !! join_path DISK_CACHE_DIR (key +:+ ".npy") = None
  /\ files w !! join_path DISK_CACHE_DIR (key +:+ ".pkl") = None.
Proof.
  unfold resolve_artifact, file_exists. by repeat case_match.
Qed.

(** A lookup that finds no artifact for the key is a miss and changes
    nothing. *)
Lemma cache_exists_no_artifact w cm fname except args kwargs :
  except = [] \/ args = [] ->
  resolve_artifact DISK_CACHE_DIR w
    (signature_key fname args (pop_excluded except kwargs)) = None ->
  cache_exists DISK_CACHE_DIR w cm fname except args kwargs = (Ok (false, VNone), w).
Proof.
  intros Hpre Hres. unfold cache_exists.
  replace ((0 <? length except)%nat && negb (length args =? 0)%nat) with false
    by (destruct Hpre as [-> | ->]; [reflexivity | by rewrite andb_false_r]).
  rewrite Hres. by destruct (dict_get cm fname).
Qed.

(** What [pickle_big_data] writes for a value that round-trips. *)
Lemma pickle_big_data_stores w v content file_path rename :
  stored_content v content ->
  pickle_big_data w v file_path rename = (Ok tt, write_file w file_path content).
Proof.
  destruct v as [|o|a|fn a]; cbn [stored_content]; try done.
  - intros [Hd _]. unfold pickle_big_data. by rewrite Hd, write_chunks_whole.
  - intros [-> _]. reflexivity.
Qed.

(** The store: the artifact is written, a row is appended to the
    function's list, the counter goes up by one, the registry is saved. *)
Lemma cache_function_value_stores w v content nd cm rename fname args kw k rows :
  fname <> _TOTAL_NUMCACHE_KEY ->
  stored_content v content ->
  dict_get cm _TOTAL_NUMCACHE_KEY = Some (Count k) ->
  (dict_get cm fname = None /\ rows = []) \/ dict_get cm fname = Some (Rows rows) ->
  cache_function_value DISK_CACHE_DIR w v nd cm rename fname args kw
  = (Ok (artifact_path DISK_CACHE_DIR (signature_key fname args kw) v),
     write_cache_file
       (write_file w (artifact_path DISK_CACHE_DIR (signature_key fname args kw) v) content)
       (dict_set
          (dict_set cm fname
             (Rows (rows ++ [Entry (str_tuple args) (str_dict kw)
                               (signature_key fname args kw
                                  +:+ (if is_ndarray v then ".npy" else ".pkl")) nd])))
          _TOTAL_NUMCACHE_KEY (Count (k + 1)))).
Proof.
  intros Hne Hv Htot Hrows. unfold cache_function_value, artifact_path.
  destruct (String.eqb_spec fname _TOTAL_NUMCACHE_KEY) as [|_]; [done|].
  rewrite (pickle_big_data_stores _ _ _ _ _ Hv).
  assert (Hgot : match dict_get cm fname with
                 | None => Ok []
                 | Some (Rows l) => Ok l
                 | Some (Count _) => Raise AttributeError
                 end = Ok rows).
  { destruct Hrows as [[-> ->] | ->]; reflexivity. }
  rewrite Hgot, dict_get_set_ne, Htot by done. reflexivity.
Qed.


(** After the store the lookup settles on the artifact just written. *)
Lemma resolve_artifact_stored w v key content t :
  resolve_artifact DISK_CACHE_DIR w key = None ->
  resolve_artifact DISK_CACHE_DIR
    (set_files w (<[artifact_path DISK_CACHE_DIR key v := File content t]> (files w))) key
  = Some (artifact_path DISK_CACHE_DIR key v).
Proof.
  intros Hnone. destruct (resolve_artifact_none _ _ Hnone) as [Hnpy Hpkl].
  unfold resolve_artifact, file_exists, artifact_path. cbn [files set_files].
  destruct (is_ndarray v).
  - by rewrite lookup_insert_eq.
  - rewrite lookup_insert_ne by (intros E; by apply (npy_pkl_paths_differ DISK_CACHE_DIR key)).
    rewrite Hnpy. by rewrite lookup_insert_eq.
Qed.


Lemma assert_passes (except args : list string) :
  except = [] \/ args = [] ->
  (0 <? length except)%nat && negb (length args =? 0)%nat = false.
Proof. intros [-> | ->]; [reflexivity | by rewrite andb_false_r]. Qed.


End HitFacts.




(** ** The decorator's TTL argument *)




(** * Further properties *)

(** ** Lock coordinator *)




(** X2.  [LockTimeout] is raised exactly when the maximum wait is not
    positive, and then at the first test of the loop, before [flock] is
    called at all, also when nobody holds the lock. *)
Theorem lock_timeout_iff_no_wait :
  forall (c : Lock.config) (e : Lock.env) (fl : Lock.flags),
    ((exists fuel s, Lock.open_locked c e fl fuel = Some (Lock.RaisedLockTimeout s))
     <-> Lock.Qlt_bool 0 (Lock.DISK_CACHE_LOCK_MAX_WAIT c) = false)
    /\ (Lock.Qlt_bool 0 (Lock.DISK_CACHE_LOCK_MAX_WAIT c) = false ->
        forall fuel,
          Lock.open_locked c e fl (S fuel)
          = Some (Lock.RaisedLockTimeout (Lock.LoopState 0 0 0))).
Proof.
  intros c e fl.
  assert (Hnow : Lock.Qlt_bool 0 (Lock.DISK_CACHE_LOCK_MAX_WAIT c) = false ->
                 forall fuel, Lock.open_locked c e fl (S fuel)
                              = Some (Lock.RaisedLockTimeout (Lock.LoopState 0 0 0))).
  { intros Hmax fuel. unfold Lock.open_locked. cbn [Lock.run]. unfold Lock.loop_step.
    cbn [Lock.elapsed]. by rewrite Hmax. }
  split; [split|exact Hnow].
  - intros (fuel & s & H). by apply (lock_timeout_only_without_wait c e fl fuel s).
  - intros Hmax. exists 1%nat, (Lock.LoopState 0 0 0). by apply Hnow.
Qed.

Lemma lock_timeout_iff_no_wait_witness :
  Lock.open_locked (Lock.Config 0 (1 # 10)) Lock.uncontended Lock.LOCK_SH_NB 1
  = Some (Lock.RaisedLockTimeout (Lock.LoopState 0 0 0)).
Proof.
  apply (lock_timeout_iff_no_wait (Lock.Config 0 (1 # 10)) Lock.uncontended
           Lock.LOCK_SH_NB). reflexivity.
Defined.

(** ** Metadata registry: loading *)

(** X3.  [load_cache_metadata_json] leaves a registry file behind that
    holds the document it returns: an existing registry is returned with the
    world untouched, a missing one is created holding only the zero counter;
    artifacts and clock are never touched, and loading again returns the
    same document without changing anything. *)
Theorem load_cache_metadata_json_settles :
  forall (w : World),
    registry_file (snd (load_cache_metadata_json w))
    = Some (fst (load_cache_metadata_json w))
    /\ files (snd (load_cache_metadata_json w)) = files w
    /\ today (snd (load_cache_metadata_json w)) = today w
    /\ load_cache_metadata_json (snd (load_cache_metadata_json w))
       = load_cache_metadata_json w
    /\ (registry_file w = None -> fst (load_cache_metadata_json w) = empty_registry)
    /\ (forall d, registry_file w = Some d -> load_cache_metadata_json w = (d, w)).
Proof.
  intros [[d|] fs t]; unfold load_cache_metadata_json; cbn; repeat split; try done.
  intros d' [= ->]. reflexivity.
Qed.

Lemma load_cache_metadata_json_settles_witness :
  fst (load_cache_metadata_json blank_world) = empty_registry
  /\ load_cache_metadata_json orphan_row_world
     = (f_registry [f_row ".pkl" (Some 15)], orphan_row_world).
Proof.
  split.
  - apply (load_cache_metadata_json_settles blank_world). reflexivity.
  - apply (load_cache_metadata_json_settles orphan_row_world). reflexivity.
Defined.

(** ** Artifact backend: round trips *)

(** X4.  For a value that is not an array, [pickle_big_data] writes the
    pickled bytes whole (the chunks add up to them) under the given path,
    stamped with the current time, and touches nothing else; on a path not
    ending in [.npy], [unpickle_big_data] then decodes exactly those bytes:
    [pickle.load] first and, if that raises, [pickle.loads]. *)
Theorem pickle_store_load_round_trip :
  forall (codec : Codec) (w : World) (v : value) (b : bytes)
         (file_path : string) (rename : bool),
    is_ndarray v = false ->
    ends_with ".npy" file_path = false ->
    pickle_dumps v = Ok b ->
    fst (pickle_big_data w v file_path rename) = Ok tt
    /\ files (snd (pickle_big_data w v file_path rename)) !! file_path
       = Some (File b (today w))
    /\ (forall p, p <> file_path ->
          files (snd (pickle_big_data w v file_path rename)) !! p = files w !! p)
    /\ registry_file (snd (pickle_big_data w v file_path rename)) = registry_file w
    /\ unpickle_big_data (snd (pickle_big_data w v file_path rename)) file_path
       = match pickle_load b with
         | Ok v' => Ok v'
         | Raise _ => pickle_loads b
         end.
Proof.
  intros codec w v b file_path rename Hv Hext Hd.
  assert (Hst : pickle_big_data w v file_path rename = (Ok tt, write_file w file_path b)).
  { unfold pickle_big_data. destruct v; try discriminate; by rewrite Hd, write_chunks_whole. }
  rewrite Hst. cbn [fst snd write_file set_files files registry_file].
  split; [reflexivity|]. split; [apply lookup_insert_eq|].
  split; [intros p Hp; by apply lookup_insert_ne|]. split; [reflexivity|].
  rewrite (unpickle_pkl _ _ (File b (today w)) Hext); [reflexivity|].
  cbn [files]. apply lookup_insert_eq.
Qed.

Lemma pickle_store_load_round_trip_witness :
  unpickle_big_data (snd (pickle_big_data blank_world (VObj "42") f_pkl true)) f_pkl
  = match pickle_load pickled_42 with
    | Ok v' => Ok v'
    | Raise _ => pickle_loads pickled_42
    end.
Proof.
  apply (pickle_store_load_round_trip demo_codec blank_world (VObj "42") pickled_42
           f_pkl true); vm_compute; reflexivity.
Defined.

(** X5.  An array (or a memory map that is not to be renamed) is written
    with [np.save] under the given path; on a path ending in [.npy] with no
    [.json] sidecar beside it, [unpickle_big_data] then returns what
    [np.load] makes of those bytes as a memory map of that path, and [None]
    if [np.load] raises. *)
Theorem numpy_store_load_round_trip :
  forall (codec : Codec) (w : World) (v : value) (a : ndarray)
         (file_path : string) (rename : bool),
    v = VArray a \/ (exists fn, v = VMemmap fn a /\ rename = false) ->
    ends_with ".npy" file_path = true ->
    files w !! (file_path +:+ ".json") = None ->
    pickle_big_data w v file_path rename = (Ok tt, write_file w file_path (np_save a))
    /\ unpickle_big_data (write_file w file_path (np_save a)) file_path
       = Ok (match np_load (np_save a) with
             | Ok a' => VMemmap file_path a'
             | Raise _ => VNone
             end).
Proof.
  intros codec w v a file_path rename Hv Hext Hside. split.
  - destruct Hv as [-> | (fn & -> & ->)]; reflexivity.
  - rewrite (unpickle_npy _ _ Hext). unfold file_exists, load_numpy.
    cbn [write_file set_files files].
    rewrite lookup_insert_ne by (intros E; symmetry in E; by apply sidecar_path_differs in E).
    rewrite Hside, lookup_insert_eq. reflexivity.
Qed.

Lemma numpy_store_load_round_trip_witness :
  unpickle_big_data (write_file blank_world f_npy (np_save demo_array)) f_npy
  = Ok (VMemmap f_npy demo_array).
Proof.
  apply (numpy_store_load_round_trip demo_codec blank_world (VArray demo_array)
           demo_array f_npy true); [by left | vm_compute; reflexivity | vm_compute; reflexivity].
Defined.

(** The move made by [rename_np_memmap]. *)
Lemma rename_np_memmap_moves {codec : Codec} (w : World)
    (from_filepath file_path dt : string) (sh : list Z) (f : file) (a : ndarray) :
  from_filepath <> file_path ->
  from_filepath <> file_path +:+ ".json" ->
  files w !! from_filepath = Some f ->
  np_memmap (f_data f) dt sh = Ok a ->
  rename_np_memmap w from_filepath file_path dt sh
  = (Ok (VMemmap file_path a),
     Mk_World (registry_file w)
       (<[file_path := f]>
          (delete from_filepath
             (<[file_path +:+ ".json" := File (json_dump_meta dt sh) (today w)]> (files w))))
       (today w)).
Proof.
  intros Hne Hside Hf Hmap.
  set (meta := File (json_dump_meta dt sh) (today w)).
  set (fs := <[file_path := f]>
               (delete from_filepath (<[file_path +:+ ".json" := meta]> (files w)))).
  unfold rename_np_memmap, write_file, set_files.
  destruct (String.eqb_spec from_filepath file_path) as [|_]; [done|].
  cbn [files registry_file today]. fold meta.
  rewrite lookup_insert_ne by done. rewrite Hf. fold fs.
  cbn [files]. unfold fs at 1. rewrite lookup_insert_eq. by rewrite Hmap.
Qed.

(** X6.  [rename_np_memmap] of an existing backing file to another path
    writes the sidecar, moves the file with its bytes and its modification
    time (so the artifact is as old as the backing file was) and returns the
    memory map of the new path; [load_np_memmap] on the new path then gives
    that same memory map back, provided the sidecar reads back as written. *)
Theorem rename_np_memmap_round_trip :
  forall (codec : Codec) (w : World) (from_filepath file_path dt : string)
         (sh : list Z) (f : file) (a : ndarray),
    from_filepath <> file_path ->
    from_filepath <> file_path +:+ ".json" ->
    files w !! from_filepath = Some f ->
    json_load_meta (json_dump_meta dt sh) = Ok (dt, sh) ->
    np_memmap (f_data f) dt sh = Ok a ->
    fst (rename_np_memmap w from_filepath file_path dt sh) = Ok (VMemmap file_path a)
    /\ files (snd (rename_np_memmap w from_filepath file_path dt sh)) !! from_filepath = None
    /\ files (snd (rename_np_memmap w from_filepath file_path dt sh)) !! file_path = Some f
    /\ load_np_memmap (snd (rename_np_memmap w from_filepath file_path dt sh)) file_path
       = VMemmap file_path a.
Proof.
  intros codec w from to dt sh f a Hne Hside Hf Hmeta Hmap.
  assert (Hto : to +:+ ".json" <> to) by apply sidecar_path_differs.
  rewrite (rename_np_memmap_moves w from to dt sh f a Hne Hside Hf Hmap).
  set (meta := File (json_dump_meta dt sh) (today w)).
  set (fs := <[to := f]> (delete from (<[to +:+ ".json" := meta]> (files w)))).
  cbn [fst snd files]. split; [reflexivity|].
  assert (Hfrom : fs !! from = None)
    by (unfold fs; rewrite lookup_insert_ne by done; apply lookup_delete_eq).
  assert (Hfto : fs !! to = Some f) by (unfold fs; apply lookup_insert_eq).
  assert (Hfmeta : fs !! (to +:+ ".json") = Some meta).
  { unfold fs. rewrite lookup_insert_ne by done. rewrite lookup_delete_ne by done.
    apply lookup_insert_eq. }
  split; [exact Hfrom|]. split; [exact Hfto|].
  unfold load_np_memmap. cbn [files]. rewrite Hfmeta. unfold meta. cbn [f_data].
  by rewrite Hmeta, Hfto, Hmap.
Qed.

Lemma rename_np_memmap_round_trip_witness :
  fst (rename_np_memmap data_world "/data/m.dat" f_npy "uint8" [3])
  = Ok (VMemmap f_npy demo_array)
  /\ files (snd (rename_np_memmap data_world "/data/m.dat" f_npy "uint8" [3]))
       !! "/data/m.dat" = None
  /\ files (snd (rename_np_memmap data_world "/data/m.dat" f_npy "uint8" [3])) !! f_npy
     = Some (File [x01; x02; x03] (40 * day))
  /\ load_np_memmap (snd (rename_np_memmap data_world "/data/m.dat" f_npy "uint8" [3])) f_npy
     = VMemmap f_npy demo_array.
Proof.
  apply (rename_np_memmap_round_trip demo_codec data_world "/data/m.dat" f_npy "uint8"
           [3] (File [x01; x02; x03] (40 * day)) demo_array);
    vm_compute; first [reflexivity | discriminate].
Defined.

(** ** Lookup: exclusions, missing rows, hits *)

Lemma filter_all_true {A} (p : A -> bool) (l : list A) :
  Forall (fun x => p x = true) l -> List.filter p l = l.
Proof. induction 1 as [|x l Hx _ IH]; cbn; [reflexivity | by rewrite Hx, IH]. Qed.

Lemma dict_get_none_keys {V} (d : dict V) (k : string) :
  dict_get d k = None -> Forall (fun kv => negb (String.eqb kv.1 k) = true) d.
Proof.
  induction d as [|[k' v'] d IH]; cbn [dict_get]; [constructor|].
  destruct (String.eqb k' k) eqn:E; [discriminate|].
  intros H. constructor; [cbn; by rewrite E | by apply IH].
Qed.

Lemma absent_key_get {V} (d : dict V) (k : string) :
  ~ In k (map fst d) -> dict_get d k = None.
Proof.
  induction d as [|[k' v'] d IH]; cbn [dict_get map fst In]; [reflexivity|].
  intros H. destruct (String.eqb_spec k' k) as [->|_]; [tauto|]. apply IH. tauto.
Qed.

Lemma dict_pop_filter {V} (d : dict V) (k : string) :
  List.NoDup (map fst d) ->
  dict_pop d k = List.filter (fun kv => negb (String.eqb kv.1 k)) d.
Proof.
  induction d as [|[k' v'] d IH]; intros Hnd; [reflexivity|].
  cbn [map fst] in Hnd. apply List.NoDup_cons_iff in Hnd. destruct Hnd as [Hnotin Hnd].
  cbn [dict_pop List.filter fst].
  destruct (String.eqb_spec k' k) as [->|Hne]; cbn [negb].
  - symmetry. apply filter_all_true, dict_get_none_keys. by apply absent_key_get.
  - by rewrite IH.
Qed.

Lemma filter_keys_nodup {V} (p : string * V -> bool) (d : dict V) :
  List.NoDup (map fst d) -> List.NoDup (map fst (List.filter p d)).
Proof.
  induction d as [|[k v] d IH]; intros Hnd; [constructor|].
  cbn [map fst] in Hnd. apply List.NoDup_cons_iff in Hnd. destruct Hnd as [Hnotin Hnd].
  cbn [List.filter]. destruct (p (k, v)); [|by apply IH].
  cbn [map fst]. apply List.NoDup_cons_iff. split; [|by apply IH].
  intros Hin. apply Hnotin. apply in_map_iff in Hin. destruct Hin as (kv & Hk & Hin).
  apply List.filter_In in Hin. apply in_map_iff. exists kv. tauto.
Qed.

Lemma filter_filter {A} (p q : A -> bool) (l : list A) :
  List.filter q (List.filter p l) = List.filter (fun x => p x && q x) l.
Proof.
  induction l as [|x l IH]; [reflexivity|]. cbn [List.filter].
  destruct (p x); cbn [List.filter andb]; [destruct (q x)|]; by rewrite IH.
Qed.

(** On a dict, whose keys are distinct, popping the excluded names is
    filtering them out. *)
Lemma pop_excluded_filter (except : list string) (kwargs : dict string) :
  List.NoDup (map fst kwargs) ->
  pop_excluded except kwargs = List.filter (kept_keyword except) kwargs.
Proof.
  unfold pop_excluded. revert kwargs.
  induction except as [|k except IH]; intros kwargs Hnd; cbn [fold_left].
  - symmetry. apply filter_all_true. by apply Forall_forall.
  - assert (Hstep : (if dict_mem kwargs k then dict_pop kwargs k else kwargs)
                    = List.filter (fun kv => negb (String.eqb kv.1 k)) kwargs).
    { unfold dict_mem. destruct (dict_get kwargs k) eqn:E.
      - by apply dict_pop_filter.
      - symmetry. by apply filter_all_true, dict_get_none_keys. }
    rewrite Hstep, IH by (by apply filter_keys_nodup). rewrite filter_filter.
    apply List.filter_ext. intros kv. unfold kept_keyword. cbn [existsb].
    by rewrite negb_orb.
Qed.

(** X7.  Keyword arguments named in [except_arg_names] take no part in the
    lookup: two calls whose keywords agree once the excluded names are left
    out are looked up under the same key and rows, and get the same answer
    with the same effect; after the exclusions no excluded name is left. *)
Theorem excluded_keywords_do_not_matter :
  forall (codec : Codec) (DISK_CACHE_DIR : string) (w : World) (cm : Registry)
         (fname : string) (except args : list string) (kwargs kwargs' : dict string),
    List.NoDup (map fst kwargs) ->
    List.NoDup (map fst kwargs') ->
    List.filter (kept_keyword except) kwargs = List.filter (kept_keyword except) kwargs' ->
    signature_key fname args (pop_excluded except kwargs)
    = signature_key fname args (pop_excluded except kwargs')
    /\ cache_exists DISK_CACHE_DIR w cm fname except args kwargs
       = cache_exists DISK_CACHE_DIR w cm fname except args kwargs'
    /\ (forall k, In k except -> dict_get (pop_excluded except kwargs) k = None).
Proof.
  intros codec DIR w cm fname except args kwargs kwargs' Hnd Hnd' Heq.
  assert (Hpop : pop_excluded except kwargs = pop_excluded except kwargs')
    by (by rewrite !pop_excluded_filter, Heq).
  split; [by rewrite Hpop|]. split; [unfold cache_exists; by rewrite Hpop|].
  intros k Hk. rewrite pop_excluded_filter by done. apply absent_key_get.
  intros Hin. apply in_map_iff in Hin. destruct Hin as ([k' v] & Hk' & Hin).
  cbn in Hk'. subst k'. apply List.filter_In in Hin. destruct Hin as [_ Hkept].
  unfold kept_keyword in Hkept. cbn [fst] in Hkept.
  assert (Hex : existsb (String.eqb k) except = true)
    by (apply existsb_exists; exists k; split; [done | apply String.eqb_refl]).
  by rewrite Hex in Hkept.
Qed.

Lemma excluded_keywords_do_not_matter_witness :
  cache_exists "/cache" blank_world empty_registry "query" ["conn"] []
    [("x", "1"); ("conn", "<db 1>")]
  = cache_exists "/cache" blank_world empty_registry "query" ["conn"] []
      [("x", "1"); ("conn", "<db 2>")].
Proof.
  apply (excluded_keywords_do_not_matter demo_codec "/cache" blank_world empty_registry
           "query" ["conn"] [] [("x", "1"); ("conn", "<db 1>")]
           [("x", "1"); ("conn", "<db 2>")]).
  - repeat constructor; cbn; intuition discriminate.
  - repeat constructor; cbn; intuition discriminate.
  - reflexivity.
Defined.

Lemma find_max_age_no_row rows sargs skwargs :
  Forall (fun r => row_matches r sargs skwargs = false) rows ->
  find_max_age rows sargs skwargs = Ok UNLIMITED_CACHE_AGE.
Proof.
  induction 1 as [|r rows Hr _ IH]; cbn [find_max_age]; [reflexivity | by rewrite Hr].
Qed.

Lemma resolve_artifact_exists (DISK_CACHE_DIR : string) w key path :
  resolve_artifact DISK_CACHE_DIR w key = Some path -> exists f, files w !! path = Some f.
Proof.
  unfold resolve_artifact, file_exists.
  destruct (files w !! join_path DISK_CACHE_DIR (key +:+ ".npy")) as [f|] eqn:Hnpy;
    [intros [= <-]; eauto|].
  destruct (files w !! join_path DISK_CACHE_DIR (key +:+ ".pkl")) as [f|] eqn:Hpkl;
    [intros [= <-]; eauto | discriminate].
Qed.

(** X8.  When the function is registered but none of its rows has the
    call's signature, the lookup takes the artifact it finds for the key as
    never expiring: whatever its age it is not removed, and the answer is
    that of loading it. *)
Theorem lookup_without_row_never_expires :
  forall (codec : Codec) (DISK_CACHE_DIR : string) (w : World) (reg : Registry)
         (fname : string) (except args : list string) (kwargs : dict string)
         (rows : list CacheEntry) (path : string),
    except = [] \/ args = [] ->
    dict_get reg fname = Some (Rows rows) ->
    Forall (fun r => row_matches r (str_tuple args)
                       (str_dict (pop_excluded except kwargs)) = false) rows ->
    resolve_artifact DISK_CACHE_DIR w
      (signature_key fname args (pop_excluded except kwargs)) = Some path ->
    cache_exists DISK_CACHE_DIR w reg fname except args kwargs
    = match unpickle_big_data w path with
      | Raise err => (Raise err, w)
      | Ok v => if is_none v then (Ok (false, VNone), w) else (Ok (true, v), w)
      end.
Proof.
  intros codec DIR w reg fname except args kwargs rows path Hpre Hreg Hrows Hres.
  destruct (resolve_artifact_exists _ _ _ _ Hres) as [f Hf].
  rewrite (cache_exists_resolved DIR w reg fname except args kwargs rows path f
             UNLIMITED_CACHE_AGE Hpre Hreg Hres Hf (find_max_age_no_row _ _ _ Hrows)).
  by rewrite is_stale_unlimited.
Qed.

Lemma lookup_without_row_never_expires_witness :
  cache_exists "/cache" unlisted_world
    (f_registry [Entry "(1,)" "{}" "f_other.pkl" (Some 2)]) "f" [] [] []
  = (Ok (true, VObj "42"), unlisted_world).
Proof.
  rewrite (lookup_without_row_never_expires demo_codec "/cache" unlisted_world
             (f_registry [Entry "(1,)" "{}" "f_other.pkl" (Some 2)]) "f" [] [] []
             [Entry "(1,)" "{}" "f_other.pkl" (Some 2)] f_pkl).
  - vm_compute. reflexivity.
  - by left.
  - reflexivity.
  - repeat constructor.
  - vm_compute. reflexivity.
Defined.

(** ** The wrapper: hits and failing computations *)

(** A lookup that reports a hit has changed nothing, and the function was
    registered. *)
Lemma cache_exists_hit_inv {codec : Codec} (DISK_CACHE_DIR : string) w cm fname
    except args kwargs v w2 :
  cache_exists DISK_CACHE_DIR w cm fname except args kwargs = (Ok (true, v), w2) ->
  w2 = w /\ is_none v = false /\ exists rows, dict_get cm fname = Some (Rows rows).
Proof.
  unfold cache_exists. repeat case_match; intros [= <- <-]; subst; try discriminate; eauto.
Qed.

(** X9.  A hit is read-only: when the lookup of a wrapper call finds the
    value, the call returns it, counts one hit, does not run the computation
    and leaves registry, files and clock exactly as they were. *)
Theorem wrapper_hit_is_read_only :
  forall (codec : Codec) (DISK_CACHE_DIR : string) (f : Wrapped) (w w2 : World)
         (c : counters) (args : list string) (kwargs : dict string) (v : value),
    wrapper_lookup DISK_CACHE_DIR f w args kwargs = (Ok (true, v), w2) ->
    wrapper DISK_CACHE_DIR f w c args kwargs
    = (Ok v, w, Counters (S (hits c)) (misses c) (nocache c) (runs c))
    /\ is_none v = false.
Proof.
  intros codec DIR f w w2 c args kwargs v Hcall.
  destruct (wrapper_lookup_ok DIR f w args kwargs _ _ Hcall) as [_ Hlook].
  destruct (cache_exists_hit_inv DIR _ _ _ _ _ _ _ _ Hlook) as (-> & Hv & rows & Hrows).
  assert (Hw : load_cache_metadata_json w = (fst (load_cache_metadata_json w), w)).
  { unfold load_cache_metadata_json in *. destruct (registry_file w) as [d|] eqn:E;
      [reflexivity|]. cbn [fst] in Hrows. unfold empty_registry in Hrows.
    cbn [dict_get] in Hrows. by destruct (String.eqb _ _). }
  split; [|exact Hv]. unfold wrapper. rewrite Hcall.
  replace (snd (load_cache_metadata_json w)) with w by (by rewrite Hw).
  reflexivity.
Qed.

Lemma wrapper_hit_is_read_only_witness :
  wrapper "/cache" answer_fn forever_world no_counters [] []
  = (Ok (VObj "42"), forever_world, Counters 1 0 0 0).
Proof.
  apply (wrapper_hit_is_read_only demo_codec "/cache" answer_fn forever_world
           forever_world no_counters [] [] (VObj "42")).
  vm_compute. reflexivity.
Defined.

(** X10.  When the lookup misses and the computation raises an ordinary
    error, the wrapper lets that error through, counts one miss (no hit, no
    nocache event) and stores nothing: the registry file is the document
    loaded at the start of the call and every file left is a file from
    before the call. *)
Theorem wrapper_error_propagates :
  forall (codec : Codec) (DISK_CACHE_DIR : string) (f : Wrapped) (w w2 : World)
         (c : counters) (args : list string) (kwargs : dict string)
         (tag : string) (x : value),
    wrapper_lookup DISK_CACHE_DIR f w args kwargs = (Ok (false, x), w2) ->
    original_func f args kwargs = RaisesError tag ->
    wrapper DISK_CACHE_DIR f w c args kwargs
    = (Raise (UserError tag), w2, Counters (hits c) (S (misses c)) (nocache c) (S (runs c)))
    /\ registry_file w2 = Some (fst (load_cache_metadata_json w))
    /\ (forall p, files w2 !! p = None \/ files w2 !! p = files w !! p).
Proof.
  intros codec DIR f w w2 c args kwargs tag x Hcall Hf.
  destruct (wrapper_lookup_ok DIR f w args kwargs _ _ Hcall) as [_ Hlook].
  pose proof (cache_exists_effect DIR (snd (load_cache_metadata_json w))
                (fst (load_cache_metadata_json w)) (func_name f)
                (except_arg_names f) args kwargs) as Heff.
  cbv zeta in Heff. rewrite Hlook in Heff. cbn [snd] in Heff.
  assert (Hreg : registry_file (snd (load_cache_metadata_json w))
                 = Some (fst (load_cache_metadata_json w))).
  { unfold load_cache_metadata_json. destruct (registry_file w) eqn:E; cbn; done. }
  assert (Hfiles : files (snd (load_cache_metadata_json w)) = files w).
  { unfold load_cache_metadata_json. destruct (registry_file w); reflexivity. }
  split.
  - unfold wrapper. by rewrite Hcall, Hf.
  - destruct Heff as [->|(p & _ & ->)].
    + rewrite Hreg, Hfiles. auto.
    + cbn [os_remove set_files registry_file files]. rewrite Hreg, Hfiles.
      split; [reflexivity|]. intros q.
      destruct (decide (p = q)) as [->|Hne];
        [left; apply lookup_delete_eq | right; by apply lookup_delete_ne].
Qed.

Lemma wrapper_error_propagates_witness :
  wrapper "/cache" failing_fn aged_world no_counters [] []
  = (Raise (UserError "ValueError"), os_remove aged_world f_pkl, Counters 0 1 0 1).
Proof.
  apply (wrapper_error_propagates demo_codec "/cache" failing_fn aged_world
           (os_remove aged_world f_pkl) no_counters [] [] "ValueError" VNone);
    vm_compute; reflexivity.
Defined.

(** ** Store: what a successful and a failed store leave behind *)

Lemma pickle_big_data_frame {codec : Codec} w v file_path rename :
  registry_file (snd (pickle_big_data w v file_path rename)) = registry_file w
  /\ today (snd (pickle_big_data w v file_path rename)) = today w
  /\ forall q, q <> file_path ->
       files (snd (pickle_big_data w v file_path rename)) !! q = files w !! q.
Proof.
  unfold pickle_big_data. destruct v as [|o|a|fn a]; try destruct rename;
    try destruct (pickle_dumps _);
    cbn [snd save_numpy write_file set_files registry_file today files];
    repeat split; try done; intros q Hq; by apply lookup_insert_ne.
Qed.

(** X11.  Whenever [cache_function_value] succeeds, the registry it has
    written holds the old counter plus one and, under the function's name,
    the old rows followed by one new row with the call's signature, the
    hashed file name and the given TTL; nothing is deduplicated, the rows of
    every other function are as before, the reported size of the function's
    cache has grown by one, and the returned path is that of the artifact. *)
Theorem cache_function_value_accounting :
  forall (codec : Codec) (DISK_CACHE_DIR : string) (w w' : World) (v : value)
         (nd : option Z) (cm : Registry) (rename : bool) (fname : string)
         (args : list string) (kw : dict string) (p : string),
    cache_function_value DISK_CACHE_DIR w v nd cm rename fname args kw = (Ok p, w') ->
    exists (k : Z) (rows : list CacheEntry) (cm' : Registry),
      dict_get cm _TOTAL_NUMCACHE_KEY = Some (Count k)
      /\ ((dict_get cm fname = None /\ rows = []) \/ dict_get cm fname = Some (Rows rows))
      /\ registry_file w' = Some cm'
      /\ dict_get cm' _TOTAL_NUMCACHE_KEY = Some (Count (k + 1))
      /\ dict_get cm' fname
         = Some (Rows (rows ++ [Entry (str_tuple args) (str_dict kw)
                                  (signature_key fname args kw
                                     +:+ (if is_ndarray v then ".npy" else ".pkl")) nd]))
      /\ (forall g, g <> fname -> g <> _TOTAL_NUMCACHE_KEY ->
                    dict_get cm' g = dict_get cm g)
      /\ get_disk_cache_size_for_function w' fname = (Ok (Some (S (length rows))), w')
      /\ p = artifact_path DISK_CACHE_DIR (signature_key fname args kw) v.
Proof.
  intros codec DIR w w' v nd cm rename fname args kw p. unfold cache_function_value.
  destruct (String.eqb_spec fname _TOTAL_NUMCACHE_KEY) as [|Hne]; [discriminate|].
  destruct (pickle_big_data w v _ rename) as [[[]|e] w1]; [|discriminate].
  set (new := Entry _ _ _ nd).
  assert (Hcases : (exists rows,
            ((dict_get cm fname = None /\ rows = []) \/ dict_get cm fname = Some (Rows rows))
            /\ match dict_get cm fname with
               | None => Ok []
               | Some (Rows l) => Ok l
               | Some (Count _) => Raise AttributeError
               end = Ok rows)
            \/ match dict_get cm fname with
               | None => Ok []
               | Some (Rows l) => Ok l
               | Some (Count _) => Raise AttributeError
               end = @Raise (list CacheEntry) AttributeError).
  { destruct (dict_get cm fname) as [[n|l]|]; [right|left|left]; eauto 6. }
  destruct Hcases as [(rows & Hrows & ->) | ->]; [|discriminate].
  rewrite dict_get_set_ne by done.
  destruct (dict_get cm _TOTAL_NUMCACHE_KEY) as [[k|l]|] eqn:Htot; try discriminate.
  intros [= <- <-]. exists k, rows. eexists. split; [reflexivity|]. split; [exact Hrows|].
  cbn [write_cache_file set_registry registry_file]. split; [reflexivity|].
  split; [apply dict_get_set_eq|].
  assert (Hfn : dict_get (dict_set (dict_set cm fname (Rows (rows ++ [new])))
                            _TOTAL_NUMCACHE_KEY (Count (k + 1))) fname
                = Some (Rows (rows ++ [new])))
    by (rewrite dict_get_set_ne by done; apply dict_get_set_eq).
  split; [exact Hfn|].
  split; [intros g Hg Hg'; by rewrite !dict_get_set_ne by done|].
  split; [|reflexivity].
  unfold get_disk_cache_size_for_function, get_disk_cache_for_function,
    load_cache_metadata_json. cbn [registry_file write_cache_file set_registry].
  rewrite Hfn, length_app. cbn [length]. do 3 f_equal. lia.
Qed.

Lemma cache_function_value_accounting_witness :
  exists (k : Z) (rows : list CacheEntry) (cm' : Registry),
    dict_get (f_registry [f_row ".pkl" (Some 15)]) _TOTAL_NUMCACHE_KEY = Some (Count k)
    /\ ((dict_get (f_registry [f_row ".pkl" (Some 15)]) "f" = None /\ rows = [])
        \/ dict_get (f_registry [f_row ".pkl" (Some 15)]) "f" = Some (Rows rows))
    /\ registry_file
         (snd (cache_function_value "/cache" orphan_row_world (VObj "42") (Some 15)
                 (f_registry [f_row ".pkl" (Some 15)]) true "f" [] [])) = Some cm'
    /\ dict_get cm' _TOTAL_NUMCACHE_KEY = Some (Count (k + 1))
    /\ dict_get cm' "f"
       = Some (Rows (rows ++ [Entry (str_tuple []) (str_dict [])
                                (signature_key "f" [] [] +:+ ".pkl") (Some 15)])).
Proof.
  destruct (cache_function_value_accounting demo_codec "/cache" orphan_row_world
              (snd (cache_function_value (codec := demo_codec) "/cache" orphan_row_world
                      (VObj "42") (Some 15)
                      (f_registry [f_row ".pkl" (Some 15)]) true "f" [] []))
              (VObj "42") (Some 15) (f_registry [f_row ".pkl" (Some 15)]) true "f" [] []
              f_pkl ltac:(vm_compute; reflexivity))
    as (k & rows & cm' & H1 & H2 & H3 & H4 & H5 & _).
  exists k, rows, cm'. auto.
Defined.

(** X12.  When [cache_function_value] raises, the registry file has not
    been written: it is the one from before the call, whether or not the
    artifact was already written, and no file other than the artifact's has
    changed. *)
Theorem cache_function_value_failure_keeps_registry :
  forall (codec : Codec) (DISK_CACHE_DIR : string) (w w' : World) (v : value)
         (nd : option Z) (cm : Registry) (rename : bool) (fname : string)
         (args : list string) (kw : dict string) (e : exn),
    cache_function_value DISK_CACHE_DIR w v nd cm rename fname args kw = (Raise e, w') ->
    registry_file w' = registry_file w
    /\ forall q, q <> artifact_path DISK_CACHE_DIR (signature_key fname args kw) v ->
         files w' !! q = files w !! q.
Proof.
  intros codec DIR w w' v nd cm rename fname args kw e. unfold cache_function_value.
  destruct (String.eqb fname _TOTAL_NUMCACHE_KEY); [intros [= _ <-]; auto|].
  pose proof (pickle_big_data_frame w v
                (join_path DIR (signature_key fname args kw
                                  +:+ (if is_ndarray v then ".npy" else ".pkl"))) rename)
    as (Hreg & _ & Hfiles).
  fold (artifact_path DIR (signature_key fname args kw) v) in *.
  destruct (pickle_big_data w v _ rename) as [[[]|e1] w1]; cbn [snd] in *.
  - repeat case_match; try discriminate; intros [= _ <-]; auto.
  - intros [= _ <-]. auto.
Qed.

Lemma cache_function_value_failure_keeps_registry_witness :
  registry_file
    (snd (cache_function_value "/cache" blank_world (VObj "42") (Some 15) [] true "f" [] []))
  = registry_file blank_world.
Proof.
  apply (cache_function_value_failure_keeps_registry demo_codec "/cache" blank_world
           (snd (cache_function_value (codec := demo_codec) "/cache" blank_world
                   (VObj "42") (Some 15) [] true "f" [] []))
           (VObj "42") (Some 15) [] true "f" [] [] KeyError).
  vm_compute. reflexivity.
Defined.

(** ** A TTL of [None] *)

Section NoneTtlFacts.

Context {codec : Codec}.
Variable DISK_CACHE_DIR : string.

Lemma cache_exists_scan_raises w reg fname except args kwargs rows path e :
  except = [] \/ args = [] ->
  dict_get reg fname = Some (Rows rows) ->
  resolve_artifact DISK_CACHE_DIR w
    (signature_key fname args (pop_excluded except kwargs)) = Some path ->
  find_max_age rows (str_tuple args) (str_dict (pop_excluded except kwargs)) = Raise e ->
  cache_exists DISK_CACHE_DIR w reg fname except args kwargs = (Raise e, w).
Proof.
  intros Hpre Hreg Hres Hscan. unfold cache_exists.
  replace ((0 <? length except)%nat && negb (length args =? 0)%nat) with false
    by (destruct Hpre as [-> | ->]; [reflexivity | by rewrite andb_false_r]).
  by rewrite Hreg, Hres, Hscan.
Qed.

(** The first call for a signature with no artifact and no row: the value
    is computed, its artifact written and one row appended. *)
Lemma first_call_stores (f : Wrapped) w c args kwargs v content :
  except_arg_names f = [] \/ args = [] ->
  keywords_bind f kwargs ->
  func_name f <> _TOTAL_NUMCACHE_KEY ->
  original_func f args kwargs = Returns v args kwargs ->
  stored_content v content ->
  (forall d, registry_file w = Some d ->
             registry_lacks d (func_name f) (str_tuple args)
               (str_dict (pop_excluded (except_arg_names f) kwargs))) ->
  resolve_artifact DISK_CACHE_DIR w
    (signature_key (func_name f) args (pop_excluded (except_arg_names f) kwargs)) = None ->
  exists cm k rows,
    Forall (fun r => row_matches r (str_tuple args)
                       (str_dict (pop_excluded (except_arg_names f) kwargs)) = false) rows
    /\ wrapper DISK_CACHE_DIR f w c args kwargs
       = (Ok v,
          write_cache_file
            (write_file (Mk_World (Some cm) (files w) (today w))
               (artifact_path DISK_CACHE_DIR
                  (signature_key (func_name f) args
                     (pop_excluded (except_arg_names f) kwargs)) v) content)
            (dict_set
               (dict_set cm (func_name f)
                  (Rows (rows ++ [Entry (str_tuple args)
                                    (str_dict (pop_excluded (except_arg_names f) kwargs))
                                    (signature_key (func_name f) args
                                       (pop_excluded (except_arg_names f) kwargs)
                                     +:+ (if is_ndarray v then ".npy" else ".pkl"))
                                    (n_days_to_cache f)])))
               _TOTAL_NUMCACHE_KEY (Count (k + 1))),
          Counters (hits c) (S (misses c)) (nocache c) (S (runs c))).
Proof.
  intros Hpre [Hb1 Hb2] Hname Hf Hv Hreg Hnone.
  set (kw := pop_excluded (except_arg_names f) kwargs) in *.
  destruct (load_cache_metadata_json_spec w) as (cm & Hload & Hcm).
  set (w0 := Mk_World (Some cm) (files w) (today w)) in *.
  assert (Hlacks : registry_lacks cm (func_name f) (str_tuple args) (str_dict kw)).
  { destruct Hcm as [Hd | [_ ->]]; [by apply Hreg|].
    split; [by exists 0|]. left. unfold empty_registry. cbn [dict_get].
    destruct (String.eqb_spec _TOTAL_NUMCACHE_KEY (func_name f)); [congruence|done]. }
  destruct Hlacks as [[k Htot] Hrows].
  assert (Hrows' : exists rows,
             ((dict_get cm (func_name f) = None /\ rows = [])
              \/ dict_get cm (func_name f) = Some (Rows rows))
             /\ Forall (fun r => row_matches r (str_tuple args) (str_dict kw) = false) rows).
  { destruct Hrows as [Hnone' | (rows & Hr & Hall)];
      [exists []; split; [by left | constructor] | exists rows; auto]. }
  destruct Hrows' as (rows & Hget & Hall).
  exists cm, k, rows. split; [exact Hall|].
  unfold wrapper, wrapper_lookup. rewrite Hload, Hb1.
  rewrite (cache_exists_no_artifact DISK_CACHE_DIR w0 cm _ _ _ _ Hpre Hnone), Hf.
  unfold wrapper_store. rewrite (assert_passes _ _ Hpre).
  rewrite (load_existing w0 cm eq_refl). fold kw. rewrite Hb2.
  rewrite (cache_function_value_stores DISK_CACHE_DIR w0 v content (n_days_to_cache f)
             cm _ _ args kw k rows Hname Hv Htot Hget).
  destruct v; cbn [stored_content] in Hv; done.
Qed.

End NoneTtlFacts.

(** X13.  [cache_to_disk] accepts [n_days_to_cache=None] without error or
    warning, but the row a wrapper then stores carries a null
    [max_age_days].  Take a call whose keywords bind, for a signature with no
    artifact and no row, whose computation returns a value that is not [None]
    and not a memory map, that the backend writes and reads back, and leaves
    its arguments rendering as before: the first call stores the value, and
    every later call with the same arguments, at any time, raises
    [TypeError] from [int(None)] in the lookup, before the computation is
    tried and without changing anything. *)
Theorem none_ttl_breaks_next_lookup :
  forall (codec : Codec) (DISK_CACHE_DIR : string) (f : Wrapped) (w : World)
         (c : counters) (args : list string) (kwargs : dict string) (v : value),
    n_days_to_cache f = None ->
    except_arg_names f = [] \/ args = [] ->
    keywords_bind f kwargs ->
    func_name f <> _TOTAL_NUMCACHE_KEY ->
    original_func f args kwargs = Returns v args kwargs ->
    round_trips v ->
    (forall d, registry_file w = Some d ->
               registry_lacks d (func_name f) (str_tuple args)
                 (str_dict (pop_excluded (except_arg_names f) kwargs))) ->
    resolve_artifact DISK_CACHE_DIR w
      (signature_key (func_name f) args (pop_excluded (except_arg_names f) kwargs)) = None ->
    cache_to_disk TtlNone (except_arg_names f) (rename_np_memmap_file f)
    = (Ok (Decorator None (except_arg_names f) (rename_np_memmap_file f)), false)
    /\ exists w1,
         wrapper DISK_CACHE_DIR f w c args kwargs
         = (Ok v, w1, Counters (hits c) (S (misses c)) (nocache c) (S (runs c)))
         /\ forall t2 c',
              wrapper DISK_CACHE_DIR f (at_time t2 w1) c' args kwargs
              = (Raise TypeError, at_time t2 w1, c').
Proof.
  intros codec DIR f w c args kwargs v Hn Hpre Hbind Hname Hf [content Hv] Hreg Hnone.
  split; [reflexivity|].
  destruct (first_call_stores DIR f w c args kwargs v content
              Hpre Hbind Hname Hf Hv Hreg Hnone) as (cm & k & rows & Hall & Hcall).
  destruct Hbind as [Hb1 _].
  rewrite Hn in Hcall.
  set (kw := pop_excluded (except_arg_names f) kwargs) in *.
  set (key := signature_key (func_name f) args kw) in *.
  set (new := Entry (str_tuple args) (str_dict kw)
                (key +:+ (if is_ndarray v then ".npy" else ".pkl")) None) in *.
  set (cm2 := dict_set (dict_set cm (func_name f) (Rows (rows ++ [new])))
                _TOTAL_NUMCACHE_KEY (Count (k + 1))) in *.
  set (w1 := write_cache_file
               (write_file (Mk_World (Some cm) (files w) (today w))
                  (artifact_path DIR key v) content) cm2) in *.
  exists w1. split; [exact Hcall|]. intros t2 c'.
  unfold wrapper, wrapper_lookup.
  rewrite (load_existing (at_time t2 w1) cm2 eq_refl), Hb1.
  rewrite (cache_exists_scan_raises DIR (at_time t2 w1) cm2 (func_name f)
             (except_arg_names f)
             args kwargs (rows ++ [new]) (artifact_path DIR key v) TypeError Hpre);
    [reflexivity| | |].
  - unfold cm2. rewrite dict_get_set_ne by done. apply dict_get_set_eq.
  - fold kw key.
    apply (resolve_artifact_stored DIR (Mk_World (Some cm) (files w) (today w)) v key
             content (today w) Hnone).
  - fold kw. rewrite (find_max_age_first rows new [] _ _ Hall); [reflexivity|].
    unfold row_matches, new. cbn [c_args c_kwargs]. by rewrite !String.eqb_refl.
Qed.

Lemma none_ttl_breaks_next_lookup_witness :
  exists w1,
    wrapper "/cache" untimed_fn blank_world no_counters [] []
    = (Ok (VObj "42"), w1, Counters 0 1 0 1)
    /\ forall t2 c',
         wrapper "/cache" untimed_fn (at_time t2 w1) c' [] []
         = (Raise TypeError, at_time t2 w1, c').
Proof.
  apply (none_ttl_breaks_next_lookup demo_codec "/cache" untimed_fn blank_world
           no_counters [] [] (VObj "42")).
  - reflexivity.
  - by left.
  - split; reflexivity.
  - discriminate.
  - reflexivity.
  - exists pickled_42. split; reflexivity.
  - intros d Hd. discriminate Hd.
  - vm_compute. reflexivity.
Defined.

(** ** Eviction sweep: what it keeps *)

Section SweepFacts.

Variable DISK_CACHE_DIR : string.

Lemma only_removes_refl w : only_removes w w.
Proof. split; auto. Qed.

Lemma only_removes_step w w' p : only_removes (os_remove w p) w' -> only_removes w w'.
Proof.
  intros [Ht Hf]. split; [exact Ht|]. intros q. destruct (Hf q) as [H|H]; [by left|].
  cbn [os_remove set_files files] in H. destruct (decide (p = q)) as [->|Hne].
  - left. rewrite H. apply lookup_delete_eq.
  - right. rewrite H. by apply lookup_delete_ne.
Qed.

Lemma sweep_rows_frame w rows keep ch :
  only_removes w (snd (sweep_rows DISK_CACHE_DIR w rows keep ch))
  /\ registry_file (snd (sweep_rows DISK_CACHE_DIR w rows keep ch)) = registry_file w
  /\ (fst (sweep_rows DISK_CACHE_DIR w rows keep ch) = Raise TypeError
      \/ exists r, fst (sweep_rows DISK_CACHE_DIR w rows keep ch) = Ok r).
Proof.
  revert w keep ch. induction rows as [|r rows IH]; intros w keep ch; cbn [sweep_rows].
  - split; [apply only_removes_refl|]. split; [reflexivity|]. right. eauto.
  - unfold int_of_max_age, get_age_of_file, file_exists.
    destruct (c_max_age_days r) as [m|];
      [|split; [apply only_removes_refl|]; split; [reflexivity|]; by left].
    destruct (files w !! join_path DISK_CACHE_DIR (c_file_name r)) as [f|]; cbn [negb];
      [|apply IH].
    destruct (is_stale _ m); cbn [negb]; [|apply IH].
    destruct (IH (os_remove w (join_path DISK_CACHE_DIR (c_file_name r))) keep true)
      as (Hrm & Hreg & Hres).
    split; [by eapply only_removes_step|]. split; [by rewrite Hreg|exact Hres].
Qed.

Lemma dict_set_keys {V} (d : dict V) (k : string) (v : V) :
  In k (map fst d) -> map fst (dict_set d k v) = map fst d.
Proof.
  induction d as [|[k' v'] d IH]; cbn [map fst In dict_set]; [done|].
  intros Hin. destruct (String.eqb_spec k' k) as [->|Hne]; cbn [map fst]; [reflexivity|].
  f_equal. apply IH. destruct Hin; [congruence|done].
Qed.

Lemma sweep_items_frame w items new ch :
  (forall k, In k (map fst items) -> In k (map fst new)) ->
  only_removes w (snd (sweep_items DISK_CACHE_DIR w items new ch))
  /\ registry_file (snd (sweep_items DISK_CACHE_DIR w items new ch)) = registry_file w
  /\ (fst (sweep_items DISK_CACHE_DIR w items new ch) = Raise TypeError
      \/ exists new' ch',
           fst (sweep_items DISK_CACHE_DIR w items new ch) = Ok (new', ch')
           /\ map fst new' = map fst new
           /\ dict_get new' _TOTAL_NUMCACHE_KEY = dict_get new _TOTAL_NUMCACHE_KEY).
Proof.
  revert w new ch. induction items as [|[fn val] items IH]; intros w new ch Hkeys;
    cbn [sweep_items].
  - split; [apply only_removes_refl|]. split; [reflexivity|]. right. eauto.
  - assert (Hkeys' : forall k, In k (map fst items) -> In k (map fst new))
      by (intros k Hk; apply Hkeys; by right).
    destruct (String.eqb_spec fn _TOTAL_NUMCACHE_KEY) as [->|Hne]; [by apply IH|].
    destruct val as [n|rows];
      [split; [apply only_removes_refl|]; split; [reflexivity|]; by left|].
    destruct (sweep_rows_frame w rows [] ch) as (Hrm & Hreg & Hres).
    destruct (sweep_rows DISK_CACHE_DIR w rows [] ch) as [[[keep ch']|e] w'];
      cbn [fst snd] in *.
    + cbv zeta.
      match goal with
      | |- context [sweep_items _ _ _ ?n _] => set (new1 := n)
      end.
      assert (Hnew1 : map fst new1 = map fst new
                      /\ dict_get new1 _TOTAL_NUMCACHE_KEY
                         = dict_get new _TOTAL_NUMCACHE_KEY).
      { unfold new1. destruct keep; [done|]. split.
        - apply dict_set_keys, Hkeys. by left.
        - by apply dict_get_set_ne. }
      destruct Hnew1 as [Hk1 Ht1].
      destruct (IH w' new1 ch') as (Hrm' & Hreg' & Hres');
        [intros k Hk; rewrite Hk1; by apply Hkeys'|].
      split; [|split].
      * destruct Hrm as [Ht Hf], Hrm' as [Ht' Hf']. split; [congruence|].
        intros p. destruct (Hf' p) as [H|H]; [by left|]. rewrite H. apply Hf.
      * congruence.
      * destruct Hres' as [H|(new' & ch'' & H & Hk & Ht)]; [by left|].
        right. exists new', ch''. split; [exact H|].
        split; [by rewrite Hk | by rewrite Ht].
    + split; [exact Hrm|]. split; [exact Hreg|]. left.
      destruct Hres as [[= ->]|[r H]]; [reflexivity | discriminate].
Qed.

End SweepFacts.

(** X14.  The eviction sweep only ever removes files, raises nothing but
    [TypeError], and when it completes the registry file holds a document
    with the same keys in the same order and the same counter as before: no
    function name is ever dropped and the counter is never reset. *)
Theorem sweep_keeps_names_and_counter :
  forall (DISK_CACHE_DIR : string) (w : World) (d : Registry),
    registry_file w = Some d ->
    only_removes w (snd (delete_old_disk_caches DISK_CACHE_DIR w))
    /\ (fst (delete_old_disk_caches DISK_CACHE_DIR w) = Raise TypeError
        /\ registry_file (snd (delete_old_disk_caches DISK_CACHE_DIR w)) = Some d
        \/ fst (delete_old_disk_caches DISK_CACHE_DIR w) = Ok tt
           /\ exists d',
                registry_file (snd (delete_old_disk_caches DISK_CACHE_DIR w)) = Some d'
                /\ map fst d' = map fst d
                /\ dict_get d' _TOTAL_NUMCACHE_KEY = dict_get d _TOTAL_NUMCACHE_KEY).
Proof.
  intros DIR w d Hd. unfold delete_old_disk_caches. rewrite (load_existing w d Hd).
  destruct (sweep_items_frame DIR w d d false (fun k H => H)) as (Hrm & Hreg & Hres).
  destruct (sweep_items DIR w d d false) as [[[new' ch']|e] w']; cbn [fst snd] in *.
  - destruct Hres as [H|(n & c & [= <- <-] & Hk & Ht)]; [discriminate|].
    destruct ch'; cbn [fst snd write_cache_file set_registry registry_file files today].
    + split; [exact Hrm|]. right. split; [reflexivity|]. eauto.
    + split; [exact Hrm|]. right. split; [reflexivity|]. exists d.
      rewrite Hreg. auto.
  - split; [exact Hrm|]. left. destruct Hres as [[= ->]|(n & c & H & _)]; [|discriminate].
    split; [reflexivity | congruence].
Qed.

Lemma sweep_keeps_names_and_counter_witness :
  only_removes stale_pkl_world (snd (delete_old_disk_caches "/cache" stale_pkl_world)).
Proof.
  apply (sweep_keeps_names_and_counter "/cache" stale_pkl_world
           (f_registry [f_row ".pkl" (Some 15)])). reflexivity.
Defined.

Section SweepOutcomes.

Variable DISK_CACHE_DIR : string.

Lemma sweep_rows_fresh w rows keep ch :
  Forall (row_fresh DISK_CACHE_DIR w) rows ->
  sweep_rows DISK_CACHE_DIR w rows keep ch = (Ok (keep ++ rows, ch), w).
Proof.
  intros Hrows. revert keep. induction Hrows as [|r rows Hr _ IH]; intros keep;
    cbn [sweep_rows].
  - by rewrite app_nil_r.
  - destruct Hr as (m & f & Hm & Hf & Hfresh).
    unfold int_of_max_age, file_exists, get_age_of_file. rewrite Hm, Hf. cbn [negb].
    rewrite Hfresh. cbn [negb]. rewrite IH, <- app_assoc. reflexivity.
Qed.

Lemma sweep_items_fresh w items new :
  Forall (fun item => item.1 = _TOTAL_NUMCACHE_KEY
                      \/ exists rows, item.2 = Rows rows
                                      /\ Forall (row_fresh DISK_CACHE_DIR w) rows) items ->
  exists new', sweep_items DISK_CACHE_DIR w items new false = (Ok (new', false), w).
Proof.
  intros Hitems. revert new. induction Hitems as [|[fn val] items Hit _ IH]; intros new;
    cbn [sweep_items]; [eauto|].
  destruct (String.eqb_spec fn _TOTAL_NUMCACHE_KEY) as [->|Hne]; [apply IH|].
  destruct Hit as [Heq | (rows & Hval & Hfresh)]; [done|]. cbn [snd] in Hval. subst val.
  rewrite (sweep_rows_fresh w rows [] false Hfresh). apply IH.
Qed.

Lemma sweep_rows_null w rows keep ch r :
  In r rows -> c_max_age_days r = None ->
  fst (sweep_rows DISK_CACHE_DIR w rows keep ch) = Raise TypeError.
Proof.
  intros Hin Hnull. revert w keep ch.
  induction rows as [|r0 rows IH]; intros w keep ch; [done|]. cbn [sweep_rows].
  unfold int_of_max_age. destruct (c_max_age_days r0) as [m|] eqn:Hm; [|reflexivity].
  assert (Hin' : In r rows) by (destruct Hin as [->|]; [congruence|done]).
  unfold get_age_of_file, file_exists.
  destruct (files w !! _); cbn [negb]; [|by apply IH].
  destruct (negb (is_stale _ m)); by apply IH.
Qed.

Lemma sweep_items_null w items new ch fn rows r :
  In (fn, Rows rows) items -> fn <> _TOTAL_NUMCACHE_KEY ->
  In r rows -> c_max_age_days r = None ->
  fst (sweep_items DISK_CACHE_DIR w items new ch) = Raise TypeError.
Proof.
  intros Hin Hfn Hr Hnull. revert w new ch.
  induction items as [|[fn0 val0] items IH]; intros w new ch; [done|]. cbn [sweep_items].
  destruct (String.eqb_spec fn0 _TOTAL_NUMCACHE_KEY) as [->|Hne].
  - apply IH. destruct Hin as [[= Heq _]|Hin]; [congruence|done].
  - destruct val0 as [n|rows0]; [reflexivity|].
    pose proof (sweep_rows_frame DISK_CACHE_DIR w rows0 [] ch) as (_ & _ & Hres).
    destruct Hin as [[= -> ->]|Hin].
    + pose proof (sweep_rows_null w rows [] ch r Hr Hnull) as Hraise.
      destruct (sweep_rows DISK_CACHE_DIR w rows [] ch) as [[[keep ch']|e] w'];
        cbn [fst] in *; [discriminate | by injection Hraise as ->].
    + destruct (sweep_rows DISK_CACHE_DIR w rows0 [] ch) as [[[keep ch']|e] w'];
        cbn [fst] in *; [by apply IH|].
      destruct Hres as [[= ->]|[x Hx]]; [reflexivity|discriminate].
Qed.

End SweepOutcomes.

(** X15.  A sweep over a registry in which every row of every function has
    an integer TTL and an existing artifact within that TTL changes nothing:
    no file is removed and the registry file is not even rewritten. *)
Theorem sweep_of_fresh_cache_is_noop :
  forall (DISK_CACHE_DIR : string) (w : World) (d : Registry),
    registry_file w = Some d ->
    Forall (fun item => item.1 = _TOTAL_NUMCACHE_KEY
                        \/ exists rows, item.2 = Rows rows
                                        /\ Forall (row_fresh DISK_CACHE_DIR w) rows) d ->
    delete_old_disk_caches DISK_CACHE_DIR w = (Ok tt, w).
Proof.
  intros DIR w d Hd Hfresh. unfold delete_old_disk_caches. rewrite (load_existing w d Hd).
  destruct (sweep_items_fresh DIR w d d Hfresh) as [new' ->]. reflexivity.
Qed.

Lemma sweep_of_fresh_cache_is_noop_witness :
  delete_old_disk_caches "/cache" fresh_world = (Ok tt, fresh_world).
Proof.
  apply (sweep_of_fresh_cache_is_noop "/cache" fresh_world
           (f_registry [f_row ".pkl" (Some 15)])); [reflexivity|].
  constructor; [by left|]. constructor; [|constructor].
  right. exists [f_row ".pkl" (Some 15)]. split; [reflexivity|].
  constructor; [|constructor].
  exists 15, (File pickled_42 (99 * day)).
  split; [reflexivity|]. split; vm_compute; reflexivity.
Defined.

(** X16.  A single row with a null [max_age_days] (as stored under
    [n_days_to_cache=None]) anywhere in the registry makes the sweep raise
    [TypeError]; the registry file is then left as it was. *)
Theorem sweep_raises_on_null_ttl :
  forall (DISK_CACHE_DIR : string) (w : World) (d : Registry) (fname : string)
         (rows : list CacheEntry) (r : CacheEntry),
    registry_file w = Some d ->
    In (fname, Rows rows) d ->
    fname <> _TOTAL_NUMCACHE_KEY ->
    In r rows ->
    c_max_age_days r = None ->
    fst (delete_old_disk_caches DISK_CACHE_DIR w) = Raise TypeError
    /\ registry_file (snd (delete_old_disk_caches DISK_CACHE_DIR w)) = Some d.
Proof.
  intros DIR w d fname rows r Hd Hin Hfn Hr Hnull.
  unfold delete_old_disk_caches. rewrite (load_existing w d Hd).
  pose proof (sweep_items_null DIR w d d false fname rows r Hin Hfn Hr Hnull) as Hraise.
  pose proof (sweep_items_frame DIR w d d false (fun k H => H)) as (_ & Hreg & _).
  destruct (sweep_items DIR w d d false) as [[[new' ch']|e] w']; cbn [fst snd] in *;
    [discriminate|]. injection Hraise as ->. split; [reflexivity | congruence].
Qed.

Lemma sweep_raises_on_null_ttl_witness :
  fst (delete_old_disk_caches "/cache" untimed_world) = Raise TypeError
  /\ registry_file (snd (delete_old_disk_caches "/cache" untimed_world))
     = Some (f_registry [f_row ".pkl" None]).
Proof.
  apply (sweep_raises_on_null_ttl "/cache" untimed_world (f_registry [f_row ".pkl" None])
           "f" [f_row ".pkl" None] (f_row ".pkl" None)).
  - reflexivity.
  - right. by left.
  - discriminate.
  - by left.
  - reflexivity.
Defined.

(** ** Clearing a function's cache *)

Section ClearFacts.

Variable DISK_CACHE_DIR : string.

Lemma only_removes_trans w1 w2 w3 :
  only_removes w1 w2 -> only_removes w2 w3 -> only_removes w1 w3.
Proof.
  intros [Ht Hf] [Ht' Hf']. split; [congruence|]. intros p.
  destruct (Hf' p) as [H|H]; [by left|]. rewrite H. apply Hf.
Qed.

Lemma only_removes_absent w w' p :
  only_removes w w' -> file_exists w p = false -> file_exists w' p = false.
Proof.
  unfold file_exists. intros [_ Hf] Hp. destruct (Hf p) as [->| ->]; [reflexivity|exact Hp].
Qed.

Lemma remove_if_exists_spec w p :
  only_removes w (remove_if_exists w p)
  /\ registry_file (remove_if_exists w p) = registry_file w
  /\ file_exists (remove_if_exists w p) p = false.
Proof.
  unfold remove_if_exists. destruct (file_exists w p) eqn:Hp.
  - split; [apply (only_removes_step _ _ p), only_removes_refl|]. split; [reflexivity|].
    unfold file_exists, os_remove. cbn [files set_files]. by rewrite lookup_delete_eq.
  - split; [apply only_removes_refl|]. auto.
Qed.

Lemma remove_artifacts_spec w rows :
  only_removes w (remove_artifacts DISK_CACHE_DIR w rows)
  /\ registry_file (remove_artifacts DISK_CACHE_DIR w rows) = registry_file w
  /\ forall r, In r rows ->
       file_exists (remove_artifacts DISK_CACHE_DIR w rows)
         (join_path DISK_CACHE_DIR (c_file_name r)) = false
       /\ file_exists (remove_artifacts DISK_CACHE_DIR w rows)
            (join_path DISK_CACHE_DIR (c_file_name r) +:+ ".json") = false
       /\ file_exists (remove_artifacts DISK_CACHE_DIR w rows)
            (join_path DISK_CACHE_DIR (c_file_name r) +:+ "_timestamp") = false.
Proof.
  revert w. induction rows as [|r0 rows IH]; intros w; cbn [remove_artifacts].
  - split; [apply only_removes_refl|]. split; [reflexivity|]. intros r [].
  - set (p := join_path DISK_CACHE_DIR (c_file_name r0)).
    destruct (remove_if_exists_spec w p) as (H1 & R1 & A1).
    set (w1 := remove_if_exists w p) in *.
    destruct (remove_if_exists_spec w1 (p +:+ ".json")) as (H2 & R2 & A2).
    set (w2 := remove_if_exists w1 (p +:+ ".json")) in *.
    destruct (remove_if_exists_spec w2 (p +:+ "_timestamp")) as (H3 & R3 & A3).
    set (w3 := remove_if_exists w2 (p +:+ "_timestamp")) in *.
    destruct (IH w3) as (H4 & R4 & A4).
    split; [eauto using only_removes_trans|]. split; [congruence|].
    intros r [<-|Hin]; [|by apply A4]. fold p.
    split; [|split]; eapply only_removes_absent; try exact H4.
    + eapply only_removes_absent; [exact H3|]. eapply only_removes_absent; [exact H2|exact A1].
    + eapply only_removes_absent; [exact H3|exact A2].
    + exact A3.
Qed.

Lemma dict_get_pop_ne {V} (d : dict V) (k g : string) :
  g <> k -> dict_get (dict_pop d k) g = dict_get d g.
Proof.
  intros Hne. induction d as [|[k' v'] d IH]; [reflexivity|]. cbn [dict_pop dict_get].
  destruct (String.eqb_spec k' k) as [->|Hk].
  - destruct (String.eqb_spec k g); [congruence|reflexivity].
  - cbn [dict_get]. destruct (String.eqb_spec k' g); [reflexivity|exact IH].
Qed.

Lemma dict_get_pop_eq {V} (d : dict V) (k : string) :
  List.NoDup (map fst d) -> dict_get (dict_pop d k) k = None.
Proof.
  induction d as [|[k' v'] d IH]; intros Hnd; [reflexivity|].
  cbn [map fst] in Hnd. apply List.NoDup_cons_iff in Hnd. destruct Hnd as [Hnotin Hnd].
  cbn [dict_pop]. destruct (String.eqb_spec k' k) as [->|Hk].
  - by apply absent_key_get.
  - cbn [dict_get]. destruct (String.eqb_spec k' k); [done|by apply IH].
Qed.

End ClearFacts.

(** X17.  Clearing a function that has rows removes, for every row, the
    artifact, its [.json] sidecar and its [_timestamp] file, removes nothing
    else from the registry than the function's entry (the counter and the
    rows of other functions stay), and leaves [cache_size] answering [None];
    clearing a function that is not in the registry changes nothing. *)
Theorem clear_removes_rows_and_artifacts :
  forall (DISK_CACHE_DIR : string) (w : World) (d : Registry) (fname : string),
    registry_file w = Some d ->
    List.NoDup (map fst d) ->
    (dict_get d fname = None ->
     delete_disk_caches_for_function DISK_CACHE_DIR w fname = (Ok tt, w))
    /\ (forall rows, dict_get d fname = Some (Rows rows) ->
          exists w',
            delete_disk_caches_for_function DISK_CACHE_DIR w fname = (Ok tt, w')
            /\ registry_file w' = Some (dict_pop d fname)
            /\ get_disk_cache_size_for_function w' fname = (Ok None, w')
            /\ (forall g, g <> fname -> dict_get (dict_pop d fname) g = dict_get d g)
            /\ only_removes w w'
            /\ forall r, In r rows ->
                 file_exists w' (join_path DISK_CACHE_DIR (c_file_name r)) = false
                 /\ file_exists w' (join_path DISK_CACHE_DIR (c_file_name r) +:+ ".json")
                    = false
                 /\ file_exists w'
                      (join_path DISK_CACHE_DIR (c_file_name r) +:+ "_timestamp") = false).
Proof.
  intros DIR w d fname Hd Hnd. unfold delete_disk_caches_for_function.
  rewrite (load_existing w d Hd). split; [by intros ->|].
  intros rows ->. destruct (remove_artifacts_spec DIR w rows) as (Hrm & Hreg & Habs).
  eexists. split; [reflexivity|].
  cbn [write_cache_file set_registry registry_file files today].
  split; [reflexivity|]. split.
  { unfold get_disk_cache_size_for_function, get_disk_cache_for_function,
      load_cache_metadata_json, write_cache_file, set_registry. cbn [registry_file].
    by rewrite (dict_get_pop_eq d fname Hnd). }
  split; [intros g Hg; by apply dict_get_pop_ne|].
  split; [exact Hrm | exact Habs].
Qed.

Lemma clear_removes_rows_and_artifacts_witness :
  exists w',
    delete_disk_caches_for_function "/cache" crowded_world "f" = (Ok tt, w')
    /\ get_disk_cache_size_for_function w' "f" = (Ok None, w')
    /\ file_exists w' f_npy = false
    /\ file_exists w' (f_npy +:+ ".json") = false
    /\ file_exists w' (f_npy +:+ "_timestamp") = false
    /\ file_exists w' "/cache/g_artifact.pkl" = true.
Proof.
  destruct (clear_removes_rows_and_artifacts "/cache" crowded_world
              [(_TOTAL_NUMCACHE_KEY, Count 2); ("f", Rows [f_row ".npy" (Some 15)]);
               ("g", Rows [g_row])] "f" eq_refl) as [_ H].
  { repeat constructor; cbn; intuition discriminate. }
  destruct (H [f_row ".npy" (Some 15)] eq_refl)
    as (w' & Hrun & _ & Hsize & _ & _ & Habs).
  exists w'. split; [exact Hrun|]. split; [exact Hsize|].
  destruct (Habs (f_row ".npy" (Some 15)) (or_introl eq_refl)) as (A1 & A2 & A3).
  split; [exact A1|]. split; [exact A2|]. split; [exact A3|].
  injection Hrun as <-. vm_compute. reflexivity.
Defined.

(** ** Keys of different functions *)

(** X18.  The key starts with the function name and ends with 41
    characters that hold no information about its length, so the keys, and
    with them the artifact names, of two different function names never
    coincide, whatever the arguments. *)
Theorem keys_of_different_functions_differ :
  forall (function_name function_name' : string) (args args' : list string)
         (kwargs kwargs' : dict string),
    function_name <> function_name' ->
    get_hash_filename function_name args kwargs
    <> get_hash_filename function_name' args' kwargs'.
Proof.
  intros f f' a a' k k' Hne Heq. unfold get_hash_filename in Heq. cbv zeta in Heq.
  pose proof (f_equal String.length Heq) as Hlen.
  rewrite !str_length_app in Hlen. unfold Sha1.hexdigest in Hlen.
  rewrite !hex_length, !digest_length in Hlen.
  apply str_app_inj_prefix in Heq; [|lia]. by destruct Heq.
Qed.

Lemma keys_of_different_functions_differ_witness :
  get_hash_filename "f" [] [] <> get_hash_filename "g" [] [].
Proof.
  apply (keys_of_different_functions_differ "f" "g" [] [] [] []). discriminate.
Defined.

(** ** The older lookup *)

Section OlderLookup.

Context {codec : Codec}.
Variable DISK_CACHE_DIR : string.

Lemma row_dead_after_remove w p r :
  row_dead DISK_CACHE_DIR w r -> row_dead DISK_CACHE_DIR (os_remove w p) r.
Proof.
  intros (m & Hm & Hfile). exists m. split; [exact Hm|].
  cbn [os_remove set_files files today].
  destruct (decide (p = join_path DISK_CACHE_DIR (c_file_name r))) as [->|Hne].
  - left. apply lookup_delete_eq.
  - rewrite lookup_delete_ne by done. exact Hfile.
Qed.

Lemma exists2_rows_dead w rows sargs skwargs new ch :
  Forall (fun r => row_matches r sargs skwargs = true -> row_dead DISK_CACHE_DIR w r) rows ->
  exists w',
    exists2_rows DISK_CACHE_DIR w rows sargs skwargs new ch
    = inr (new ++ List.filter (other_signature sargs skwargs) rows,
           ch || existsb (fun r => row_matches r sargs skwargs) rows, w')
    /\ only_removes w w'
    /\ (existsb (fun r => row_matches r sargs skwargs) rows = false -> w' = w)
    /\ forall r, In r rows -> row_matches r sargs skwargs = true ->
         file_exists w' (join_path DISK_CACHE_DIR (c_file_name r)) = false.
Proof.
  revert w new ch. induction rows as [|r rows IH]; intros w new ch Hall;
    cbn [exists2_rows List.filter existsb].
  - exists w. rewrite app_nil_r, orb_false_r. split; [reflexivity|].
    split; [apply only_removes_refl|]. split; [reflexivity|]. intros r [].
  - apply Forall_cons in Hall. destruct Hall as [Hr Hall]. unfold other_signature at 1.
    destruct (row_matches r sargs skwargs) eqn:Hmatch; cbn [negb orb].
    + destruct (Hr eq_refl) as (m & Hm & Hfile).
      unfold int_of_max_age, file_exists, get_age_of_file. rewrite Hm.
      destruct Hfile as [Hnone | (f & Hf & Hstale)].
      * rewrite Hnone. destruct (IH w new true Hall) as (w' & Hrun & Hrm & Hreg & Habs).
        exists w'. rewrite Hrun, orb_true_r. cbn [orb]. split; [reflexivity|].
        split; [exact Hrm|]. split; [discriminate|].
        intros r' [<-|Hin] Hm'; [|by apply Habs].
        eapply only_removes_absent; [exact Hrm|]. unfold file_exists. by rewrite Hnone.
      * rewrite Hf, Hstale.
        destruct (IH (os_remove w (join_path DISK_CACHE_DIR (c_file_name r))) new true)
          as (w' & Hrun & Hrm & Hreg & Habs).
        { eapply Forall_impl; [exact Hall|]. intros r' Hd Hm'.
          by apply row_dead_after_remove, Hd. }
        exists w'. rewrite Hrun, orb_true_r. cbn [orb]. split; [reflexivity|].
        split; [by eapply only_removes_step|]. split; [discriminate|].
        intros r' [<-|Hin] Hm'; [|by apply Habs].
        eapply only_removes_absent; [exact Hrm|].
        unfold file_exists, os_remove. cbn [files set_files]. by rewrite lookup_delete_eq.
    + destruct (IH w (new ++ [r]) ch Hall) as (w' & Hrun & Hrm & Hreg & Habs).
      exists w'. rewrite Hrun, <- app_assoc. split; [reflexivity|].
      split; [exact Hrm|]. split; [exact Hreg|].
      intros r' [<-|Hin] Hm'; [congruence|by apply Habs].
Qed.

End OlderLookup.

(** X19.  The older lookup [cache_exists2] cleans up after itself where
    [cache_exists] does not: when every row with the call's signature has a
    missing or stale artifact and there is at least one such row, it reports
    a miss, removes the stale artifacts, and writes a registry in which the
    function keeps exactly its rows with other signatures, or is popped when
    none is left; when no row has the signature it writes nothing. *)
Theorem cache_exists2_purges_dead_rows :
  forall (codec : Codec) (DISK_CACHE_DIR : string) (w : World) (cm : Registry)
         (fname : string) (args : list string) (kwargs : dict string)
         (rows : list CacheEntry),
    dict_get cm fname = Some (Rows rows) ->
    Forall (fun r => row_matches r (str_tuple args) (str_dict kwargs) = true
                     -> row_dead DISK_CACHE_DIR w r) rows ->
    (existsb (fun r => row_matches r (str_tuple args) (str_dict kwargs)) rows = false ->
     cache_exists2 DISK_CACHE_DIR w cm fname args kwargs = (Ok (false, VNone), cm, w))
    /\ (existsb (fun r => row_matches r (str_tuple args) (str_dict kwargs)) rows = true ->
        exists w' cm',
          cache_exists2 DISK_CACHE_DIR w cm fname args kwargs
          = (Ok (false, VNone), cm', write_cache_file w' cm')
          /\ cm' = match List.filter (other_signature (str_tuple args) (str_dict kwargs)) rows with
                   | [] => dict_pop cm fname
                   | kept => dict_set cm fname (Rows kept)
                   end
          /\ only_removes w w'
          /\ forall r, In r rows ->
               row_matches r (str_tuple args) (str_dict kwargs) = true ->
               file_exists w' (join_path DISK_CACHE_DIR (c_file_name r)) = false).
Proof.
  intros codec DIR w cm fname args kwargs rows Hget Hdead.
  destruct (exists2_rows_dead DIR w rows (str_tuple args) (str_dict kwargs) [] false Hdead)
    as (w' & Hrun & Hrm & Hsame & Habs).
  cbn [app orb] in Hrun. unfold cache_exists2. rewrite Hget, Hrun. split; intros Hex;
    rewrite Hex.
  - by rewrite (Hsame Hex).
  - exists w'. eexists. split; [reflexivity|]. split; [|split; [exact Hrm|exact Habs]].
    by destruct (List.filter _ rows).
Qed.

Lemma cache_exists2_purges_dead_rows_witness :
  exists w' cm',
    cache_exists2 "/cache" stale_pkl_world (f_registry [f_row ".pkl" (Some 15)]) "f" [] []
    = (Ok (false, VNone), cm', write_cache_file w' cm')
    /\ cm' = [(_TOTAL_NUMCACHE_KEY, Count 1)]
    /\ file_exists w' f_pkl = false.
Proof.
  destruct (cache_exists2_purges_dead_rows demo_codec "/cache" stale_pkl_world
              (f_registry [f_row ".pkl" (Some 15)]) "f" [] [] [f_row ".pkl" (Some 15)]
              eq_refl) as [_ H].
  { constructor; [|constructor]. intros _. exists 15. split; [reflexivity|]. right.
    exists (File pickled_42 (80 * day)). split; vm_compute; reflexivity. }
  destruct (H eq_refl) as (w' & cm' & Hrun & Hcm & _ & Habs).
  exists w', cm'. split; [exact Hrun|]. split; [exact Hcm|].
  apply (Habs (f_row ".pkl" (Some 15))); [by left | reflexivity].
Defined.

(** ** Memory maps renamed into the cache *)

Section MemmapFacts.

Context {codec : Codec}.
Variable DISK_CACHE_DIR : string.

(** For a memory map that is to be renamed the store writes no artifact;
    it only appends the row and saves the registry. *)
Lemma cache_function_value_memmap w old a nd cm fname args kw k rows :
  fname <> _TOTAL_NUMCACHE_KEY ->
  dict_get cm _TOTAL_NUMCACHE_KEY = Some (Count k) ->
  (dict_get cm fname = None /\ rows = []) \/ dict_get cm fname = Some (Rows rows) ->
  cache_function_value DISK_CACHE_DIR w (VMemmap old a) nd cm true fname args kw
  = (Ok (join_path DISK_CACHE_DIR (signature_key fname args kw +:+ ".npy")),
     write_cache_file w
       (dict_set
          (dict_set cm fname
             (Rows (rows ++ [Entry (str_tuple args) (str_dict kw)
                               (signature_key fname args kw +:+ ".npy") nd])))
          _TOTAL_NUMCACHE_KEY (Count (k + 1)))).
Proof.
  intros Hne Htot Hrows. unfold cache_function_value.
  destruct (String.eqb_spec fname _TOTAL_NUMCACHE_KEY) as [|_]; [done|].
  cbn [is_ndarray pickle_big_data].
  assert (Hgot : match dict_get cm fname with
                 | None => Ok []
                 | Some (Rows l) => Ok l
                 | Some (Count _) => Raise AttributeError
                 end = Ok rows).
  { destruct Hrows as [[-> ->] | ->]; reflexivity. }
  rewrite Hgot, dict_get_set_ne, Htot by done. reflexivity.
Qed.

Lemma rename_np_memmap_registry w from_filepath file_path dt sh :
  registry_file (snd (rename_np_memmap w from_filepath file_path dt sh)) = registry_file w.
Proof.
  unfold rename_np_memmap.
  destruct (String.eqb from_filepath file_path).
  - destruct (files _ !! file_path) as [f0|]; [destruct (np_memmap _ dt sh)|]; reflexivity.
  - destruct (files _ !! from_filepath) as [f0|]; [|reflexivity].
    destruct (files _ !! file_path) as [f1|]; [destruct (np_memmap _ dt sh)|]; reflexivity.
Qed.

End MemmapFacts.

(** X20.  Take a call whose keywords bind, for a signature with no
    artifact and no row in the registry, whose computation leaves its
    arguments rendering as before and returns a memory map of an existing
    backing file outside the artifact's path, with renaming on.  The first
    call moves the backing file into the cache as the artifact, bytes and
    modification time unchanged, and returns a memory map of the new path;
    the old path is gone.  The artifact's age is therefore the backing
    file's: at any time at which that age exceeds a non-zero TTL, the next
    lookup reports a miss and removes the artifact, after which the data is
    at neither path. *)
Theorem renamed_memmap_keeps_backing_age :
  forall (codec : Codec) (DISK_CACHE_DIR : string) (f : Wrapped) (w : World)
         (c : counters) (args : list string) (kwargs : dict string)
         (old : string) (a : ndarray) (fb : file) (n : Z),
    except_arg_names f = [] \/ args = [] ->
    keywords_bind f kwargs ->
    func_name f <> _TOTAL_NUMCACHE_KEY ->
    rename_np_memmap_file f = true ->
    n_days_to_cache f = Some n ->
    original_func f args kwargs = Returns (VMemmap old a) args kwargs ->
    files w !! old = Some fb ->
    np_memmap (f_data fb) (dtype a) (shape a) = Ok a ->
    old <> artifact_path DISK_CACHE_DIR
             (signature_key (func_name f) args (pop_excluded (except_arg_names f) kwargs))
             (VMemmap old a) ->
    old <> artifact_path DISK_CACHE_DIR
             (signature_key (func_name f) args (pop_excluded (except_arg_names f) kwargs))
             (VMemmap old a) +:+ ".json" ->
    (forall d, registry_file w = Some d ->
               registry_lacks d (func_name f) (str_tuple args)
                 (str_dict (pop_excluded (except_arg_names f) kwargs))) ->
    resolve_artifact DISK_CACHE_DIR w
      (signature_key (func_name f) args (pop_excluded (except_arg_names f) kwargs)) = None ->
    exists w1 cm1,
      wrapper DISK_CACHE_DIR f w c args kwargs
      = (Ok (VMemmap
               (artifact_path DISK_CACHE_DIR
                  (signature_key (func_name f) args
                     (pop_excluded (except_arg_names f) kwargs)) (VMemmap old a)) a),
         w1, Counters (hits c) (S (misses c)) (nocache c) (S (runs c)))
      /\ registry_file w1 = Some cm1
      /\ files w1 !! old = None
      /\ files w1 !! artifact_path DISK_CACHE_DIR
                       (signature_key (func_name f) args
                          (pop_excluded (except_arg_names f) kwargs)) (VMemmap old a)
         = Some fb
      /\ forall t,
           is_stale ((t - f_mtime fb) / microseconds_per_day) n = true ->
           cache_exists DISK_CACHE_DIR (at_time t w1) cm1 (func_name f)
             (except_arg_names f) args kwargs
           = (Ok (false, VNone),
              os_remove (at_time t w1)
                (artifact_path DISK_CACHE_DIR
                   (signature_key (func_name f) args
                      (pop_excluded (except_arg_names f) kwargs)) (VMemmap old a))).
Proof.
  intros codec DIR f w c args kwargs old a fb n
         Hpre [Hb1 Hb2] Hname Hren Hn Hf Hold Hmap Hne Hne' Hreg Hnone.
  set (kw := pop_excluded (except_arg_names f) kwargs) in *.
  set (key := signature_key (func_name f) args kw) in *.
  unfold artifact_path in *. cbn [is_ndarray] in *.
  set (path := join_path DIR (key +:+ ".npy")) in *.
  destruct (load_cache_metadata_json_spec w) as (cm & Hload & Hcm).
  set (w0 := Mk_World (Some cm) (files w) (today w)) in *.
  assert (Hlacks : registry_lacks cm (func_name f) (str_tuple args) (str_dict kw)).
  { destruct Hcm as [Hd | [_ ->]]; [by apply Hreg|].
    split; [by exists 0|]. left. unfold empty_registry. cbn [dict_get].
    destruct (String.eqb_spec _TOTAL_NUMCACHE_KEY (func_name f)); [congruence|done]. }
  destruct Hlacks as [[k Htot] Hrows].
  assert (Hrows' : exists rows,
             ((dict_get cm (func_name f) = None /\ rows = [])
              \/ dict_get cm (func_name f) = Some (Rows rows))
             /\ Forall (fun r => row_matches r (str_tuple args) (str_dict kw) = false) rows).
  { destruct Hrows as [Hnone' | (rows & Hr & Hall)];
      [exists []; split; [by left | constructor] | exists rows; auto]. }
  destruct Hrows' as (rows & Hget & Hall).
  set (new := Entry (str_tuple args) (str_dict kw) (key +:+ ".npy") (Some n)).
  set (cm2 := dict_set (dict_set cm (func_name f) (Rows (rows ++ [new])))
                _TOTAL_NUMCACHE_KEY (Count (k + 1))).
  set (w2 := write_cache_file w0 cm2).
  assert (Hold2 : files w2 !! old = Some fb) by exact Hold.
  pose proof (rename_np_memmap_moves w2 old path (dtype a) (shape a) fb a
                Hne Hne' Hold2 Hmap) as Hrn.
  match type of Hrn with _ = (_, ?x) => set (w1 := x) in * end.
  assert (Hgone : files w1 !! old = None).
  { unfold w1. cbn [files]. rewrite lookup_insert_ne by done. apply lookup_delete_eq. }
  assert (Hthere : files w1 !! path = Some fb)
    by (unfold w1; cbn [files]; apply lookup_insert_eq).
  exists w1, cm2.
  split; [|split; [reflexivity|split; [exact Hgone|split; [exact Hthere|]]]].
  - unfold wrapper, wrapper_lookup. rewrite Hload, Hb1.
    rewrite (cache_exists_no_artifact DIR w0 cm _ _ _ _ Hpre Hnone), Hf.
    unfold wrapper_store. rewrite (assert_passes _ _ Hpre).
    rewrite (load_existing w0 cm eq_refl). fold kw. rewrite Hb2, Hn, Hren.
    rewrite (cache_function_value_memmap DIR w0 old a (Some n) cm _ args kw k rows
               Hname Htot Hget).
    fold kw key path new cm2 w2. by rewrite Hrn.
  - intros t Hstale.
    rewrite (cache_exists_resolved DIR (at_time t w1) cm2 (func_name f)
               (except_arg_names f) args kwargs (rows ++ [new]) path fb n Hpre).
    + cbn [today at_time]. by rewrite Hstale.
    + unfold cm2. rewrite dict_get_set_ne by done. apply dict_get_set_eq.
    + fold kw key. unfold resolve_artifact, file_exists. fold path.
      cbn [files at_time]. by rewrite Hthere.
    + exact Hthere.
    + fold kw. rewrite (find_max_age_first rows new [] _ _ Hall); [reflexivity|].
      unfold row_matches, new. cbn [c_args c_kwargs]. by rewrite !String.eqb_refl.
Qed.


Lemma renamed_memmap_keeps_backing_age_witness :
  exists w1 cm1,
    wrapper "/cache" memmap_fn data_world no_counters [] []
    = (Ok (VMemmap f_npy demo_array), w1, Counters 0 1 0 1)
    /\ files w1 !! "/data/m.dat" = None
    /\ cache_exists "/cache" (at_time (100 * day) w1) cm1 "f" [] [] []
       = (Ok (false, VNone), os_remove (at_time (100 * day) w1) f_npy).
Proof.
  destruct (renamed_memmap_keeps_backing_age demo_codec "/cache" memmap_fn data_world
              no_counters [] [] "/data/m.dat" demo_array
              (File [x01; x02; x03] (40 * day)) 15)
    as (w1 & cm1 & Hcall & _ & Hgone & _ & Hlook).
  - by left.
  - split; reflexivity.
  - discriminate.
  - reflexivity.
  - reflexivity.
  - reflexivity.
  - reflexivity.
  - reflexivity.
  - vm_compute. discriminate.
  - vm_compute. discriminate.
  - intros d [= <-]. split; [by exists 0|]. by left.
  - vm_compute. reflexivity.
  - exists w1, cm1. split; [exact Hcall|]. split; [exact Hgone|].
    apply Hlook. vm_compute. reflexivity.
Defined.

(** ** The renaming pass *)

Lemma py_split_nonempty sep s : py_split sep s <> [].
Proof. destruct s as [|c s]; cbn; [done|]. destruct (Ascii.eqb c sep); [done|]. by destruct (py_split sep s). Qed.

Lemma py_split_no_sep sep s : has_char sep s = false -> py_split sep s = [s].
Proof.
  induction s as [|c s IH]; cbn [has_char py_split]; [done|].
  rewrite (Ascii.eqb_sym c sep). destruct (Ascii.eqb sep c); [discriminate|].
  intros H. by rewrite IH.
Qed.

Lemma py_split_parts sep s : Forall (fun y => has_char sep y = false) (py_split sep s).
Proof.
  induction s as [|c s IH]; cbn [py_split]; [by repeat constructor|].
  destruct (Ascii.eqb c sep) eqn:E; [by constructor|].
  destruct (py_split sep s) as [|y l]; [repeat constructor; cbn|].
  - rewrite Ascii.eqb_sym. by rewrite E.
  - apply Forall_cons in IH. destruct IH as [Hy Hl]. constructor; [|exact Hl].
    cbn [has_char]. rewrite Ascii.eqb_sym. by rewrite E.
Qed.

Lemma py_split_app sep x p :
  py_split sep (x +:+ String sep p) = py_split sep x ++ py_split sep p.
Proof.
  induction x as [|c x IH].
  - change (EmptyString +:+ String sep p) with (String sep p). cbn [py_split].
    by rewrite Ascii.eqb_refl.
  - rewrite str_app_cons. cbn [py_split]. rewrite IH.
    destruct (Ascii.eqb c sep); [reflexivity|].
    pose proof (py_split_nonempty sep x). by destruct (py_split sep x).
Qed.

Lemma last_app_nonempty {A} (l1 l2 : list A) (d : A) :
  l2 <> [] -> List.last (l1 ++ l2) d = List.last l2 d.
Proof.
  intros Hne. induction l1 as [|x l1 IH]; [reflexivity|]. cbn [app].
  change (List.last (x :: l1 ++ l2) d)
    with (match l1 ++ l2 with [] => x | _ => List.last (l1 ++ l2) d end).
  destruct (l1 ++ l2) eqn:E; [|exact IH]. by destruct l1, l2.
Qed.

Lemma file_postfix_no_dot s : has_char "."%char (file_postfix_of s) = false.
Proof.
  unfold file_postfix_of. pose proof (py_split_parts "."%char s) as Hall.
  pose proof (py_split_nonempty "."%char s) as Hne.
  induction Hall as [|y l Hy Hl IH]; [done|].
  destruct l as [|z l]; [exact Hy|]. apply IH. discriminate.
Qed.

Lemma file_postfix_of_dotted x p :
  has_char "."%char p = false -> file_postfix_of (x +:+ "." +:+ p) = p.
Proof.
  intros Hp. unfold file_postfix_of.
  change ("." +:+ p) with (String "."%char p).
  rewrite py_split_app, (py_split_no_sep _ p Hp), last_app_nonempty by done. reflexivity.
Qed.

(** The name given by the pass does not change when the pass is applied to
    the row it produced. *)
Lemma hashed_name_stable fname r :
  hashed_name fname (renamed_row fname r) = hashed_name fname r.
Proof.
  unfold hashed_name, renamed_row. cbn [c_args c_kwargs c_file_name]. do 2 f_equal.
  apply file_postfix_of_dotted, file_postfix_no_dot.
Qed.

Section RenamingFacts.

Variable DISK_CACHE_DIR : string.

Lemma rename_rows_ok w fname rows keep keep' w' :
  rename_rows DISK_CACHE_DIR w fname rows keep = (Ok keep', w') ->
  keep' = keep ++ map (renamed_row fname) rows /\ Forall row_has_ttl rows.
Proof.
  revert w keep. induction rows as [|r rows IH]; intros w keep; cbn [rename_rows map].
  - intros [= <- _]. by rewrite app_nil_r.
  - unfold int_of_max_age. destruct (c_max_age_days r) as [m|] eqn:Hm; [|discriminate].
    assert (Httl : row_has_ttl r) by (by exists m).
    destruct (String.eqb_spec (c_file_name r) (hashed_name fname r)) as [Heq|Hne];
      cbn [negb].
    + intros H. destruct (IH _ _ H) as [-> Hall]. split; [|by constructor].
      rewrite <- app_assoc. do 2 f_equal. destruct r. unfold renamed_row.
      cbn in *. by rewrite <- Heq, Hm.
    + destruct (os_rename w _ _) as [w1|e]; [|discriminate].
      intros H. destruct (IH _ _ H) as [-> Hall]. split; [|by constructor].
      rewrite <- app_assoc. do 2 f_equal. unfold renamed_row. by rewrite Hm.
Qed.

Lemma rename_rows_fixed w fname rows keep :
  Forall (fun r => row_has_ttl r /\ c_file_name r = hashed_name fname r) rows ->
  rename_rows DISK_CACHE_DIR w fname rows keep = (Ok (keep ++ rows), w).
Proof.
  intros Hall. revert keep. induction Hall as [|r rows [[m Hm] Hname] _ IH]; intros keep;
    cbn [rename_rows].
  - by rewrite app_nil_r.
  - unfold int_of_max_age. rewrite Hm. rewrite <- Hname at 1. rewrite String.eqb_refl.
    cbn [negb]. by rewrite IH, <- app_assoc.
Qed.

Lemma dict_set_at {V} (done rest : dict V) (k : string) (v v' : V) :
  ~ In k (map fst done) ->
  dict_set (done ++ (k, v) :: rest) k v' = done ++ (k, v') :: rest.
Proof.
  induction done as [|[k0 v0] done IH]; cbn [app map fst In dict_set]; intros Hnotin.
  - by rewrite String.eqb_refl.
  - destruct (String.eqb_spec k0 k) as [->|_]; [tauto|]. f_equal. apply IH. tauto.
Qed.

Lemma rename_items_ok w items done cm' w' :
  List.NoDup (map fst (done ++ items)) ->
  rename_items DISK_CACHE_DIR w items (done ++ items) = (Ok cm', w') ->
  cm' = done ++ map renamed_item items /\ Forall item_ok items.
Proof.
  revert w done. induction items as [|[fn val] items IH]; intros w done Hnd;
    cbn [rename_items map].
  - intros [= <- _]. done.
  - assert (Hnotin : ~ In fn (map fst done)).
    { rewrite map_app in Hnd. cbn [map fst] in Hnd.
      apply List.NoDup_remove_2 in Hnd. intros Hin. apply Hnd, in_or_app. by left. }
    destruct (String.eqb_spec fn _TOTAL_NUMCACHE_KEY) as [->|Hne].
    + intros H. replace (done ++ (_TOTAL_NUMCACHE_KEY, val) :: items)
        with ((done ++ [(_TOTAL_NUMCACHE_KEY, val)]) ++ items) in H, Hnd
        by (by rewrite <- app_assoc).
      destruct (IH _ _ Hnd H) as [-> Hall]. split.
      * rewrite <- app_assoc. cbn [app]. do 2 f_equal. unfold renamed_item.
        by destruct val.
      * constructor; [by left|exact Hall].
    + destruct val as [n|rows]; [discriminate|].
      destruct (rename_rows DISK_CACHE_DIR w fn rows []) as [[keep|e] w1] eqn:Hrows;
        [|discriminate].
      destruct (rename_rows_ok _ _ _ _ _ _ Hrows) as [-> Httl]. cbn [app].
      rewrite dict_set_at by done.
      intros H. replace (done ++ (fn, Rows (map (renamed_row fn) rows)) :: items)
        with ((done ++ [(fn, Rows (map (renamed_row fn) rows))]) ++ items) in H
        by (by rewrite <- app_assoc).
      destruct (IH w1 (done ++ [(fn, Rows (map (renamed_row fn) rows))])) as [-> Hall];
        [|exact H|].
      * rewrite <- app_assoc, map_app in *. exact Hnd.
      * split.
        -- rewrite <- app_assoc. cbn [app]. do 2 f_equal. unfold renamed_item.
           by destruct (String.eqb_spec fn _TOTAL_NUMCACHE_KEY).
        -- constructor; [right; eauto|exact Hall].
Qed.

Lemma rename_items_fixed w items done :
  List.NoDup (map fst (done ++ items)) ->
  Forall (fun item => item.1 = _TOTAL_NUMCACHE_KEY
                      \/ exists rows, item.2 = Rows rows
                           /\ Forall (fun r => row_has_ttl r
                                               /\ c_file_name r = hashed_name item.1 r) rows)
         items ->
  rename_items DISK_CACHE_DIR w items (done ++ items) = (Ok (done ++ items), w).
Proof.
  intros Hnd Hall. revert done Hnd.
  induction Hall as [|[fn val] items Hit _ IH]; intros done Hnd; cbn [rename_items];
    [reflexivity|].
  assert (Hnotin : ~ In fn (map fst done)).
  { rewrite map_app in Hnd. cbn [map fst] in Hnd.
    apply List.NoDup_remove_2 in Hnd. intros Hin. apply Hnd, in_or_app. by left. }
  assert (Hstep : rename_items DISK_CACHE_DIR w items (done ++ (fn, val) :: items)
                  = (Ok (done ++ (fn, val) :: items), w)).
  { replace (done ++ (fn, val) :: items) with ((done ++ [(fn, val)]) ++ items) in *
      by (by rewrite <- app_assoc). by apply IH. }
  destruct (String.eqb_spec fn _TOTAL_NUMCACHE_KEY) as [->|Hne]; [exact Hstep|].
  destruct Hit as [Heq | (rows & Hval & Hrows)]; [done|]. cbn [fst snd] in *. subst val.
  rewrite (rename_rows_fixed w fn rows [] Hrows). cbn [app].
  by rewrite dict_set_at.
Qed.

End RenamingFacts.

(** X21.  When the renaming pass succeeds on a registry, the registry it
    writes is the old one with every row of every function given its hashed
    name (the key of the row's signature, a dot, the old extension), and the
    pass is idempotent: run again on the result it renames nothing and
    leaves registry and files as they are. *)
Theorem rename_to_hash_is_idempotent :
  forall (DISK_CACHE_DIR : string) (w w' : World) (d : Registry),
    registry_file w = Some d ->
    List.NoDup (map fst d) ->
    cache_exists_rename_to_hash DISK_CACHE_DIR w = (Ok tt, w') ->
    registry_file w' = Some (map renamed_item d)
    /\ cache_exists_rename_to_hash DISK_CACHE_DIR w' = (Ok tt, w').
Proof.
  intros DIR w w' d Hd Hnd. unfold cache_exists_rename_to_hash at 1.
  rewrite (load_existing w d Hd).
  destruct (rename_items DIR w d d) as [[cm'|e] w1] eqn:Hrun; [|discriminate].
  intros [= <-].
  destruct (rename_items_ok DIR w d [] cm' w1 Hnd Hrun) as [-> Hok]. cbn [app] in *.
  split; [reflexivity|]. unfold cache_exists_rename_to_hash.
  rewrite (load_existing (write_cache_file w1 (map renamed_item d)) _ eq_refl).
  rewrite (rename_items_fixed DIR _ (map renamed_item d) []); [reflexivity| |].
  - cbn [app]. rewrite map_map.
    replace (map (fun x => (renamed_item x).1) d) with (map fst d); [exact Hnd|].
    apply map_ext. intros [fn [n|rows]]; cbn; [reflexivity|].
    by destruct (String.eqb fn _TOTAL_NUMCACHE_KEY).
  - apply Forall_forall. intros item Hin. apply list_elem_of_In, in_map_iff in Hin.
    destruct Hin as ([fn val] & <- & Hin).
    assert (Hitem : item_ok (fn, val)).
    { eapply Forall_forall in Hok; [exact Hok|]. by apply list_elem_of_In. }
    unfold renamed_item.
    destruct Hitem as [Heq | (rows & Hval & Httl)]; cbn [fst snd] in *.
    + subst fn. left. by destruct val.
    + subst val. destruct (String.eqb_spec fn _TOTAL_NUMCACHE_KEY) as [->|Hne];
        [by left|]. right. exists (map (renamed_row fn) rows). split; [reflexivity|].
      cbn [fst]. apply Forall_forall. intros r' Hr'.
      apply list_elem_of_In, in_map_iff in Hr'. destruct Hr' as (r & <- & Hr).
      split.
      * eapply Forall_forall in Httl; [|by apply list_elem_of_In].
        destruct Httl as [m Hm]. by exists m.
      * by rewrite hashed_name_stable.
Qed.

Lemma rename_to_hash_is_idempotent_witness :
  registry_file (snd (cache_exists_rename_to_hash "/cache" legacy_world))
  = Some (map renamed_item (f_registry [Entry "()" "{}" "7.pkl" (Some 15)]))
  /\ cache_exists_rename_to_hash "/cache"
       (snd (cache_exists_rename_to_hash "/cache" legacy_world))
     = (Ok tt, snd (cache_exists_rename_to_hash "/cache" legacy_world)).
Proof.
  apply (rename_to_hash_is_idempotent "/cache" legacy_world _
           (f_registry [Entry "()" "{}" "7.pkl" (Some 15)])).
  - reflexivity.
  - vm_compute. constructor; [|constructor; [|constructor]]; cbn; intuition discriminate.
  - vm_compute. reflexivity.
Defined.

(** ** Keywords named like a parameter of the cache *)

(** X22.  A keyword of the call named [cache_metadata], [function_name] or
    [except_arg_names] makes the wrapper raise [TypeError] when it calls the
    lookup: the computation is not run, nothing is counted, and nothing has
    happened but the creation of a missing registry file.  A keyword named
    like a parameter of [cache_function_value] that is still there when the
    exclusions are popped lets the lookup through; the computation runs, a
    miss is counted, and the store raises [TypeError] with nothing written:
    such a call is computed every time and never cached. *)
Theorem reserved_keywords_raise :
  forall (codec : Codec) (DISK_CACHE_DIR : string) (f : Wrapped) (w : World)
         (c : counters) (args : list string) (kwargs : dict string),
    (binds_twice cache_exists_params kwargs = true ->
     wrapper DISK_CACHE_DIR f w c args kwargs
     = (Raise TypeError, snd (load_cache_metadata_json w), c))
    /\ (forall (x v : value) (w2 : World) (args' : list string) (kwargs' : dict string),
          wrapper_lookup DISK_CACHE_DIR f w args kwargs = (Ok (false, x), w2) ->
          original_func f args kwargs = Returns v args' kwargs' ->
          except_arg_names f = [] \/ args' = [] ->
          binds_twice cache_function_value_params
            (pop_excluded (except_arg_names f) kwargs') = true ->
          wrapper DISK_CACHE_DIR f w c args kwargs
          = (Raise TypeError, w2,
             Counters (hits c) (S (misses c)) (nocache c) (S (runs c)))).
Proof.
  intros codec DIR f w c args kwargs. split.
  - intros Hb. unfold wrapper, wrapper_lookup.
    destruct (load_cache_metadata_json w) as [cm w1]. by rewrite Hb.
  - intros x v w2 args' kwargs' Hcall Hf Hpre Hb.
    destruct (wrapper_lookup_ok DIR f w args kwargs _ _ Hcall) as [_ Hlook].
    pose proof (cache_exists_effect DIR (snd (load_cache_metadata_json w))
                  (fst (load_cache_metadata_json w)) (func_name f)
                  (except_arg_names f) args kwargs) as Heff.
    cbv zeta in Heff. rewrite Hlook in Heff. cbn [snd] in Heff.
    assert (Hreg : exists cm, registry_file w2 = Some cm).
    { destruct (load_cache_metadata_json_spec w) as (cm & Hload & _).
      rewrite Hload in Heff. cbn [snd] in Heff. exists cm.
      by destruct Heff as [->|(p & _ & ->)]. }
    destruct Hreg as [cm Hreg].
    unfold wrapper. rewrite Hcall, Hf. unfold wrapper_store.
    rewrite (assert_passes _ _ Hpre), (load_existing w2 cm Hreg). by rewrite Hb.
Qed.

Lemma reserved_keywords_raise_witness :
  wrapper "/cache" answer_fn blank_world no_counters [] [("function_name", "'x'")]
  = (Raise TypeError, snd (load_cache_metadata_json blank_world), no_counters)
  /\ wrapper "/cache" answer_fn blank_world no_counters [] [("function_value", "1")]
     = (Raise TypeError, snd (load_cache_metadata_json blank_world), Counters 0 1 0 1).
Proof.
  destruct (reserved_keywords_raise demo_codec "/cache" answer_fn blank_world
              no_counters [] [("function_name", "'x'")]) as [Hlookup _].
  destruct (reserved_keywords_raise demo_codec "/cache" answer_fn blank_world
              no_counters [] [("function_value", "1")]) as [_ Hstore].
  split; [by apply Hlookup|].
  apply (Hstore VNone (VObj "42") _ [] [("function_value", "1")]);
    first [ reflexivity | by left ].
Defined.
